(** * Ecommerce-FYP-Backend: controllers for products, payments and settings

    A shallow embedding of the request handlers of
    [src/controllers/product.controller.js], the payment controller
    ([getAllPayments], [getPaymentAnalytics], [updatePaymentStatus]) and the
    settings controller ([getSettings], [updateSettings], [getPublicConfig])
    together with the settings schema and the mail helper, followed by the
    properties of the specification that concern them and by further
    properties of the handlers.

    JavaScript values are an inductive type, numbers are exact rationals
    extended with NaN and the two infinities (a parsed literal is rounded to
    the nearest double), the document store is a finite
    map (products) or a list in store order (payments), and every handler is
    a function from the request and the store to a response and the new
    store.  Calls that leave the process (image upload, JSON parsing of a
    client string, the clock, the server's time zone) are fields of an
    environment record, and so are the two string built-ins of the engine
    that rest on the tables of Unicode ([toLowerCase] and [trim]). *)

From Stdlib Require Import ZArith QArith Qcanon Qround Qabs Lia Ascii String List Sorted Permutation.
From stdpp Require Import base option list sorting gmap strings.

Local Open Scope Z_scope.

(* ================================================================== *)
(** * JavaScript values and the built-ins the handlers call *)
(* ================================================================== *)

Module Js.

(** A JavaScript number: NaN, an infinity, or a finite value.  Finite values
    are exact rationals in canonical form: a decimal literal is rounded to
    the nearest double when it is parsed ([to_double]), the arithmetic
    operations below are exact, and the sign of zero is not represented. *)
Inductive number : Type :=
| NaN
| Inf (negative : bool)
| Fin (q : Qc).

Definition of_Z (z : Z) : number := Fin (Q2Qc (inject_Z z)).

Definition Qc_is_zero (q : Qc) : bool := Qeq_bool q 0.
Definition Qc_ltb (a b : Qc) : bool := negb (Qle_bool b a).
Definition Qc_leb (a b : Qc) : bool := Qle_bool a b.
Definition Qc_negative (q : Qc) : bool := Qc_ltb q (Q2Qc 0).

(** [a < b], [a > b], [a >= b], [a <= b]: every comparison with NaN is false. *)
Definition lt (a b : number) : bool :=
  match a, b with
  | NaN, _ | _, NaN => false
  | Fin x, Fin y => Qc_ltb x y
  | Inf true, Inf true => false
  | Inf true, _ => true
  | _, Inf true => false
  | Inf false, _ => false
  | _, Inf false => true
  end.

Definition gt (a b : number) : bool := lt b a.

Definition le (a b : number) : bool :=
  match a, b with
  | NaN, _ | _, NaN => false
  | Fin x, Fin y => Qc_leb x y
  | Inf true, _ => true
  | _, Inf false => true
  | Inf false, _ => false
  | _, Inf true => false
  end.

Definition ge (a b : number) : bool := le b a.

(** [a - b] *)
Definition sub (a b : number) : number :=
  match a, b with
  | NaN, _ | _, NaN => NaN
  | Fin x, Fin y => Fin (x - y)%Qc
  | Inf s, Inf t => if Bool.eqb s t then NaN else Inf s
  | Inf s, Fin _ => Inf s
  | Fin _, Inf t => Inf (negb t)
  end.

(** [a + b] *)
Definition add (a b : number) : number :=
  match a, b with
  | NaN, _ | _, NaN => NaN
  | Fin x, Fin y => Fin (x + y)%Qc
  | Inf s, Inf t => if Bool.eqb s t then Inf s else NaN
  | Inf s, Fin _ => Inf s
  | Fin _, Inf t => Inf t
  end.

(** [a * b] *)
Definition mul (a b : number) : number :=
  match a, b with
  | NaN, _ | _, NaN => NaN
  | Fin x, Fin y => Fin (x * y)%Qc
  | Inf s, Inf t => Inf (xorb s t)
  | Inf s, Fin y | Fin y, Inf s =>
      if Qc_is_zero y then NaN else Inf (xorb s (Qc_negative y))
  end.

(** [a / b]: a finite non-zero value over zero is an infinity, 0/0 is NaN. *)
Definition div (a b : number) : number :=
  match a, b with
  | NaN, _ | _, NaN => NaN
  | Fin x, Fin y =>
      if Qc_is_zero y
      then (if Qc_is_zero x then NaN else Inf (Qc_negative x))
      else Fin (x / y)%Qc
  | Inf _, Inf _ => NaN
  | Inf s, Fin y => Inf (xorb s (Qc_negative y))
  | Fin _, Inf _ => of_Z 0
  end.

(** [Math.ceil] *)
Definition Math_ceil (a : number) : number :=
  match a with
  | Fin x => of_Z (Qceiling x)
  | _ => a
  end.

(** The values a JSON body, a multipart form or a query string can put in a
    field read by the handlers.  Arrays and nested objects are left out. *)
Inductive value : Type :=
| VUndefined
| VNull
| VBool (b : bool)
| VNum (n : number)
| VStr (s : string).

(** ToBoolean, as applied by [if (x)], [!x], [x || y] and [x && y]. *)
Definition truthy (v : value) : bool :=
  match v with
  | VUndefined | VNull => false
  | VBool b => b
  | VNum NaN => false
  | VNum (Inf _) => true
  | VNum (Fin q) => negb (Qc_is_zero q)
  | VStr s => negb (String.eqb s "")
  end.

(** [v !== undefined] *)
Definition defined (v : value) : bool :=
  match v with VUndefined => false | _ => true end.

(** [v === 'true'] *)
Definition is_str_true (v : value) : bool :=
  match v with VStr s => String.eqb s "true" | _ => false end.

(** A destructuring default: [const { x = d } = obj]. *)
Definition default_to {A} (d : A) (x : option A) : A :=
  match x with Some a => a | None => d end.

(** ** Characters *)

Definition code (c : ascii) : Z := Z.of_N (N_of_ascii c).

(** White space skipped by [parseInt], [parseFloat] and [trim] (the ASCII
    part of it: tab, line feed, vertical tab, form feed, carriage return,
    space). *)
Definition is_ws (c : ascii) : bool :=
  let n := code c in ((9 <=? n) && (n <=? 13)) || (n =? 32).

Definition dec_digit (c : ascii) : option Z :=
  let n := code c in
  if (48 <=? n) && (n <=? 57) then Some (n - 48) else None.

Definition hex_digit (c : ascii) : option Z :=
  let n := code c in
  if (48 <=? n) && (n <=? 57) then Some (n - 48)
  else if (97 <=? n) && (n <=? 102) then Some (n - 87)
  else if (65 <=? n) && (n <=? 70) then Some (n - 55)
  else None.

Definition lower_char (c : ascii) : ascii :=
  let n := code c in
  if (65 <=? n) && (n <=? 90) then ascii_of_N (Z.to_N (n + 32)) else c.

(** Lower case on ASCII text: the letters A to Z are folded and every other
    character is kept. *)
Fixpoint toLowerCase (s : string) : string :=
  match s with
  | EmptyString => EmptyString
  | String c r => String (lower_char c) (toLowerCase r)
  end.


(** [hay.includes(needle)] *)
Fixpoint includes (hay needle : string) : bool :=
  if String.prefix needle hay then true
  else match hay with
       | EmptyString => false
       | String _ r => includes r needle
       end.

Fixpoint skip_ws (s : string) : string :=
  match s with
  | String c r => if is_ws c then skip_ws r else s
  | EmptyString => EmptyString
  end.

Fixpoint rev_string (s acc : string) : string :=
  match s with
  | EmptyString => acc
  | String c r => rev_string r (String c acc)
  end.

(** Trimming on ASCII text: the white space of [is_ws] is removed at both
    ends. *)
Definition trim (s : string) : string :=
  rev_string (skip_ws (rev_string (skip_ws s) "")) "".

(** The engine that runs the handlers, for the two string built-ins whose
    Unicode tables are not reproduced here: [String.prototype.toLowerCase]
    maps every character by the case mapping of Unicode, and
    [String.prototype.trim] removes the white space and the line terminators
    of Unicode at both ends. *)
Record Engine : Type := {
  String_toLowerCase : string -> string;
  String_trim : string -> string
}.

Fixpoint is_ascii (s : string) : bool :=
  match s with
  | EmptyString => true
  | String c r => (code c <? 128) && is_ascii r
  end.

(** What is known of the engine's [toLowerCase]: on ASCII text it folds the
    letters A to Z and keeps every other character. *)
Definition lowers_ascii (engine : Engine) : Prop :=
  forall s, is_ascii s = true -> String_toLowerCase engine s = toLowerCase s.

(** ** parseInt and parseFloat *)

(** An optional leading sign: [(negative, rest)]. *)
Definition take_sign (s : string) : bool * string :=
  match s with
  | String c r =>
      if Ascii.eqb c "-" then (true, r)
      else if Ascii.eqb c "+" then (false, r)
      else (false, s)
  | EmptyString => (false, s)
  end.

(** The longest prefix of digits in the given radix: its value, how many
    digits were read, and the rest of the string. *)
Fixpoint read_digits (digit : ascii -> option Z) (radix : Z)
    (s : string) (acc : Z) (n : nat) : Z * nat * string :=
  match s with
  | String c r =>
      match digit c with
      | Some d => read_digits digit radix r (acc * radix + d) (S n)
      | None => (acc, n, s)
      end
  | EmptyString => (acc, n, s)
  end.

(** A ["0x"] or ["0X"] prefix switches [parseInt] to radix 16. *)
Definition take_hex_prefix (s : string) : option string :=
  match s with
  | String c0 (String c1 r) =>
      if Ascii.eqb c0 "0" && (Ascii.eqb c1 "x" || Ascii.eqb c1 "X")
      then Some r else None
  | _ => None
  end.

(** [parseInt(s)] with no radix argument. *)
Definition parseInt_string (s : string) : number :=
  let '(neg, s1) := take_sign (skip_ws s) in
  let '(m, n, _) :=
    match take_hex_prefix s1 with
    | Some r => read_digits hex_digit 16 r 0 O
    | None => read_digits dec_digit 10 s1 0 O
    end in
  match n with
  | O => NaN
  | S _ => of_Z (if neg then - m else m)
  end.

(** The exponent part [e[+-]digits] of a decimal literal; it is only
    consumed when at least one digit follows. *)
Definition read_exponent (s : string) : Z :=
  match s with
  | String c r =>
      if Ascii.eqb c "e" || Ascii.eqb c "E" then
        let '(neg, r1) := take_sign r in
        let '(e, n, _) := read_digits dec_digit 10 r1 0 O in
        match n with O => 0 | S _ => if neg then - e else e end
      else 0
  | EmptyString => 0
  end.

Definition pow10 (e : Z) : Qc :=
  if e <? 0 then Q2Qc (1 # Pos.pow 10 (Z.to_pos (- e)))
  else Q2Qc (inject_Z (10 ^ e)).

(** ** Doubles *)

(** [floor (log2 q)] for a positive rational. *)
Definition binade (q : Q) : Z :=
  let e := Z.log2 (Qnum q) - Z.log2 (Z.pos (Qden q)) in
  if Qle_bool (Qpower 2 e) q then e else e - 1.

(** The integer nearest to a rational, the even one of two that are equally
    near. *)
Definition round_half_even (q : Q) : Z :=
  let f := Qfloor q in
  match Qcompare (q - inject_Z f) (1 # 2) with
  | Lt => f
  | Gt => f + 1
  | Eq => if Z.even f then f else f + 1
  end.

(** The Number value of a real: the nearest binary64 double, the one with an
    even significand of two that are equally near.  The significand has 53
    bits down to the exponent -1022 and fewer below (subnormals, in steps of
    [2^-1074]); a magnitude that rounds to [2^1024] is an infinity. *)
Definition to_double (q : Qc) : number :=
  if Qc_is_zero q then Fin q
  else
    let a := Qabs q in
    let e := Z.max (binade a) (-1022) in
    let ulp := Qpower 2 (e - 52) in
    let r := (inject_Z (round_half_even (a / ulp)) * ulp)%Q in
    if Qle_bool (Qpower 2 1024) r then Inf (Qc_negative q)
    else Fin (Q2Qc (Qred (if Qc_negative q then - r else r))).

(** [parseFloat(s)]: the longest prefix that is a decimal literal, or
    ["Infinity"], after white space and a sign; the value of the literal is
    rounded to a double. *)
Definition parseFloat_string (s : string) : number :=
  let '(neg, s1) := take_sign (skip_ws s) in
  if String.prefix "Infinity" s1 then Inf neg
  else
    let '(ip, ni, s2) := read_digits dec_digit 10 s1 0 O in
    let '(fp, nf, s3) :=
      match s2 with
      | String c r =>
          if Ascii.eqb c "." then read_digits dec_digit 10 r 0 O
          else (0, O, s2)
      | EmptyString => (0, O, s2)
      end in
    match ni, nf with
    | O, O => NaN
    | _, _ =>
        let mant :=
          (Q2Qc (inject_Z ip) + Q2Qc (inject_Z fp) * pow10 (- Z.of_nat nf))%Qc in
        let v := (mant * pow10 (read_exponent s3))%Qc in
        to_double (if neg then (- v)%Qc else v)
    end.

(** [parseFloat(v)]: the argument is first converted to a string.  A number
    prints and parses back to itself; [true], [false], [null] and [undefined]
    print as words and parse to NaN. *)
Definition parseFloat (v : value) : number :=
  match v with
  | VStr s => parseFloat_string s
  | VNum n => n
  | _ => NaN
  end.

(** [parseInt(v)].  A finite number prints in positional notation (for a
    magnitude below 1e21 and from 1e-6 up), whose leading integer is the
    number truncated toward zero. *)
Definition parseInt (v : value) : number :=
  match v with
  | VStr s => parseInt_string s
  | VNum (Fin q) => of_Z (Z.quot (Qnum q) (Z.pos (Qden q)))
  | _ => NaN
  end.

(** ** Number.prototype.toString *)

Definition decimal_digit (d : Z) : ascii := ascii_of_N (Z.to_N (48 + d mod 10)).

(** The last [width] decimal digits of [n], put in front of [acc]. *)
Fixpoint decimal_digits (width : nat) (n : Z) (acc : string) : string :=
  match width with
  | O => acc
  | S w => decimal_digits w (n / 10) (String (decimal_digit n) acc)
  end.

Fixpoint count_digits (fuel : nat) (n : Z) : nat :=
  match fuel with
  | O => 1
  | S f => if n <? 10 then 1%nat else S (count_digits f (n / 10))
  end.

(** The decimal digits of a natural number. *)
Definition decimal (n : Z) : string :=
  decimal_digits (count_digits (Z.to_nat (Z.log2 n)) n) n "".

Fixpoint scale_up (fuel : nat) (x : Q) (e : Z) : Z :=
  match fuel with
  | O => e
  | S f => if Qle_bool 1 x then e else scale_up f (x * 10) (e - 1)
  end.

(** [floor (log10 x)] for a positive double. *)
Definition exponent10 (x : Q) : Z :=
  if Qle_bool 1 x
  then Z.of_nat (count_digits (Z.to_nat (Z.log2 (Qfloor x))) (Qfloor x)) - 1
  else scale_up 400 x 0.

(** Whether the real [v] has the Number value [x]. *)
Definition is_double (x : Qc) (v : Q) : bool :=
  match to_double (Q2Qc v) with
  | Fin y => Qeq_bool y x
  | _ => false
  end.

(** The integers [s], [n], [k] of the specification of [Number::toString]:
    [k] is the least number of digits such that some [s] with [k] digits has
    [s * 10^(n-k)] read back as [x]; of two such [s] the one nearer to [x]
    is taken.  A double needs at most 17 digits. *)
Fixpoint shortest (fuel : nat) (x : Qc) (n k : Z) : Z * Z * Z :=
  let scale := Qpower 10 (n - k) in
  let lo := Qfloor (x / scale) in
  let hi := lo + 1 in
  let carry s := if s =? 10 ^ k then (10 ^ (k - 1), n + 1, k) else (s, n, k) in
  match fuel with
  | O => (lo, n, k)
  | S f =>
      match is_double x (inject_Z lo * scale), is_double x (inject_Z hi * scale) with
      | true, true =>
          match Qcompare (x / scale - inject_Z lo) (1 # 2) with
          | Lt => (lo, n, k)
          | Gt => carry hi
          | Eq => if Z.even lo then (lo, n, k) else carry hi
          end
      | true, false => (lo, n, k)
      | false, true => carry hi
      | false, false => shortest f x n (k + 1)
      end
  end.

Definition zeros (n : Z) (acc : string) : string :=
  decimal_digits (Z.to_nat n) 0 acc.

(** The digits of a positive double: positional notation when the decimal
    point lies within 21 digits to the right and 6 to the left of the first
    digit, exponential notation otherwise. *)
Definition print_positive (x : Qc) : string :=
  let '(s, n, k) := shortest 17 x (exponent10 x + 1) 1 in
  if (k <=? n) && (n <=? 21) then
    decimal_digits (S (Z.to_nat (k - 1))) s (zeros (n - k) "")
  else if (0 <? n) && (n <=? 21) then
    decimal_digits (S (Z.to_nat (n - 1))) (s / 10 ^ (k - n))
      (String "." (decimal_digits (Z.to_nat (k - n)) s ""))
  else if (-6 <? n) && (n <=? 0) then
    String "0" (String "." (zeros (- n) (decimal_digits (Z.to_nat k) s "")))
  else
    let e := n - 1 in
    decimal_digits 1 (s / 10 ^ (k - 1))
      (String.append
         (if k =? 1 then ""
          else String "." (decimal_digits (Z.to_nat (k - 1)) s ""))
         (String "e" (String (if e <? 0 then "-" else "+")
                             (decimal (Z.abs e))))).

(** [String(n)] and [n.toString()]. *)
Definition Number_toString (n : number) : string :=
  match n with
  | NaN => "NaN"
  | Inf negative => if negative then "-Infinity" else "Infinity"
  | Fin q =>
      if Qc_is_zero q then "0"
      else if Qc_negative q then String "-" (print_positive (- q)%Qc)
      else print_positive q
  end.

End Js.

(* ================================================================== *)
(** * Dates: the civil calendar, [$dateToString], [new Date(s)], [setHours] *)
(* ================================================================== *)

Module Calendar.

(** A [Date] is its time value: milliseconds since 1970-01-01T00:00:00Z;
    [None] is an Invalid Date. *)
Definition ms_per_day : Z := 24 * 60 * 60 * 1000.

(** Year, month (1..12) and day (1..31) of a day number counted from
    1970-01-01, in the proleptic Gregorian calendar. *)
Definition civil_of_days (days : Z) : Z * Z * Z :=
  let z := days + 719468 in
  let era := z / 146097 in
  let doe := z - era * 146097 in
  let yoe := (doe - doe / 1460 + doe / 36524 - doe / 146096) / 365 in
  let doy := doe - (365 * yoe + yoe / 4 - yoe / 100) in
  let mp := (5 * doy + 2) / 153 in
  let d := doy - (153 * mp + 2) / 5 + 1 in
  let m := if mp <? 10 then mp + 3 else mp - 9 in
  let y := yoe + era * 400 in
  (if m <=? 2 then y + 1 else y, m, d).

Definition days_of_civil (y m d : Z) : Z :=
  let y' := if m <=? 2 then y - 1 else y in
  let era := y' / 400 in
  let yoe := y' - era * 400 in
  let doy := (153 * (if 2 <? m then m - 3 else m + 9) + 2) / 5 + d - 1 in
  let doe := yoe * 365 + yoe / 4 - yoe / 100 + doy in
  era * 146097 + doe - 719468.

(** ISO 8601 week number (1..53): the week of a day is the week of its
    Thursday, counted within the Thursday's year. *)
Definition iso_week (days : Z) : Z :=
  let weekday := (days + 3) mod 7 in
  let thursday := days - weekday + 3 in
  let '(y, _, _) := civil_of_days thursday in
  (thursday - days_of_civil y 1 1) / 7 + 1.

Definition digit_char (d : Z) : ascii := ascii_of_N (Z.to_N (48 + d mod 10)).

(** Decimal digits of [n], zero-padded to [width] characters. *)
Fixpoint pad (width : nat) (n : Z) (acc : string) : string :=
  match width with
  | O => acc
  | S w => pad w (n / 10) (String (digit_char n) acc)
  end.

(** The three formats the analytics handler passes to [$dateToString]. *)
Inductive format : Type :=
| FmtDay    (* "%Y-%m-%d" *)
| FmtWeek   (* "%Y-W%V"   *)
| FmtMonth. (* "%Y-%m"    *)

(** [$dateToString] in UTC, for years 0 to 9999. *)
Definition dateToString (f : format) (t : Z) : string :=
  let days := t / ms_per_day in
  let '(y, m, d) := civil_of_days days in
  match f with
  | FmtDay => pad 4 y ("-" ++ pad 2 m ("-" ++ pad 2 d ""))
  | FmtWeek => pad 4 y ("-W" ++ pad 2 (iso_week days) "")
  | FmtMonth => pad 4 y ("-" ++ pad 2 m "")
  end%string.

(** Exactly [n] decimal digits at the head of [s]. *)
Fixpoint fixed_digits (n : nat) (s : string) (acc : Z) : option (Z * string) :=
  match n with
  | O => Some (acc, s)
  | S k =>
      match s with
      | String c r =>
          match Js.dec_digit c with
          | Some d => fixed_digits k r (acc * 10 + d)
          | None => None
          end
      | EmptyString => None
      end
  end.

Definition expect (c : ascii) (s : string) : option string :=
  match s with
  | String c' r => if Ascii.eqb c c' then Some r else None
  | EmptyString => None
  end.

(** The time of day [THH:mm[:ss[.sss]]] and the zone designator.  The result
    is the milliseconds within the day and whether the string ended in [Z]. *)
Definition parse_time (s : string) : option (Z * bool) :=
  s0 ← expect "T" s;
  '(h, s1) ← fixed_digits 2 s0 0;
  s2 ← expect ":" s1;
  '(mi, s3) ← fixed_digits 2 s2 0;
  '(sec, s5) ← match expect ":" s3 with
               | Some s4 => fixed_digits 2 s4 0
               | None => Some (0, s3)
               end;
  '(ms, s7) ← match expect "." s5 with
              | Some s6 => fixed_digits 3 s6 0
              | None => Some (0, s5)
              end;
  if (h <? 24) && (mi <? 60) && (sec <? 60) then
    let t := ((h * 60 + mi) * 60 + sec) * 1000 + ms in
    match s7 with
    | EmptyString => Some (t, false)
    | String c EmptyString => if Ascii.eqb c "Z" then Some (t, true) else None
    | _ => None
    end
  else None.

(** [new Date(s)] for the ISO forms [YYYY-MM-DD] (read as UTC midnight) and
    [YYYY-MM-DDTHH:mm[:ss[.sss]]] (read as local time unless it ends in [Z]).
    [tz] is the offset of the server's local time from UTC in minutes (east
    positive), taken as fixed.  Every other string is an Invalid Date here;
    the engine's fallback parser for other spellings is not modelled. *)
Definition Date_parse (tz : Z) (s : string) : option Z :=
  '(y, s1) ← fixed_digits 4 s 0;
  s2 ← expect "-" s1;
  '(m, s3) ← fixed_digits 2 s2 0;
  s4 ← expect "-" s3;
  '(d, s5) ← fixed_digits 2 s4 0;
  if (1 <=? m) && (m <=? 12) && (1 <=? d) && (d <=? 31) then
    let midnight := days_of_civil y m d * ms_per_day in
    match s5 with
    | EmptyString => Some midnight
    | _ =>
        '(t, utc) ← parse_time s5;
        Some (if (utc : bool) then midnight + t else midnight + t - tz * 60000)
    end
  else None.

(** [date.setHours(h, m, s, ms)]: the fields are set in LOCAL time, on the
    local calendar day of the date. *)
Definition setHours (tz : Z) (h m s ms : Z) (t : Z) : Z :=
  let local := t + tz * 60000 in
  let day := local / ms_per_day in
  day * ms_per_day + ((h * 60 + m) * 60 + s) * 1000 + ms - tz * 60000.

End Calendar.

(* ================================================================== *)
(** * The document store as the handlers use it *)
(* ================================================================== *)

Module Mongo.
Import Js.

(** An ObjectId is a 96-bit number; [toString] prints it as 24 lower-case
    hexadecimal digits. *)
Definition ObjectId : Type := N.

Definition hex_char (d : N) : ascii :=
  if (d <? 10)%N then ascii_of_N (48 + d) else ascii_of_N (87 + d).

Fixpoint hex_digits (k : nat) (n : N) (acc : string) : string :=
  match k with
  | O => acc
  | S k' => hex_digits k' (n / 16)%N (String (hex_char (n mod 16)%N) acc)
  end.

Definition toString (o : ObjectId) : string := hex_digits 24 o "".

Fixpoint all_hex (s : string) : bool :=
  match s with
  | EmptyString => true
  | String c r => match hex_digit c with Some _ => all_hex r | None => false end
  end.

Fixpoint bytes_value (s : string) (acc : N) : N :=
  match s with
  | EmptyString => acc
  | String c r => bytes_value r (acc * 256 + N_of_ascii c)%N
  end.

(** [mongoose.isValidObjectId(s)] for a string: 24 hexadecimal digits, or
    any 12 characters (taken as the 12 bytes of the id). *)
Definition isValidObjectId (s : string) : bool :=
  ((String.length s =? 24)%nat && all_hex s) || (String.length s =? 12)%nat.

(** The ObjectId a valid string is cast to by [findById]. *)
Definition castObjectId (s : string) : ObjectId :=
  if ((String.length s =? 24)%nat && all_hex s)
  then Z.to_N (fst (fst (read_digits hex_digit 16 s 0 O)))
  else bytes_value s 0%N.

(** Modelled from the spec: [utils/customError.js] and
    [utils/asyncHandler.js] are not among the sources.  A handler passes a
    [CustomError(status, message)] to [next], or sends a JSON answer with a
    status, or lets an exception of the store escape; all three reach the one
    boundary that turns them into the answer envelope. *)
Inductive response (A : Type) : Type :=
| Fail (status : Z) (message : string)
| Json (status : Z) (data : A)
| Thrown (what : string).
Arguments Fail {A} status message.
Arguments Json {A} status data.
Arguments Thrown {A} what.

(** The integer a number is, if it is one. *)
Definition as_integer (n : number) : option Z :=
  match n with
  | Fin q => if (Z.pos (Qden q) =? 1) then Some (Qnum q) else None
  | _ => None
  end.

(** [cursor.skip(k)]: the server rejects a negative or non-integer skip. *)
Definition cursor_skip {A} (k : number) (docs : list A) : option (list A) :=
  match as_integer k with
  | Some z => if z <? 0 then None else Some (drop (Z.to_nat z) docs)
  | None => None
  end.

(** [cursor.limit(l)]: a limit of 0 is no limit and a negative limit is its
    absolute value; NaN is rejected. *)
Definition cursor_limit {A} (l : number) (docs : list A) : option (list A) :=
  match as_integer l with
  | Some z => if z =? 0 then Some docs else Some (take (Z.to_nat (Z.abs z)) docs)
  | None => None
  end.

(** The value a document has at the field a sort is keyed on. *)
Inductive sort_key : Type :=
| KMissing
| KNum (n : number)
| KStr (s : string)
| KBool (b : bool)
| KDate (t : Z).

Definition key_rank (k : sort_key) : Z :=
  match k with
  | KMissing => 0 | KNum _ => 1 | KStr _ => 2 | KBool _ => 3 | KDate _ => 4
  end.

(** The order of the store on field values: by type first, then within the
    type; NaN sorts below every other number. *)
Definition key_leb (a b : sort_key) : bool :=
  match a, b with
  | KNum x, KNum y =>
      match x, y with
      | NaN, _ => true
      | _, NaN => false
      | _, _ => le x y
      end
  | KStr x, KStr y => String.leb x y
  | KBool x, KBool y => implb x y
  | KDate x, KDate y => x <=? y
  | _, _ => key_rank a <=? key_rank b
  end.

Fixpoint insert_by {A} (leb : A -> A -> bool) (x : A) (l : list A) : list A :=
  match l with
  | [] => [x]
  | y :: r => if leb x y then x :: l else y :: insert_by leb x r
  end.

(** Sorting by insertion; [foldr] keeps documents with equal keys in their
    stored order. *)
Definition sort_by {A} (leb : A -> A -> bool) (l : list A) : list A :=
  foldr (insert_by leb) [] l.

(** [.sort({ [field]: direction })] with [direction = -1] when [desc]. *)
Definition sort_docs {A} (key : A -> sort_key) (desc : bool) (l : list A)
  : list A :=
  sort_by (fun a b => if desc then key_leb (key b) (key a)
                      else key_leb (key a) (key b)) l.

(** One output document of a [$group] stage that counts and sums. *)
Record group (K : Type) : Type := Group {
  g_id : K;
  g_count : Z;
  g_amount : Qc
}.
Arguments Group {K} g_id g_count g_amount.
Arguments g_id {K} g.
Arguments g_count {K} g.
Arguments g_amount {K} g.

(** Adding one document to the group of its key, or opening the group. *)
Fixpoint accumulate {K} (eqb : K -> K -> bool) (k : K) (amount : Qc)
    (gs : list (group K)) : list (group K) :=
  match gs with
  | [] => [Group k 1 amount]
  | g :: r =>
      if eqb (g_id g) k
      then Group (g_id g) (g_count g + 1) (g_amount g + amount)%Qc :: r
      else g :: accumulate eqb k amount r
  end.

(** [{ $group: { _id: key, count: { $count: {} }, amount: { $sum: field } } }] *)
Definition group_stage {A K} (eqb : K -> K -> bool) (key : A -> K)
    (amount : A -> Qc) (docs : list A) : list (group K) :=
  fold_left (fun gs d => accumulate eqb (key d) (amount d) gs) docs [].

End Mongo.

(* ================================================================== *)
(** * Pagination, as both listing handlers compute it *)
(* ================================================================== *)

Module Paging.
Import Js.

(** The pagination object of a listing answer; [total] is the field the
    handlers call [totalProducts] and [totalPayments]. *)
Record Pagination : Type := {
  currentPage : number;
  totalPages : number;
  total : number;
  hasNext : bool;
  hasPrev : bool
}.

(** The page number and the page size a handler works with:
    [const { page = 1, limit = d } = req.query] followed by [parseInt]. *)
Definition page_number (page : option string) : number :=
  parseInt (default_to (VNum (of_Z 1)) (VStr <$> page)).

Definition page_size (d : Z) (limit : option string) : number :=
  parseInt (default_to (VNum (of_Z d)) (VStr <$> limit)).

(** [(parseInt(page) - 1) * parseInt(limit)] *)
Definition skip_of (page limit : number) : number :=
  mul (sub page (of_Z 1)) limit.

(** Lines 116 to 128 of [getAllProducts] and 80 to 92 of [getAllPayments]. *)
Definition pagination (page limit : number) (count : nat) : Pagination :=
  let totalDocs := of_Z (Z.of_nat count) in
  let totalPages := Math_ceil (div totalDocs limit) in
  {| currentPage := page;
     totalPages := totalPages;
     total := totalDocs;
     hasNext := lt page totalPages;
     hasPrev := gt page (of_Z 1) |}.

Record Listing (A : Type) : Type := {
  data : list A;
  pagination_of : Pagination
}.
Arguments data {A} l.
Arguments pagination_of {A} l.

End Paging.

(* ================================================================== *)
(** * controllers/product.controller.js *)
(* ================================================================== *)

Module Products.
Import Js Mongo Paging.

Definition File : Type := string.

(** What the image host returns for an uploaded file. *)
Record Upload : Type := { up_public_id : string; up_secure_url : string }.

Record Image : Type := { public_id : string; url : string }.

(** Modelled from the spec: [models/product.model.js] is not among the
    sources; the fields are those of the data model of the specification,
    which are the ones the handlers read and write.  The handlers assign
    [name], [description], [category] and, on update, [is_featured] as
    received, so these fields hold a JavaScript value; a flash-sale field
    the handler has not set (or has set to [undefined]) is [None].  What the
    schema would reject on [save] or [create] is not represented;
    [createdAt] is the creation time stamp the default sort refers to. *)
Record Product : Type := {
  name : value;
  description : value;
  price : number;
  category : value;
  stock : number;
  images : list Image;
  owner : ObjectId;
  is_featured : value;
  is_flash_sale : option bool;
  flash_sale_price : option number;
  flash_sale_start : option Z;
  flash_sale_end : option Z;
  createdAt : Z
}.

(** [req.body] *)
Record Body : Type := {
  b_name : value;
  b_description : value;
  b_price : value;
  b_category : value;
  b_stock : value;
  b_is_flash_sale : value;
  b_flash_sale_price : value;
  b_existingImages : value;
  b_is_featured : value
}.

Record Request : Type := {
  user : option ObjectId;      (* req?.user?._id *)
  params_id : string;          (* req.params.id *)
  body : Body;
  files : option (list File)   (* req.files *)
}.

(** What the handlers obtain from outside the process: the clock, the
    image host ([utils/cloudinary.js], not among the sources), the parser of
    the client's JSON text and the identifier the store gives a new
    document. *)
Record Env : Type := {
  now : Z;                                                  (* Date.now() *)
  uploadMultipleOnCloudinary : list File -> option (list Upload);
  JSON_parse : string -> option (list Image);  (* [None]: it throws *)
  new_id : ObjectId                       (* the _id given by the store *)
}.

(** Calls made to the image host. *)
Inductive effect : Type :=
| Uploaded (fs : list File)
| Removed (ids : list string).

Record World : Type := {
  products : gmap ObjectId Product;
  cloud : list effect
}.

Definition with_products (w : World) (m : gmap ObjectId Product) : World :=
  {| products := m; cloud := cloud w |}.

Definition with_effect (w : World) (e : effect) : World :=
  {| products := products w; cloud := cloud w ++ [e] |}.

Definition week_ms : Z := 7 * 24 * 60 * 60 * 1000.

Definition to_image (u : Upload) : Image :=
  {| public_id := up_public_id u; url := up_secure_url u |}.

(** The flash-sale check of [createProduct]:
    [is_flash_sale === 'true' &&
     (!flash_sale_price || parseFloat(flash_sale_price) >= parseFloat(price))] *)
Definition flash_sale_rejected (b : Body) : bool :=
  is_str_true (b_is_flash_sale b) &&
  (negb (truthy (b_flash_sale_price b)) ||
   ge (parseFloat (b_flash_sale_price b)) (parseFloat (b_price b))).

Definition createProduct (env : Env) (req : Request) (w : World)
  : response Product * World :=
  match user req with
  | None => (Fail 401 "Unauthorized", w)
  | Some ownerId =>
    let b := body req in
    if negb (truthy (b_name b)) || negb (truthy (b_description b)) ||
       negb (truthy (b_price b)) || negb (truthy (b_category b)) ||
       negb (truthy (b_stock b))
    then (Fail 400 "Please provide all required fields", w)
    else if flash_sale_rejected b
    then (Fail 400 "Flash sale price must be less than regular price", w)
    else
      match files req with
      | None | Some [] =>
          (Fail 400 "Please provide at least one product image", w)
      | Some fs =>
          let w1 := with_effect w (Uploaded fs) in
          match uploadMultipleOnCloudinary env fs with
          | None | Some [] => (Fail 500 "Failed to upload images", w1)
          | Some uploadedImages =>
              let flash := is_str_true (b_is_flash_sale b) in
              let productData := {|
                name := b_name b;
                description := b_description b;
                price := parseFloat (b_price b);
                category := b_category b;
                stock := parseInt (b_stock b);
                images := map to_image uploadedImages;
                owner := ownerId;
                is_featured :=
                  VBool (is_str_true (b_is_featured b) ||
                         match b_is_featured b with
                         | VBool true => true
                         | _ => false
                         end);
                is_flash_sale := if flash then Some true else None;
                flash_sale_price :=
                  if flash then Some (parseFloat (b_flash_sale_price b))
                  else None;
                flash_sale_start := if flash then Some (now env) else None;
                flash_sale_end :=
                  if flash then Some (now env + week_ms) else None;
                createdAt := now env
              |} in
              (Json 201 productData,
               with_products w1 (<[new_id env := productData]> (products w1)))
          end
      end
  end.

(** [Product.findById(id)] *)
Definition findById (w : World) (id : string) : option Product :=
  products w !! castObjectId id.

(** The fields of the document after the assignments of [updateProduct]
    that precede the image handling (lines 220 to 243). *)
Definition assign_fields (env : Env) (b : Body) (product : Product) : Product :=
  let price' :=
    if defined (b_price b) then parseFloat (b_price b) else price product in
  let flash_given := defined (b_is_flash_sale b) in
  let flash_on := is_str_true (b_is_flash_sale b) in
  let price_ok :=
    truthy (b_flash_sale_price b) &&
    lt (parseFloat (b_flash_sale_price b)) price' in
  {|
    name := if defined (b_name b) then b_name b else name product;
    description :=
      if defined (b_description b) then b_description b
      else description product;
    price := price';
    category :=
      if defined (b_category b) then b_category b else category product;
    stock :=
      if defined (b_stock b) then parseInt (b_stock b) else stock product;
    images := images product;
    owner := owner product;
    is_featured :=
      if truthy (b_is_featured b) then b_is_featured b
      else is_featured product;
    is_flash_sale :=
      if flash_given then Some flash_on else is_flash_sale product;
    flash_sale_price :=
      if flash_given then
        if flash_on then
          if price_ok then Some (parseFloat (b_flash_sale_price b))
          else flash_sale_price product
        else None
      else flash_sale_price product;
    flash_sale_start :=
      if flash_given then
        if flash_on then
          if price_ok then Some (now env) else flash_sale_start product
        else None
      else flash_sale_start product;
    flash_sale_end :=
      if flash_given then
        if flash_on then
          if price_ok then Some (now env + week_ms) else flash_sale_end product
        else None
      else flash_sale_end product;
    createdAt := createdAt product
  |}.

Definition with_images (p : Product) (imgs : list Image) : Product :=
  {| name := name p; description := description p; price := price p;
     category := category p; stock := stock p; images := imgs;
     owner := owner p; is_featured := is_featured p;
     is_flash_sale := is_flash_sale p;
     flash_sale_price := flash_sale_price p;
     flash_sale_start := flash_sale_start p;
     flash_sale_end := flash_sale_end p; createdAt := createdAt p |}.

(** [existingImages] is parsed only when truthy; a parse error, or a parsed
    value that cannot be spread into a list, leaves the list empty. *)
Definition kept_images (env : Env) (existingImages : value) : list Image :=
  if truthy existingImages then
    match existingImages with
    | VStr s => default_to [] (JSON_parse env s)
    | _ => []
    end
  else [].

Definition updateProduct (env : Env) (req : Request) (w : World)
  : response Product * World :=
  let productId := params_id req in
  if negb (isValidObjectId productId) then (Fail 400 "Invalid product ID", w)
  else
    match user req with
    | None => (Fail 401 "Unauthorized", w)
    | Some ownerId =>
      match findById w productId with
      | None => (Fail 404 "Product not found", w)
      | Some product =>
        if negb (String.eqb (toString (owner product)) (toString ownerId))
        then (Fail 403 "Forbidden: You do not own this product", w)
        else
          let b := body req in
          let product1 := assign_fields env b product in
          let kept := kept_images env (b_existingImages b) in
          let save (w' : World) (finalImages : list Image) :=
            let product2 :=
              match finalImages with
              | [] => product1
              | _ :: _ => with_images product1 finalImages
              end in
            (Json 200 product2,
             with_products w'
               (<[castObjectId productId := product2]> (products w'))) in
          match files req with
          | Some (f :: fs) =>
              let w1 := with_effect w (Uploaded (f :: fs)) in
              match uploadMultipleOnCloudinary env (f :: fs) with
              | None | Some [] => (Fail 500 "Failed to upload new images", w1)
              | Some uploadedImages =>
                  save w1 (kept ++ map to_image uploadedImages)
              end
          | _ => save w kept
          end
      end
    end.

Definition deleteProduct (req : Request) (w : World)
  : response unit * World :=
  let productId := params_id req in
  if negb (isValidObjectId productId) then (Fail 400 "Invalid product ID", w)
  else
    match user req with
    | None => (Fail 401 "Unauthorized", w)
    | Some ownerId =>
      match findById w productId with
      | None => (Fail 404 "Product not found", w)
      | Some product =>
        if negb (String.eqb (toString (owner product)) (toString ownerId))
        then (Fail 403 "Forbidden: You do not own this product", w)
        else
          let w1 :=
            match images product with
            | [] => w
            | imgs => with_effect w (Removed (map public_id imgs))
            end in
          (Json 200 tt,
           with_products w1 (delete (castObjectId productId) (products w1)))
      end
    end.

(** ** Listing *)

(** [req.query] of the listing route: every parameter is absent or a string. *)
Record ListQuery : Type := {
  q_page : option string;
  q_limit : option string;
  q_category : option string;
  q_minPrice : option string;
  q_maxPrice : option string;
  q_search : option string;
  q_sortBy : option string;
  q_sortOrder : option string
}.

(** The filter document built from the query string. *)
Record Filter : Type := {
  f_category : option string;     (* { $regex: category, $options: 'i' } *)
  f_price_gte : option number;    (* price.$gte *)
  f_price_lte : option number;    (* price.$lte *)
  f_search : option string        (* $or over name, description, category *)
}.

Definition nonempty (s : option string) : bool :=
  match s with Some x => negb (String.eqb x "") | None => false end.

Definition build_filter (q : ListQuery) : Filter := {|
  f_category := if nonempty (q_category q) then q_category q else None;
  f_price_gte :=
    if nonempty (q_minPrice q)
    then Some (parseFloat_string (default_to "" (q_minPrice q))) else None;
  f_price_lte :=
    if nonempty (q_maxPrice q)
    then Some (parseFloat_string (default_to "" (q_maxPrice q))) else None;
  f_search := if nonempty (q_search q) then q_search q else None
|}.

(** [{ $regex: pattern, $options: 'i' }] on a string field, for a pattern
    without regular-expression operators: a case-insensitive substring. *)
Definition regex_i (pattern : string) (field : value) : bool :=
  match field with
  | VStr s => includes (toLowerCase s) (toLowerCase pattern)
  | _ => false
  end.

Definition matches (f : Filter) (p : Product) : bool :=
  match f_category f with Some c => regex_i c (category p) | None => true end &&
  match f_price_gte f with Some lo => ge (price p) lo | None => true end &&
  match f_price_lte f with Some hi => le (price p) hi | None => true end &&
  match f_search f with
  | Some s => regex_i s (name p) || regex_i s (description p) ||
              regex_i s (category p)
  | None => true
  end.

(** A NaN bound cannot be cast to the number type of the path. *)
Definition castable (f : Filter) : bool :=
  match f_price_gte f with Some NaN => false | _ => true end &&
  match f_price_lte f with Some NaN => false | _ => true end.

Definition value_key (v : value) : sort_key :=
  match v with
  | VStr s => KStr s
  | VNum n => KNum n
  | VBool b => KBool b
  | _ => KMissing
  end.

Definition field_key (field : string) (p : Product) : sort_key :=
  if String.eqb field "createdAt" then KDate (createdAt p)
  else if String.eqb field "price" then KNum (price p)
  else if String.eqb field "stock" then KNum (stock p)
  else if String.eqb field "name" then value_key (name p)
  else if String.eqb field "description" then value_key (description p)
  else if String.eqb field "category" then value_key (category p)
  else if String.eqb field "is_featured" then value_key (is_featured p)
  else KMissing.

(** [getAllProducts].  The [populate] of the owner's name and e-mail only
    decorates the documents of the answer and is left out. *)
Definition getAllProducts (q : ListQuery) (w : World)
  : response (Listing Product) :=
  let page := page_number (q_page q) in
  let limit := page_size 20 (q_limit q) in
  let sortBy := default_to "createdAt" (q_sortBy q) in
  let sortOrder := default_to "desc" (q_sortOrder q) in
  let query := build_filter q in
  let skip := skip_of page limit in
  if negb (castable query) then Thrown "CastError"
  else
    let found := filter (fun p => matches query p = true)
                        (snd <$> map_to_list (products w)) in
    let sorted := sort_docs (field_key sortBy) (String.eqb sortOrder "desc")
                            found in
    match cursor_skip skip sorted ≫= cursor_limit limit with
    | None => Thrown "MongoServerError"
    | Some page_docs =>
        Json 200 {| data := page_docs;
                    pagination_of := pagination page limit (length found) |}
    end.

(** ** The other readers *)

Definition getOneProduct (productId : string) (w : World) : response Product :=
  if negb (isValidObjectId productId) then Fail 400 "Invalid product ID"
  else
    match findById w productId with
    | None => Fail 404 "Product not found"
    | Some product => Json 200 product
    end.

(** The answer of [getProductsByCategory]: the listing and the category it
    was asked for. *)
Record CategoryListing : Type := {
  cl_category : string;
  cl_listing : Listing Product
}.

(** [getProductsByCategory]: [categoryName] is [req.params.categoryName];
    of the query string it reads page, limit, the price bounds and the sort. *)
Definition getProductsByCategory (categoryName : option string) (q : ListQuery)
    (w : World) : response CategoryListing :=
  let page := page_number (q_page q) in
  let limit := page_size 20 (q_limit q) in
  let sortBy := default_to "createdAt" (q_sortBy q) in
  let sortOrder := default_to "desc" (q_sortOrder q) in
  if negb (nonempty categoryName) then Fail 400 "Category name is required"
  else
    let query := {|
      f_category := categoryName;
      f_price_gte :=
        if nonempty (q_minPrice q)
        then Some (parseFloat_string (default_to "" (q_minPrice q))) else None;
      f_price_lte :=
        if nonempty (q_maxPrice q)
        then Some (parseFloat_string (default_to "" (q_maxPrice q))) else None;
      f_search := None |} in
    let skip := skip_of page limit in
    if negb (castable query) then Thrown "CastError"
    else
      let found := filter (fun p => matches query p = true)
                          (snd <$> map_to_list (products w)) in
      let sorted := sort_docs (field_key sortBy) (String.eqb sortOrder "desc")
                              found in
      match cursor_skip skip sorted ≫= cursor_limit limit with
      | None => Thrown "MongoServerError"
      | Some page_docs =>
          Json 200 {|
            cl_category := default_to "" categoryName;
            cl_listing :=
              {| data := page_docs;
                 pagination_of := pagination page limit (length found) |} |}
      end.

(** [getMyProducts]: [Product.find({ owner: ownerId })]. *)
Definition getMyProducts (req : Request) (w : World) : response (list Product) :=
  match user req with
  | None => Fail 401 "Unauthorized"
  | Some ownerId =>
      Json 200 (filter (fun p => owner p = ownerId)
                       (snd <$> map_to_list (products w)))
  end.

End Products.

(* ================================================================== *)
(** * The payment controller: listing and analytics *)
(* ================================================================== *)

Module Payments.
Import Js Mongo Calendar Paging.

(** Modelled from the spec: [models/paymentIntent.model.js] and the order
    and customer models are not among the sources; the fields are those of
    the data model of the specification that the handlers read.  Payment
    intents are taken as the handler sees them after [populate]: the order
    and its customer are joined in, and a reference that does not resolve is
    [None]. *)
Record Customer : Type := {
  c_name : option string;
  c_email : option string;
  c_phone : option string
}.

Record Order : Type := {
  o_id : ObjectId;
  customer : option Customer
}.

Record Payment : Type := {
  p_id : ObjectId;
  intentId : option string;
  totalAmount : Qc;
  status : string;
  order : option Order;
  createdAt : Z
}.

(** [req.query] of [GET /payments]. *)
Record Query : Type := {
  q_page : option string;
  q_limit : option string;
  q_search : option string;
  q_status : option string;
  q_startDate : option string;
  q_endDate : option string;
  q_sortBy : option string;
  q_sortOrder : option string
}.

Record Env : Type := {
  now : Z;          (* Date.now() *)
  tz : Z;           (* offset of the server's local time from UTC, in minutes *)
  engine : Engine   (* the engine's string built-ins *)
}.

(** The filter document.  A date bound is [Some None] when the date built
    for it is an Invalid Date. *)
Record Filter : Type := {
  f_status : option string;
  f_createdAt_gte : option (option Z);
  f_createdAt_lte : option (option Z)
}.

Definition some_text (s : string) : bool := negb (String.eqb s "").

(** Lines 19 to 39. *)
Definition build_filter (env : Env) (q : Query) : Filter :=
  let status := default_to "" (q_status q) in
  let startDate := default_to "" (q_startDate q) in
  let endDate := default_to "" (q_endDate q) in
  {| f_status :=
       if some_text status && negb (String.eqb status "all")
       then Some status else None;
     f_createdAt_gte :=
       if some_text startDate then Some (Date_parse (tz env) startDate)
       else None;
     f_createdAt_lte :=
       if some_text endDate
       then Some (setHours (tz env) 23 59 59 999 <$> Date_parse (tz env) endDate)
       else None |}.

Definition matches (f : Filter) (p : Payment) : bool :=
  match f_status f with Some s => String.eqb (status p) s | None => true end &&
  match f_createdAt_gte f with
  | Some (Some lo) => lo <=? createdAt p
  | _ => true
  end &&
  match f_createdAt_lte f with
  | Some (Some hi) => createdAt p <=? hi
  | _ => true
  end.

(** An Invalid Date cannot be cast to the date type of [createdAt]. *)
Definition castable (f : Filter) : bool :=
  match f_createdAt_gte f with Some None => false | _ => true end &&
  match f_createdAt_lte f with Some None => false | _ => true end.

(** Optional chaining [x?.f] through a reference that may be null. *)
Definition chain {A B} (x : option A) (f : A -> option B) : option B :=
  match x with Some a => f a | None => None end.

(** [x?.toLowerCase() || ""] *)
Definition lower_or_empty (engine : Engine) (s : option string) : string :=
  match option_map (String_toLowerCase engine) s with
  | Some lower => if truthy (VStr lower) then lower else ""
  | None => ""
  end.

(** The predicate of lines 63 to 76. *)
Definition search_hit (engine : Engine) (search : string) (payment : Payment)
  : bool :=
  let searchLower := String_toLowerCase engine search in
  let customerName :=
    lower_or_empty engine (chain (chain (order payment) customer) c_name) in
  let customerEmail :=
    lower_or_empty engine (chain (chain (order payment) customer) c_email) in
  let intentId := lower_or_empty engine (intentId payment) in
  let orderId :=
    default_to "" (option_map toString (option_map o_id (order payment))) in
  includes customerName searchLower ||
  includes customerEmail searchLower ||
  includes intentId searchLower ||
  includes orderId searchLower.

Definition field_key (field : string) (p : Payment) : sort_key :=
  if String.eqb field "createdAt" then KDate (createdAt p)
  else if String.eqb field "totalAmount" then KNum (Fin (totalAmount p))
  else if String.eqb field "status" then KStr (status p)
  else if String.eqb field "intentId" then
    match intentId p with Some s => KStr s | None => KMissing end
  else KMissing.

(** The documents [find(query).sort(..).skip(..).limit(..)] returns. *)
Definition find_page (query : Filter) (sortBy : string) (desc : bool)
    (skip limit : number) (payments : list Payment) : option (list Payment) :=
  cursor_skip skip
    (sort_docs (field_key sortBy) desc
       (filter (fun p => matches query p = true) payments))
  ≫= cursor_limit limit.

(** [countDocuments(query)] *)
Definition countDocuments (query : Filter) (payments : list Payment) : nat :=
  length (filter (fun p => matches query p = true) payments).

Definition getAllPayments (env : Env) (q : Query) (payments : list Payment)
  : response (Listing Payment) :=
  let page := page_number (q_page q) in
  let limit := page_size 10 (q_limit q) in
  let search := default_to "" (q_search q) in
  let sortBy := default_to "createdAt" (q_sortBy q) in
  let sortOrder := default_to "desc" (q_sortOrder q) in
  let query := build_filter env q in
  let skip := skip_of page limit in
  if negb (castable query) then Thrown "CastError"
  else
    match find_page query sortBy (String.eqb sortOrder "desc") skip limit
                    payments with
    | None => Thrown "MongoServerError"
    | Some fetched =>
        let payments' :=
          if some_text search
          then filter (fun p => search_hit (engine env) search p = true) fetched
          else fetched in
        Json 200
          {| data := payments';
             pagination_of :=
               pagination page limit (countDocuments query payments) |}
    end.

(** ** Analytics *)

Record TrendEntry : Type := {
  period : string;
  revenue : Qc;
  count : Z
}.

Record Analytics : Type := {
  totalRevenue : Qc;
  pendingPayments : Z;
  pendingAmount : Qc;
  completedPayments : Z;
  completedAmount : Qc;
  failedPayments : Z;
  failedAmount : Qc;
  refundedPayments : Z;
  refundedAmount : Qc;
  revenueTrend : list TrendEntry
}.

(** [x || 0] for an optional count and an optional amount. *)
Definition count_or_0 (x : option Z) : Z :=
  match x with
  | Some n => if n =? 0 then 0 else n
  | None => 0
  end.

Definition amount_or_0 (x : option Qc) : Qc :=
  match x with
  | Some a => if Qc_is_zero a then Q2Qc 0 else a
  | None => Q2Qc 0
  end.

Definition is_paid (p : Payment) : bool := String.eqb (status p) "paid".

(** [statusCounts.find(s => s._id === name)] *)
Definition find_status (name : string) (statusCounts : list (group string))
  : option (group string) :=
  List.find (fun s => String.eqb (g_id s) name) statusCounts.

Definition day_ms : Z := 24 * 60 * 60 * 1000.

(** Lines 130 to 146: the bucket format and the window length. *)
Definition groupByFormat (period : string) : format :=
  if String.eqb period "daily" then FmtDay
  else if String.eqb period "weekly" then FmtWeek
  else FmtMonth.

Definition window (period : string) : Z :=
  if String.eqb period "daily" then 7 * day_ms
  else if String.eqb period "weekly" then 12 * 7 * day_ms
  else 12 * 30 * day_ms.

Definition in_trend (env : Env) (period : string) (p : Payment) : bool :=
  is_paid p && (now env - window period <=? createdAt p).

Definition getPaymentAnalytics (env : Env) (period_param : option string)
    (payments : list Payment) : response Analytics :=
  let period := default_to "monthly" period_param in
  let totalRevenueResult :=
    group_stage (fun _ _ : unit => true) (fun _ => tt) totalAmount
      (filter (fun p => is_paid p = true) payments) in
  let totalRevenue := amount_or_0 (g_amount <$> head totalRevenueResult) in
  let statusCounts := group_stage String.eqb status totalAmount payments in
  let count_of s := count_or_0 (g_count <$> find_status s statusCounts) in
  let amount_of s := amount_or_0 (g_amount <$> find_status s statusCounts) in
  let dateRange := now env - window period in
  let revenueTrend :=
    sort_docs (fun g => KStr (g_id g)) false
      (group_stage String.eqb
         (fun p => dateToString (groupByFormat period) (createdAt p))
         totalAmount
         (filter (fun p => in_trend env period p = true) payments)) in
  Json 200 {|
    totalRevenue := totalRevenue;
    pendingPayments := count_of "pending";
    pendingAmount := amount_of "pending";
    completedPayments := count_of "paid";
    completedAmount := amount_of "paid";
    failedPayments := count_of "failed";
    failedAmount := amount_of "failed";
    refundedPayments := count_of "refunded";
    refundedAmount := amount_of "refunded";
    revenueTrend :=
      map (fun item => {| period := g_id item;
                          revenue := g_amount item;
                          count := g_count item |}) revenueTrend
  |}.

(** ** Status update *)

Definition validStatuses : list string :=
  ["pending"; "paid"; "failed"; "refunded"]%string.

(** [PaymentIntent.findById(id)]: the document with that [_id]. *)
Definition findById (id : ObjectId) (payments : list Payment) : option Payment :=
  List.find (fun p => N.eqb (p_id p) id) payments.

(** [payment.status = status] *)
Definition set_status (s : string) (p : Payment) : Payment := {|
  p_id := p_id p;
  intentId := intentId p;
  totalAmount := totalAmount p;
  status := s;
  order := order p;
  createdAt := createdAt p
|}.

(** [payment.save()]: the stored document with that [_id] is replaced. *)
Fixpoint save (payment : Payment) (payments : list Payment) : list Payment :=
  match payments with
  | [] => []
  | p :: r =>
      if N.eqb (p_id p) (p_id payment) then payment :: r
      else p :: save payment r
  end.

(** [updatePaymentStatus]: [id] is [req.params.id], [status] is
    [req.body.status].  The answer is the saved payment with its order and
    customer joined in, which is how payments are represented here. *)
Definition updatePaymentStatus (id : string) (status : value)
    (payments : list Payment) : response Payment * list Payment :=
  if negb (isValidObjectId id) then (Fail 400 "Invalid payment ID", payments)
  else
    match status with
    | VStr s =>
        if negb (truthy status) || negb (existsb (String.eqb s) validStatuses)
        then (Fail 400 "Invalid status", payments)
        else
          match findById (castObjectId id) payments with
          | None => (Fail 404 "Payment not found", payments)
          | Some payment =>
              let payment' := set_status s payment in
              (Json 200 payment', save payment' payments)
          end
    | _ => (Fail 400 "Invalid status", payments)
    end.

End Payments.

(* ================================================================== *)
(** * models/settings.model.js and the settings controller *)
(* ================================================================== *)

Module SettingsCtl.
Import Js Mongo.

(** The settings document.  String paths hold what was assigned after the
    cast and the setters of the schema ([trim], [lowercase]) have run. *)
Record Settings : Type := {
  siteName : value;
  siteDescription : value;
  contactEmail : value;
  contactPhone : value;
  currency : value;
  timezone : value;
  maintenanceMode : value
}.

(** The schema defaults, which [create({})] fills in. *)
Definition defaults : Settings := {|
  siteName := VStr "E-commerce Store";
  siteDescription := VStr "Welcome to our online store";
  contactEmail := VStr "admin@example.com";
  contactPhone := VStr "+1234567890";
  currency := VStr "USD";
  timezone := VStr "UTC";
  maintenanceMode := VBool false
|}.

Definition currencies : list string := ["USD"; "EUR"; "GBP"; "JPY"; "PKR"]%string.

(** The collection holds the single document, or nothing yet. *)
Definition Store : Type := option Settings.

(** [Settings.getSettings()]: the stored document, created with the
    defaults when there is none. *)
Definition getSettings (st : Store) : Settings * Store :=
  match st with
  | Some settings => (settings, st)
  | None => (defaults, Some defaults)
  end.

(** The fields the handler reads from [req.body]. *)
Inductive field : Type :=
| SiteName | SiteDescription | ContactEmail | ContactPhone
| Currency | Timezone | MaintenanceMode.

Definition get (f : field) (s : Settings) : value :=
  match f with
  | SiteName => siteName s
  | SiteDescription => siteDescription s
  | ContactEmail => contactEmail s
  | ContactPhone => contactPhone s
  | Currency => currency s
  | Timezone => timezone s
  | MaintenanceMode => maintenanceMode s
  end.

(** [req.body]: it has the same seven keys, each possibly [undefined]. *)
Definition Payload : Type := Settings.

(** What the Boolean path makes of an assigned value: [None] when it cannot
    be cast. *)
Definition cast_boolean (v : value) : option value :=
  match v with
  | VBool _ | VNull => Some v
  | VStr s =>
      if existsb (String.eqb s) ["true"; "1"; "yes"]%string
      then Some (VBool true)
      else if existsb (String.eqb s) ["false"; "0"; "no"]%string
      then Some (VBool false)
      else None
  | VNum (Fin q) =>
      if Qeq_bool q 1 then Some (VBool true)
      else if Qc_is_zero q then Some (VBool false)
      else None
  | _ => None
  end.

(** What the String paths make of an assigned value: a string stays, a
    number and a Boolean are printed ([value.toString()]), null and
    undefined are not cast. *)
Definition cast_string (v : value) : option string :=
  match v with
  | VStr s => Some s
  | VNum n => Some (Number_toString n)
  | VBool b => Some (if b then "true" else "false")
  | VNull | VUndefined => None
  end.

(** What a path stores when [v] is assigned to it.  A String path casts the
    value to a string and runs the setters the schema declares, the last
    declared first: [lowercase], then [trim].  The Boolean path casts; a
    value it cannot cast stays as it is and fails validation on [save]. *)
Definition setter (engine : Engine) (f : field) (v : value) : value :=
  match f with
  | MaintenanceMode => default_to v (cast_boolean v)
  | _ =>
      match cast_string v with
      | None => v
      | Some s =>
          VStr match f with
               | SiteName | SiteDescription | ContactPhone =>
                   String_trim engine s
               | ContactEmail =>
                   String_trim engine (String_toLowerCase engine s)
               | _ => s
               end
      end
  end.

(** Lines 29 to 35: one guarded assignment per field. *)
Definition assign (engine : Engine) (body settings : Settings) : Settings := {|
  siteName :=
    if truthy (siteName body) then setter engine SiteName (siteName body)
    else siteName settings;
  siteDescription :=
    if truthy (siteDescription body)
    then setter engine SiteDescription (siteDescription body)
    else siteDescription settings;
  contactEmail :=
    if truthy (contactEmail body)
    then setter engine ContactEmail (contactEmail body)
    else contactEmail settings;
  contactPhone :=
    if truthy (contactPhone body)
    then setter engine ContactPhone (contactPhone body)
    else contactPhone settings;
  currency :=
    if truthy (currency body) then setter engine Currency (currency body)
    else currency settings;
  timezone :=
    if truthy (timezone body) then setter engine Timezone (timezone body)
    else timezone settings;
  maintenanceMode :=
    if defined (maintenanceMode body)
    then setter engine MaintenanceMode (maintenanceMode body)
    else maintenanceMode settings
|}.

(** Validation on [save]: [currency] must be one of the enumerated codes
    and [maintenanceMode] a Boolean (or null). *)
Definition valid (s : Settings) : bool :=
  match currency s with
  | VStr c => existsb (String.eqb c) currencies
  | VNull | VUndefined => true
  | _ => false
  end &&
  match maintenanceMode s with
  | VBool _ | VNull | VUndefined => true
  | _ => false
  end.

Definition updateSettings (engine : Engine) (body : Payload) (st : Store)
  : response Settings * Store :=
  let '(settings, st1) := getSettings st in
  let settings' := assign engine body settings in
  if valid settings' then (Json 200 settings', Some settings')
  else (Thrown "ValidationError", st1).

(** ** The two readers *)

(** The handler [getSettings] of the controller (the static of the model
    has the name already). *)
Definition getSettingsHandler (st : Store) : response Settings * Store :=
  let '(settings, st1) := getSettings st in
  (Json 200 settings, st1).

(** What [getPublicConfig] sends. *)
Record PublicConfig : Type := {
  pc_siteName : value;
  pc_siteDescription : value;
  pc_currency : value;
  pc_maintenanceMode : value;
  pc_contactEmail : value;
  pc_contactPhone : value
}.

Definition getPublicConfig (st : Store) : response PublicConfig * Store :=
  let '(settings, st1) := getSettings st in
  (Json 200 {| pc_siteName := siteName settings;
               pc_siteDescription := siteDescription settings;
               pc_currency := currency settings;
               pc_maintenanceMode := maintenanceMode settings;
               pc_contactEmail := contactEmail settings;
               pc_contactPhone := contactPhone settings |},
   st1).

End SettingsCtl.

(* ================================================================== *)
(** * The mail helper ([sendMail]) *)
(* ================================================================== *)

Module Mail.
Import Js.

(** The message handed to the transport. *)
Record Message : Type := {
  m_from : string;
  m_to : value;
  m_subject : value;
  m_text : value;
  m_html : value
}.

Record Env : Type := {
  NODEMAILER_FROM : string;        (* getEnv("NODEMAILER_FROM") *)
  delivers : Message -> bool       (* the callback gets no error *)
}.

(** [sendMail(to, subject, text, html = false)]: the answer, and the
    messages handed to the transport.  A missing field throws inside the
    [try], and so does a failed delivery; both are caught and answered with
    [false]. *)
Definition sendMail (env : Env) (to subject text : value) (html : option value)
  : bool * list Message :=
  let html := default_to (VBool false) html in
  if negb (truthy to) || negb (truthy subject) || negb (truthy text)
  then (false, [])
  else
    let message := {|
      m_from := NODEMAILER_FROM env;
      m_to := to;
      m_subject := subject;
      m_text := if truthy html then VUndefined else text;
      m_html := if truthy html then text else VUndefined |} in
    (delivers env message, [message]).

End Mail.

(* ================================================================== *)
(** * The vocabulary of the specification, and example data *)
(* ================================================================== *)

Import Js Mongo Calendar Paging.

(** The engine of the examples, whose texts are ASCII. *)
Definition ascii_engine : Engine :=
  {| String_toLowerCase := toLowerCase; String_trim := trim |}.

(** ** Example data for the product handlers *)

Module ProductExamples.
Import Products.

Definition alice : ObjectId := 0x64a1f0c2b7e4d3a19f000001%N.
Definition bob : ObjectId := 0x64a1f0c2b7e4d3a19f000002%N.
Definition lamp_id : ObjectId := 0x64a1f0c2b7e4d3a19f0000aa%N.

Definition env : Env := {|
  now := 1700000000000;
  uploadMultipleOnCloudinary := fun fs =>
    Some (map (fun f => {| up_public_id := f;
                           up_secure_url := String.append "https://img/" f |})
              fs);
  JSON_parse := fun _ => None;
  new_id := 0x64a1f0c2b7e4d3a19f0000ab%N
|}.

(** A featured lamp owned by alice: price 100, on flash sale at 80. *)
Definition lamp : Product := {|
  name := VStr "Lamp";
  description := VStr "A desk lamp";
  price := of_Z 100;
  category := VStr "home";
  stock := of_Z 5;
  images := [{| public_id := "products/lamp"; url := "https://img/lamp" |}];
  owner := alice;
  is_featured := VBool true;
  is_flash_sale := Some true;
  flash_sale_price := Some (of_Z 80);
  flash_sale_start := Some 1699000000000;
  flash_sale_end := Some (1699000000000 + week_ms);
  createdAt := 1698000000000
|}.

Definition world : World := {|
  products := {[ lamp_id := lamp ]};
  cloud := []
|}.

(** [PUT /:id] by alice with [is_flash_sale=true, flash_sale_price=120]. *)
Definition raise_flash_price : Request := {|
  user := Some alice;
  params_id := "64a1f0c2b7e4d3a19f0000aa";
  body := {|
    b_name := VUndefined; b_description := VUndefined; b_price := VUndefined;
    b_category := VUndefined; b_stock := VUndefined;
    b_is_flash_sale := VStr "true"; b_flash_sale_price := VStr "120";
    b_existingImages := VUndefined; b_is_featured := VUndefined |};
  files := None
|}.

(** [POST /] by alice: price 100 with a flash-sale price of 120. *)
Definition create_overpriced : Request := {|
  user := Some alice;
  params_id := "";
  body := {|
    b_name := VStr "Chair"; b_description := VStr "A chair";
    b_price := VStr "100"; b_category := VStr "home"; b_stock := VStr "3";
    b_is_flash_sale := VStr "true"; b_flash_sale_price := VStr "120";
    b_existingImages := VUndefined; b_is_featured := VUndefined |};
  files := Some ["chair.png"]
|}.

(** [PUT /:id] by alice with the JSON body [{ "is_featured": false }]. *)
Definition unfeature : Request := {|
  user := Some alice;
  params_id := "64a1f0c2b7e4d3a19f0000aa";
  body := {|
    b_name := VUndefined; b_description := VUndefined; b_price := VUndefined;
    b_category := VUndefined; b_stock := VUndefined;
    b_is_flash_sale := VUndefined; b_flash_sale_price := VUndefined;
    b_existingImages := VUndefined; b_is_featured := VBool false |};
  files := None
|}.

(** [PUT /:id] by alice: a new name, the price lowered to 90 and a
    flash-sale price of 95. *)
Definition reprice : Request := {|
  user := Some alice;
  params_id := "64a1f0c2b7e4d3a19f0000aa";
  body := {|
    b_name := VStr "Desk lamp"; b_description := VUndefined;
    b_price := VStr "90"; b_category := VUndefined; b_stock := VUndefined;
    b_is_flash_sale := VStr "true"; b_flash_sale_price := VStr "95";
    b_existingImages := VUndefined; b_is_featured := VUndefined |};
  files := None
|}.

(** The same request sent by bob, who does not own the lamp. *)
Definition by_bob (req : Request) : Request := {|
  user := Some bob;
  params_id := params_id req;
  body := body req;
  files := files req
|}.

End ProductExamples.

(** ** Products *)

Section ProductVocabulary.
Import Products.

(** A request that passes the four guards of [updateProduct], for the
    product it names. *)
Definition reaches_assignments (req : Request) (w : World) (product : Product)
  : Prop :=
  isValidObjectId (params_id req) = true /\
  findById w (params_id req) = Some product /\
  exists ownerId, user req = Some ownerId /\
    toString (owner product) = toString ownerId.

(** The property as the specification words it, for update: a flash-sale
    price that is not below the resulting price makes the request fail with
    400. *)
Definition update_rejects_flash_price : Prop :=
  forall (env : Env) (req : Request) (w : World) (product : Product),
    reaches_assignments req w product ->
    is_str_true (b_is_flash_sale (body req)) = true ->
    ge (parseFloat (b_flash_sale_price (body req)))
       (price (assign_fields env (body req) product)) = true ->
    exists msg, fst (updateProduct env req w) = Fail 400 msg.

End ProductVocabulary.

(** ** Settings *)

Section SettingsVocabulary.
Import SettingsCtl.

(** Whether the handler assigns a field for a given body: the Boolean flag
    when its key is present, every other field when its value is truthy. *)
Definition applies (f : field) (body : Payload) : bool :=
  match f with
  | MaintenanceMode => defined (get f body)
  | _ => truthy (get f body)
  end.

(** The document the update starts from. *)
Definition current (st : Store) : Settings := fst (getSettings st).

(** The settings before a request: the stored document, and the defaults of
    the schema as long as none is stored. *)
Definition previous (st : Store) : Settings :=
  match st with
  | Some stored => stored
  | None => defaults
  end.

Definition only_siteName (x : string) : Payload := {|
  siteName := VStr x;
  siteDescription := VUndefined;
  contactEmail := VUndefined;
  contactPhone := VUndefined;
  currency := VUndefined;
  timezone := VUndefined;
  maintenanceMode := VUndefined
|}.

Definition in_maintenance : Settings := {|
  siteName := siteName defaults;
  siteDescription := siteDescription defaults;
  contactEmail := contactEmail defaults;
  contactPhone := contactPhone defaults;
  currency := currency defaults;
  timezone := timezone defaults;
  maintenanceMode := VBool true
|}.

End SettingsVocabulary.

(** ** Example data for the listing handlers *)

Module ListingExamples.
Import Products Payments.

Definition item (n : string) (p : Z) : Product := {|
  name := VStr n; description := VStr "item"; price := of_Z p;
  category := VStr "misc"; stock := of_Z 1; images := [];
  owner := ProductExamples.alice; is_featured := VBool false;
  is_flash_sale := None; flash_sale_price := None;
  flash_sale_start := None; flash_sale_end := None;
  Products.createdAt := p
|}.

(** Three products. *)
Definition catalog : World := {|
  products := list_to_map [(1%N, item "a" 10); (2%N, item "b" 20);
                           (3%N, item "c" 30)];
  cloud := []
|}.

Definition no_params : ListQuery := {|
  Products.q_page := None; Products.q_limit := None;
  q_category := None; q_minPrice := None; q_maxPrice := None;
  Products.q_search := None; Products.q_sortBy := None;
  Products.q_sortOrder := None
|}.

(** [GET /products?page=2&limit=2] *)
Definition second_page : ListQuery := {|
  Products.q_page := Some "2"; Products.q_limit := Some "2";
  q_category := None; q_minPrice := None; q_maxPrice := None;
  Products.q_search := None; Products.q_sortBy := None;
  Products.q_sortOrder := None
|}.

(** [GET /products?page=abc] *)
Definition page_abc : ListQuery := {|
  Products.q_page := Some "abc"; Products.q_limit := None;
  q_category := None; q_minPrice := None; q_maxPrice := None;
  Products.q_search := None; Products.q_sortBy := None;
  Products.q_sortOrder := None
|}.

Definition day (y m d : Z) : Z := days_of_civil y m d * ms_per_day.

Definition payment (i : N) (who : string) (st : string) (amount : Z) (t : Z)
  : Payment := {|
  p_id := i;
  intentId := Some (String.append "pi_" st);
  totalAmount := Q2Qc (inject_Z amount);
  status := st;
  order := Some {| o_id := (i + 0xab00)%N;
                   customer := Some {| c_name := Some who;
                                       c_email := Some "customer@example.com";
                                       c_phone := None |} |};
  createdAt := t
|}.

(** Five payments of January 2024 and one of January 2023. *)
Definition ledger : list Payment := [
  payment 1 "Alice" "paid" 10 (day 2024 1 10);
  payment 2 "Bob" "pending" 5 (day 2024 1 11);
  payment 3 "Alice" "paid" 7 (day 2024 1 12 + 5);
  payment 4 "Carol" "paid" 20 (day 2023 1 1);
  payment 5 "Alice" "paid" 1 (day 2024 1 10 + 1000);
  payment 6 "Dave" "failed" 9 (day 2024 1 15 + 86399000)
].

(** The server clock at 2024-01-16T00:00Z, local time UTC. *)
Definition utc : Payments.Env :=
  {| Payments.now := day 2024 1 16; tz := 0; engine := ascii_engine |}.

(** The same instant on a server five hours west of UTC. *)
Definition west : Payments.Env :=
  {| Payments.now := day 2024 1 16; tz := -300; engine := ascii_engine |}.

(** [GET /payments?limit=ten] *)
Definition limit_ten : Query := {|
  q_page := None; q_limit := Some "ten"; q_search := None; q_status := None;
  q_startDate := None; q_endDate := None; q_sortBy := None;
  q_sortOrder := None
|}.

(** [GET /payments?limit=2&search=ALICE] *)
Definition search_alice : Query := {|
  q_page := None; q_limit := Some "2"; q_search := Some "ALICE";
  q_status := None; q_startDate := None; q_endDate := None;
  q_sortBy := None; q_sortOrder := None
|}.

(** [GET /payments?endDate=2024-01-15] *)
Definition until_jan_15 : Query := {|
  q_page := None; q_limit := None; q_search := None; q_status := None;
  q_startDate := None; q_endDate := Some "2024-01-15"; q_sortBy := None;
  q_sortOrder := None
|}.

(** The listing an answer carries (empty when there is none). *)
Definition listing_of {A} (r : response (Listing A)) : Listing A :=
  match r with
  | Json _ l => l
  | _ => {| data := []; pagination_of := pagination NaN NaN 0 |}
  end.

Definition no_params_answer : Listing Product :=
  listing_of (getAllProducts no_params catalog).

Definition second_page_answer : Listing Product :=
  listing_of (getAllProducts second_page catalog).

Definition search_alice_answer : Listing Payment :=
  listing_of (getAllPayments utc search_alice ledger).

End ListingExamples.

(** ** Listings *)

(** Whether a string has a decimal digit after leading white space and an
    optional sign. *)
Definition starts_with_digit (s : string) : bool :=
  match snd (take_sign (skip_ws s)) with
  | String c _ => match dec_digit c with Some _ => true | None => false end
  | EmptyString => false
  end.

(** The property as the specification words it: a value that is not a
    number is replaced by the default. *)
Definition invalid_falls_back_to_default : Prop :=
  forall s, parseInt_string s = NaN ->
    page_number (Some s) = of_Z 1 /\
    page_size 20 (Some s) = of_Z 20 /\
    page_size 10 (Some s) = of_Z 10.

(** What the specification asks of a pagination object, for a page, a page
    size and a number of matching documents: the three equations as
    JavaScript evaluates them and, when the page and the page size are
    integers and the size is positive, their reading over the integers:
    [totalPages] is the least number of pages of that size that hold all the
    documents. *)
Definition envelope_ok (page limit : number) (count : nat) (pg : Pagination)
  : Prop :=
  currentPage pg = page /\
  total pg = of_Z (Z.of_nat count) /\
  totalPages pg = Math_ceil (div (total pg) limit) /\
  hasNext pg = lt page (totalPages pg) /\
  hasPrev pg = gt page (of_Z 1) /\
  forall p size, page = of_Z p -> limit = of_Z size -> 0 < size ->
    exists pages,
      totalPages pg = of_Z pages /\
      (pages - 1) * size < Z.of_nat count <= pages * size /\
      (hasNext pg = true <-> p < pages) /\
      (hasPrev pg = true <-> 1 < p).

(** ** Payments *)

(** The sum of a field over a list of documents. *)
Definition sum_of {A} (amount : A -> Qc) (docs : list A) : Qc :=
  foldr (fun d acc => (amount d + acc)%Qc) (Q2Qc 0) docs.

(** The documents of one group of a [$group] stage. *)
Definition members {A K} (eqb : K -> K -> bool) (key : A -> K) (k : K)
    (docs : list A) : list A :=
  filter (fun d => eqb (key d) k = true) docs.

(** The group a key must have: none when no document has the key. *)
Definition group_of {A K} (eqb : K -> K -> bool) (key : A -> K)
    (amount : A -> Qc) (k : K) (docs : list A) : option (group K) :=
  let ds := members eqb key k docs in
  if (length ds =? 0)%nat then None
  else Some (Group k (Z.of_nat (length ds)) (sum_of amount ds)).

Definition find_group {K} (eqb : K -> K -> bool) (k : K) (gs : list (group K))
  : option (group K) :=
  List.find (fun g => eqb (g_id g) k) gs.

Section PaymentVocabulary.
Import Payments.

(** Case-insensitive substring match, as the specification words it: the
    search term occurs in the text once both are in lower case. *)
Definition ci_includes (engine : Engine) (text search : string) : bool :=
  includes (String_toLowerCase engine text) (String_toLowerCase engine search).

(** A payment matches a search term when the term occurs, whatever the
    case, in the customer's name, the customer's e-mail, the intent id or
    the id of the order; a missing text counts as empty. *)
Definition search_matches (engine : Engine) (search : string) (p : Payment)
  : bool :=
  ci_includes engine
    (default_to "" (chain (chain (order p) customer) c_name)) search ||
  ci_includes engine
    (default_to "" (chain (chain (order p) customer) c_email)) search ||
  ci_includes engine (default_to "" (intentId p)) search ||
  ci_includes engine
    (default_to "" (option_map toString (option_map o_id (order p)))) search.

(** Page [p] of a list of documents, [n] to a page. *)
Definition page_of {A} (p n : Z) (docs : list A) : list A :=
  take (Z.to_nat n) (drop (Z.to_nat ((p - 1) * n)) docs).

(** [GET /payments?limit=0&search=alice] *)
Definition limit_zero_alice : Query := {|
  q_page := None; q_limit := Some "0"; q_search := Some "alice";
  q_status := None; q_startDate := None; q_endDate := None;
  q_sortBy := None; q_sortOrder := None
|}.

(** The property as the specification words it: the answer to a request
    with a search term holds the matching documents of a fetch of at most
    [limit] documents. *)
Definition search_follows_a_fetch_of_at_most_limit : Prop :=
  forall env q payments l search n,
    lowers_ascii (engine env) ->
    q_search q = Some search -> search <> "" ->
    page_size 10 (q_limit q) = of_Z n ->
    getAllPayments env q payments = Json 200 l ->
    exists fetched,
      Z.of_nat (length fetched) <= n /\
      data l = filter (fun p => search_matches (engine env) search p = true)
                      fetched.

(** The request without its search term. *)
Definition without_search (q : Query) : Query := {|
  q_page := q_page q; q_limit := q_limit q; q_search := None;
  q_status := q_status q; q_startDate := q_startDate q;
  q_endDate := q_endDate q; q_sortBy := q_sortBy q;
  q_sortOrder := q_sortOrder q
|}.

(** The records of a dataset that have a given status. *)
Definition with_status (s : string) (payments : list Payment) : list Payment :=
  filter (fun p => status p = s) payments.

(** The count and the amount an analytics result reports for a status. *)
Definition reported (s : string) (a : Analytics) : option (Z * Qc) :=
  if String.eqb s "pending" then Some (pendingPayments a, pendingAmount a)
  else if String.eqb s "paid" then Some (completedPayments a, completedAmount a)
  else if String.eqb s "failed" then Some (failedPayments a, failedAmount a)
  else if String.eqb s "refunded" then Some (refundedPayments a, refundedAmount a)
  else None.

Definition statuses : list string := ["pending"; "paid"; "failed"; "refunded"]%string.

(** The bucket a record falls in, for a period selector. *)
Definition bucket_key (sel : string) (p : Payment) : string :=
  dateToString (groupByFormat sel) (createdAt p).

(** The records the trend covers: paid, and created within the window that
    ends now. *)
Definition trend_records (env : Env) (sel : string) (payments : list Payment)
  : list Payment :=
  filter (fun p => status p = "paid" /\ now env - window sel <= createdAt p)
         payments.

(** The covered records of one bucket. *)
Definition bucket (env : Env) (sel : string) (payments : list Payment)
    (k : string) : list Payment :=
  filter (fun p => bucket_key sel p = k) (trend_records env sel payments).

End PaymentVocabulary.

(** ** Further example data *)

Module MoreExamples.
Import Products.

(** [POST /] by alice: a chair priced 100, on flash sale at 80, one image. *)
Definition create_chair : Request := {|
  user := Some ProductExamples.alice;
  params_id := "";
  body := {|
    b_name := VStr "Chair"; b_description := VStr "A chair";
    b_price := VStr "100"; b_category := VStr "home"; b_stock := VStr "3";
    b_is_flash_sale := VStr "true"; b_flash_sale_price := VStr "80";
    b_existingImages := VUndefined; b_is_featured := VStr "true" |};
  files := Some ["chair.png"]
|}.

(** The product that request creates. *)
Definition chair : Product :=
  match fst (createProduct ProductExamples.env create_chair ProductExamples.world) with
  | Json _ p => p
  | _ => ProductExamples.lamp
  end.

(** The world after it. *)
Definition with_chair : World :=
  snd (createProduct ProductExamples.env create_chair ProductExamples.world).

(** The product an answer carries (the lamp when there is none). *)
Definition saved_of (r : response Product * World) : Product :=
  match fst r with
  | Json _ p => p
  | _ => ProductExamples.lamp
  end.

(** [PUT /:id] by alice with one new photo and nothing else. *)
Definition add_photo : Request := {|
  user := Some ProductExamples.alice;
  params_id := "64a1f0c2b7e4d3a19f0000aa";
  body := {|
    b_name := VUndefined; b_description := VUndefined; b_price := VUndefined;
    b_category := VUndefined; b_stock := VUndefined;
    b_is_flash_sale := VUndefined; b_flash_sale_price := VUndefined;
    b_existingImages := VUndefined; b_is_featured := VUndefined |};
  files := Some ["side.png"]
|}.

(** [PUT /:id] by alice with the JSON body [{ "is_flash_sale": true }]. *)
Definition flash_true_as_boolean : Request := {|
  user := Some ProductExamples.alice;
  params_id := "64a1f0c2b7e4d3a19f0000aa";
  body := {|
    b_name := VUndefined; b_description := VUndefined; b_price := VUndefined;
    b_category := VUndefined; b_stock := VUndefined;
    b_is_flash_sale := VBool true; b_flash_sale_price := VUndefined;
    b_existingImages := VUndefined; b_is_featured := VUndefined |};
  files := None
|}.

(** [PUT /:id] by alice with [is_flash_sale=true] and a flash-sale price of
    [99.99999999999999999], which [parseFloat] reads as 100, the lamp's
    price. *)
Definition flash_just_below : Request := {|
  user := Some ProductExamples.alice;
  params_id := "64a1f0c2b7e4d3a19f0000aa";
  body := {|
    b_name := VUndefined; b_description := VUndefined; b_price := VUndefined;
    b_category := VUndefined; b_stock := VUndefined;
    b_is_flash_sale := VStr "true";
    b_flash_sale_price := VStr "99.99999999999999999";
    b_existingImages := VUndefined; b_is_featured := VUndefined |};
  files := None
|}.

(** The environment of the examples with the image host out of reach. *)
Definition offline : Env := {|
  now := now ProductExamples.env;
  uploadMultipleOnCloudinary := fun _ => None;
  JSON_parse := JSON_parse ProductExamples.env;
  new_id := new_id ProductExamples.env
|}.

End MoreExamples.

(** ** More vocabulary *)

Section ReaderVocabulary.
Import Products.

(** The query of the general listing that asks for one category and has no
    search term. *)
Definition in_category (c : string) (q : ListQuery) : ListQuery := {|
  q_page := q_page q; q_limit := q_limit q; q_category := Some c;
  q_minPrice := q_minPrice q; q_maxPrice := q_maxPrice q; q_search := None;
  q_sortBy := q_sortBy q; q_sortOrder := q_sortOrder q
|}.

(** An answer of the general listing, labelled with a category. *)
Definition labelled (c : string) (r : response (Listing Product))
  : response CategoryListing :=
  match r with
  | Json st l => Json st {| cl_category := c; cl_listing := l |}
  | Fail st msg => Fail st msg
  | Thrown e => Thrown e
  end.

(** The number of documents on page [p] of [count] documents, [n] to a
    page. *)
Definition on_page (p n : Z) (count : nat) : Z :=
  Z.max 0 (Z.min n (Z.of_nat count - (p - 1) * n)).

End ReaderVocabulary.

Section UpdateVocabulary.
Import Payments.

(** What a payment adds to the revenue: its amount when it is paid. *)
Definition paid_amount (p : Payment) : Qc :=
  if is_paid p then totalAmount p else Q2Qc 0.

(** What a payment adds to the number of payments of a status. *)
Definition counts_as (s : string) (p : Payment) : Z :=
  if String.eqb (status p) s then 1 else 0.

(** The sum of an integer field over a list of documents. *)
Definition number_of {A} (count : A -> Z) (docs : list A) : Z :=
  foldr (fun d acc => count d + acc) 0 docs.

(** The analytics an answer carries (all zero when there is none). *)
Definition analytics_of (r : response Analytics) : Analytics :=
  match r with
  | Json _ a => a
  | _ => {| totalRevenue := Q2Qc 0;
            pendingPayments := 0; pendingAmount := Q2Qc 0;
            completedPayments := 0; completedAmount := Q2Qc 0;
            failedPayments := 0; failedAmount := Q2Qc 0;
            refundedPayments := 0; refundedAmount := Q2Qc 0;
            revenueTrend := [] |}
  end.

(** [GET /payments?status=paid&startDate=2024-01-10&endDate=2024-01-12&search=alice] *)
Definition paid_by_alice : Query := {|
  q_page := None; q_limit := None; q_search := Some "alice";
  q_status := Some "paid"; q_startDate := Some "2024-01-10";
  q_endDate := Some "2024-01-12"; q_sortBy := None; q_sortOrder := None
|}.

(** The second payment of the example ledger, which is pending. *)
Definition second_payment : Payment :=
  ListingExamples.payment 2 "Bob" "pending" 5 (ListingExamples.day 2024 1 11).

End UpdateVocabulary.

Section SettingsUpdateVocabulary.
Import SettingsCtl.

(** Whether validation lets a body through: a truthy [currency] is one of
    the enumerated codes, and a [maintenanceMode] that is present can be cast
    to a Boolean. *)
Definition accepted (body : Payload) : bool :=
  (if truthy (currency body)
   then match currency body with
        | VStr c => existsb (String.eqb c) currencies
        | _ => false
        end
   else true) &&
  (if defined (maintenanceMode body)
   then match cast_boolean (maintenanceMode body) with
        | Some _ => true
        | None => false
        end
   else true).

(** What [getPublicConfig] shows of a settings document. *)
Definition public_part (s : Settings) : PublicConfig := {|
  pc_siteName := siteName s;
  pc_siteDescription := siteDescription s;
  pc_currency := currency s;
  pc_maintenanceMode := maintenanceMode s;
  pc_contactEmail := contactEmail s;
  pc_contactPhone := contactPhone s
|}.

Definition only_currency (c : string) : Payload := {|
  siteName := VUndefined;
  siteDescription := VUndefined;
  contactEmail := VUndefined;
  contactPhone := VUndefined;
  currency := VStr c;
  timezone := VUndefined;
  maintenanceMode := VUndefined
|}.

End SettingsUpdateVocabulary.

Module MailExamples.
Import Mail.

(** A transport that delivers every message. *)
Definition relay : Env := {|
  NODEMAILER_FROM := "shop@example.com";
  delivers := fun _ => true
|}.

End MailExamples.

(** ** Calendar vocabulary of the revenue trend *)

Section TrendVocabulary.
Import Payments.

(** The UTC day a time value falls on, counted from 1970-01-01. *)
Definition utc_day (t : Z) : Z := t / ms_per_day.

(** Year, month and day of a time value, in UTC. *)
Definition calendar_date (t : Z) : Z * Z * Z := civil_of_days (utc_day t).

Definition calendar_year (t : Z) : Z := fst (fst (calendar_date t)).

Definition calendar_month (t : Z) : Z * Z := fst (calendar_date t).

(** The years [$dateToString] prints with four digits. *)
Definition four_digit_year (t : Z) : Prop := 0 <= calendar_year t <= 9999.

(** ISO 8601 weeks run from Monday to Sunday.  1970-01-01, day 0, was a
    Thursday, so week [w] is made of the days [7 * w - 3] (its Monday) to
    [7 * w + 3] (its Sunday), and the week of a day is: *)
Definition week_of (day : Z) : Z := (day + 3) / 7.

Definition same_iso_week (t1 t2 : Z) : Prop :=
  week_of (utc_day t1) = week_of (utc_day t2).

(** Whether the Thursday of a week, which is day [7 * week], is the first
    Thursday of its year: one of the first seven days of January.  ISO 8601
    makes the week of that Thursday week 1. *)
Definition has_first_thursday (week : Z) : bool :=
  let '(_, m, d) := civil_of_days (7 * week) in (m =? 1) && (d <=? 7).

(** What makes a function on days the ISO week number: it lies between 1
    and 53, it is the same on the seven days of a week, it is 1 exactly in
    the weeks that hold the first Thursday of a year, and from one week to
    the next it grows by one or starts again at 1. *)
Definition is_iso_week_number (week_number : Z -> Z) : Prop :=
  forall day,
    1 <= week_number day <= 53 /\
    (forall day', week_of day' = week_of day ->
                  week_number day' = week_number day) /\
    (week_number day = 1 <-> has_first_thursday (week_of day) = true) /\
    (week_number (day + 7) = 1 \/ week_number (day + 7) = week_number day + 1).

(** The property as the specification words it for the weekly trend: the
    buckets are the ISO weeks, so paid payments that all lie in one ISO week
    make one entry. *)
Definition weekly_trend_is_by_iso_week : Prop :=
  forall env payments a,
    getPaymentAnalytics env (Some "weekly") payments = Json 200 a ->
    (forall p1 p2,
       p1 ∈ trend_records env "weekly" payments ->
       p2 ∈ trend_records env "weekly" payments ->
       same_iso_week (createdAt p1) (createdAt p2)) ->
    (length (revenueTrend a) <= 1)%nat.

(** The server clock at 2025-01-02T00:00Z. *)
Definition new_year : Env := {|
  now := ListingExamples.day 2025 1 2; tz := 0; engine := ascii_engine
|}.

(** Paid payments of Sunday 2024-12-29, Monday 2024-12-30 and Wednesday
    2025-01-01; the last two lie in one ISO week. *)
Definition sunday_payment : Payment :=
  ListingExamples.payment 1 "Alice" "paid" 3 (ListingExamples.day 2024 12 29).
Definition monday_payment : Payment :=
  ListingExamples.payment 2 "Bob" "paid" 10 (ListingExamples.day 2024 12 30).
Definition wednesday_payment : Payment :=
  ListingExamples.payment 3 "Carol" "paid" 5 (ListingExamples.day 2025 1 1).

End TrendVocabulary.

(* ================================================================== *)
(** * Properties *)
(* ================================================================== *)

(** ** Numbers *)

Lemma ge_true_lt_false (a b : number) : ge a b = true -> lt a b = false.
Proof.
  unfold ge, le, lt, Qc_leb, Qc_ltb.
  destruct a as [| [] | x], b as [| [] | y]; try discriminate; try reflexivity.
  intros ->. reflexivity.
Qed.

Lemma lt_true_ge_false (a b : number) : lt a b = true -> ge a b = false.
Proof.
  intros H. destruct (ge a b) eqn:E; [| reflexivity].
  apply ge_true_lt_false in E. congruence.
Qed.

Lemma Qc_is_zero_eq (a : Qc) : Qc_is_zero a = true -> a = Q2Qc 0.
Proof.
  unfold Qc_is_zero. intros H. apply Qeq_bool_eq in H.
  apply Qc_is_canon. simpl. rewrite H. reflexivity.
Qed.

(** ** Product update and delete: what reaches [save] *)

Section ProductUpdate.
Import Products.
Variables (env : Env) (req : Request) (w : World).

(** The answers an owner can get: the upload failed and nothing was saved,
    or the document was saved with the assigned fields and some image list. *)
Lemma updateProduct_by_owner (product : Product) :
  reaches_assignments req w product ->
  (exists w1, updateProduct env req w = (Fail 500 "Failed to upload new images", w1)
              /\ products w1 = products w) \/
  (exists p' w',
      updateProduct env req w = (Json 200 p', w') /\
      p' = with_images (assign_fields env (body req) product) (images p') /\
      products w' = <[castObjectId (params_id req) := p']> (products w)).
Proof.
  intros (Hid & Hfind & ownerId & Huser & Hown).
  unfold updateProduct.
  rewrite Hid, Huser, Hfind, Hown, String.eqb_refl. cbn [negb].
  set (p1 := assign_fields env (body req) product).
  assert (Hsave : forall w0 imgs, products w0 = products w ->
            exists p' w',
              (Json 200
                 match imgs with [] => p1 | _ :: _ => with_images p1 imgs end,
               with_products w0
                 (<[castObjectId (params_id req) :=
                      match imgs with [] => p1 | _ :: _ => with_images p1 imgs end]>
                    (products w0)))
              = (@Json Product 200 p', w') /\
              p' = with_images p1 (images p') /\
              products w' = <[castObjectId (params_id req) := p']> (products w)).
  { intros w0 imgs Hw0. eexists _, _. split; [reflexivity |]. rewrite Hw0.
    split; [| reflexivity]. destruct imgs; [destruct p1 |]; reflexivity. }
  destruct (files req) as [[| f fs] |].
  - right. apply Hsave. reflexivity.
  - destruct (uploadMultipleOnCloudinary env (f :: fs)) as [[| u us] |].
    + left. eexists. split; reflexivity.
    + right. apply Hsave. reflexivity.
    + left. eexists. split; reflexivity.
  - right. apply Hsave. reflexivity.
Qed.

(** Conversely a 200 answer is only given to a request that passed the
    guards, for the document that was found. *)
Lemma updateProduct_saved (st : Z) (p' : Product) (w' : World) :
  updateProduct env req w = (Json st p', w') ->
  exists product, reaches_assignments req w product /\ st = 200 /\
    p' = with_images (assign_fields env (body req) product) (images p') /\
    findById w' (params_id req) = Some p'.
Proof.
  intros H.
  destruct (isValidObjectId (params_id req)) eqn:Hid;
    [| unfold updateProduct in H; rewrite Hid in H; discriminate].
  destruct (user req) as [ownerId |] eqn:Huser;
    [| unfold updateProduct in H; rewrite Hid, Huser in H; discriminate].
  destruct (findById w (params_id req)) as [product |] eqn:Hfind;
    [| unfold updateProduct in H; rewrite Hid, Huser, Hfind in H; discriminate].
  destruct (String.eqb (toString (owner product)) (toString ownerId)) eqn:Hown;
    [| unfold updateProduct in H; rewrite Hid, Huser, Hfind, Hown in H;
       discriminate].
  apply String.eqb_eq in Hown.
  assert (Hr : reaches_assignments req w product) by (repeat split; eauto).
  exists product. split; [exact Hr |].
  destruct (updateProduct_by_owner product Hr)
    as [(w1 & E & _) | (q & w2 & E & Hq & Hw2)];
    rewrite E in H; inversion H; subst.
  repeat split; try assumption.
  unfold findById. rewrite Hw2. apply lookup_insert_eq.
Qed.

(** Without uploaded files the owner's update is always saved. *)
Lemma updateProduct_without_files (product : Product) :
  reaches_assignments req w product -> files req = None ->
  exists p' w', updateProduct env req w = (Json 200 p', w').
Proof.
  intros (Hid & Hfind & ownerId & Huser & Hown) Hfiles.
  unfold updateProduct.
  rewrite Hid, Huser, Hfind, Hown, String.eqb_refl, Hfiles. cbn [negb].
  eexists _, _. reflexivity.
Qed.

End ProductUpdate.

(** ** Flash-sale price against price (C1) *)

Section FlashSale.
Import Products.

(** C1, counterexample.  The owner of a product priced 100 sends
    [is_flash_sale=true, flash_sale_price=120]: the handler answers 200 and
    saves, so the request is not rejected with 400. *)
Lemma update_with_flash_price_above_price_is_not_rejected :
  fst (updateProduct ProductExamples.env ProductExamples.raise_flash_price
         ProductExamples.world) = Json 200 ProductExamples.lamp /\
  ~ update_rejects_flash_price.
Proof.
  assert (E : fst (updateProduct ProductExamples.env
                     ProductExamples.raise_flash_price ProductExamples.world)
              = Json 200 ProductExamples.lamp) by (vm_compute; reflexivity).
  split; [exact E |].
  intros claim.
  destruct (claim ProductExamples.env ProductExamples.raise_flash_price
              ProductExamples.world ProductExamples.lamp) as [msg Hmsg].
  - split; [reflexivity |]. split; [vm_compute; reflexivity |].
    exists ProductExamples.alice. split; reflexivity.
  - reflexivity.
  - vm_compute. reflexivity.
  - rewrite E in Hmsg. discriminate.
Qed.

(** C1, as amended.  With [is_flash_sale] equal to the string ['true']:
    - create, by an authenticated account, with
      [parseFloat(flash_sale_price) >= parseFloat(price)], fails with 400 and
      stores nothing;
    - update, by the owner, with [parseFloat(flash_sale_price)] not below
      the resulting price, is not rejected with 400 (without uploaded files
      it answers 200); whenever it answers 200 the saved document keeps the
      stored [flash_sale_price], [flash_sale_start] and [flash_sale_end]. *)
Theorem flash_price_rejected_on_create_kept_on_update
    (env : Env) (req : Request) (w : World) :
  is_str_true (b_is_flash_sale (body req)) = true ->
  (forall ownerId, user req = Some ownerId ->
     ge (parseFloat (b_flash_sale_price (body req)))
        (parseFloat (b_price (body req))) = true ->
     exists msg, createProduct env req w = (Fail 400 msg, w)) /\
  (forall product, reaches_assignments req w product ->
     ge (parseFloat (b_flash_sale_price (body req)))
        (price (assign_fields env (body req) product)) = true ->
     (forall msg, fst (updateProduct env req w) <> Fail 400 msg) /\
     (files req = None ->
        exists p' w', updateProduct env req w = (Json 200 p', w')) /\
     (forall p' w', updateProduct env req w = (Json 200 p', w') ->
        flash_sale_price p' = flash_sale_price product /\
        flash_sale_start p' = flash_sale_start product /\
        flash_sale_end p' = flash_sale_end product /\
        findById w' (params_id req) = Some p')).
Proof.
  intros Hflash. split.
  - intros ownerId Huser Hge. unfold createProduct. rewrite Huser.
    destruct (negb (truthy (b_name (body req))) || _ || _ || _ || _);
      [eexists; reflexivity |].
    unfold flash_sale_rejected. rewrite Hflash, Hge, orb_true_r. simpl.
    eexists; reflexivity.
  - intros product Hr Hge. split; [| split].
    + intros msg.
      destruct (updateProduct_by_owner env req w product Hr)
        as [(w1 & E & _) | (q & w2 & E & _)]; rewrite E; discriminate.
    + exact (updateProduct_without_files env req w product Hr).
    + intros p' w' E.
      destruct (updateProduct_saved env req w 200 p' w' E)
        as (product0 & (_ & Hfind0 & _) & _ & Hp' & Hfind').
      destruct Hr as (_ & Hfind & _).
      assert (product0 = product) by congruence. subst product0.
      apply ge_true_lt_false in Hge.
      assert (Hd : defined (b_is_flash_sale (body req)) = true)
        by (destruct (b_is_flash_sale (body req)); try discriminate; reflexivity).
      rewrite Hp'. simpl. rewrite Hd, Hflash. simpl in Hge. rewrite Hge.
      rewrite andb_false_r. repeat split; try reflexivity.
      rewrite <- Hp'. exact Hfind'.
Qed.

(** The theorem at two example requests: the create is refused; the
    update that lowers the price to 90 and asks for a flash-sale price of 95
    is saved with the flash-sale price of 80 the lamp had. *)
Lemma flash_price_rejected_on_create_kept_on_update_witness :
  (exists msg, createProduct ProductExamples.env ProductExamples.create_overpriced
                 ProductExamples.world = (Fail 400 msg, ProductExamples.world)) /\
  (let p' := assign_fields ProductExamples.env
               (body ProductExamples.reprice) ProductExamples.lamp in
   price p' = of_Z 90 /\
   flash_sale_price p' = Some (of_Z 80) /\
   findById (snd (updateProduct ProductExamples.env ProductExamples.reprice
                    ProductExamples.world))
            (params_id ProductExamples.reprice) = Some p').
Proof.
  split.
  - apply (flash_price_rejected_on_create_kept_on_update ProductExamples.env
             ProductExamples.create_overpriced ProductExamples.world
             eq_refl) with (ownerId := ProductExamples.alice).
    + reflexivity.
    + vm_compute. reflexivity.
  - intros p'. split; [vm_compute; reflexivity |].
    destruct (flash_price_rejected_on_create_kept_on_update ProductExamples.env
                ProductExamples.reprice ProductExamples.world eq_refl)
      as [_ Hupdate].
    destruct (Hupdate ProductExamples.lamp) as (_ & _ & Hsaved).
    + split; [reflexivity |]. split; [vm_compute; reflexivity |].
      exists ProductExamples.alice. split; reflexivity.
    + vm_compute. reflexivity.
    + destruct (Hsaved p' (snd (updateProduct ProductExamples.env
                                  ProductExamples.reprice ProductExamples.world)))
        as (Hprice & _ & _ & Hfind).
      * vm_compute. reflexivity.
      * split; [exact Hprice | exact Hfind].
Defined.

End FlashSale.

(** ** Ownership (C8) *)

Section Ownership.
Import Products.

(** C8.  An update or delete of an existing product by an authenticated
    account whose id differs from the owner's fails with 403 Forbidden, and
    the world (every stored product and the calls made to the image host) is
    exactly what it was. *)
Theorem non_owner_is_forbidden
    (env : Env) (req : Request) (w : World)
    (product : Product) (account : ObjectId) :
  isValidObjectId (params_id req) = true ->
  findById w (params_id req) = Some product ->
  user req = Some account ->
  toString (owner product) <> toString account ->
  updateProduct env req w =
    (Fail 403 "Forbidden: You do not own this product", w) /\
  deleteProduct req w =
    (Fail 403 "Forbidden: You do not own this product", w).
Proof.
  intros Hid Hfind Huser Hneq.
  apply String.eqb_neq in Hneq.
  unfold updateProduct, deleteProduct.
  rewrite Hid, Huser, Hfind, Hneq. simpl. split; reflexivity.
Qed.

(** Bob's attempts on alice's lamp. *)
Lemma non_owner_is_forbidden_witness :
  updateProduct ProductExamples.env
    (ProductExamples.by_bob ProductExamples.raise_flash_price)
    ProductExamples.world =
    (Fail 403 "Forbidden: You do not own this product", ProductExamples.world) /\
  deleteProduct (ProductExamples.by_bob ProductExamples.raise_flash_price)
    ProductExamples.world =
    (Fail 403 "Forbidden: You do not own this product", ProductExamples.world).
Proof.
  apply (non_owner_is_forbidden ProductExamples.env
           (ProductExamples.by_bob ProductExamples.raise_flash_price)
           ProductExamples.world ProductExamples.lamp ProductExamples.bob).
  - reflexivity.
  - vm_compute. reflexivity.
  - reflexivity.
  - vm_compute. discriminate.
Defined.

End Ownership.

(** ** The featured flag on update (C10) *)

Section Featured.
Import Products.

(** C10.  Whenever an update is saved (and the owner's update without
    uploaded files always is), the stored [is_featured] is the supplied
    value if that value is truthy and the previous flag otherwise: an
    absent, [false] or otherwise falsy [is_featured] changes nothing, so
    [is_featured=false] does not un-feature a featured product. *)
Theorem is_featured_assigned_only_when_truthy
    (env : Env) (req : Request) (w : World) (product : Product) :
  findById w (params_id req) = Some product ->
  (reaches_assignments req w product -> files req = None ->
     exists p' w', updateProduct env req w = (Json 200 p', w')) /\
  (forall p' w', updateProduct env req w = (Json 200 p', w') ->
     findById w' (params_id req) = Some p' /\
     is_featured p' =
       (if truthy (b_is_featured (body req)) then b_is_featured (body req)
        else is_featured product) /\
     (truthy (b_is_featured (body req)) = false ->
        is_featured p' = is_featured product) /\
     (b_is_featured (body req) = VBool false ->
        is_featured product = VBool true -> is_featured p' = VBool true)).
Proof.
  intros Hfind. split; [exact (updateProduct_without_files env req w product) |].
  intros p' w' E.
  destruct (updateProduct_saved env req w 200 p' w' E)
    as (product0 & (_ & Hfind0 & _) & _ & Hp' & Hfind').
  assert (product0 = product) by congruence. subst product0.
  assert (Hf : is_featured p' =
               if truthy (b_is_featured (body req)) then b_is_featured (body req)
               else is_featured product)
    by (rewrite Hp'; reflexivity).
  split; [exact Hfind' |]. split; [exact Hf |]. split.
  - intros Hfalsy. rewrite Hf, Hfalsy. reflexivity.
  - intros Hv Hold. rewrite Hf, Hv. simpl. exact Hold.
Qed.

(** Alice sends [{ "is_featured": false }] for her featured lamp: the update
    is saved and the lamp is still featured. *)
Lemma is_featured_assigned_only_when_truthy_witness :
  findById (snd (updateProduct ProductExamples.env ProductExamples.unfeature
                   ProductExamples.world))
           (params_id ProductExamples.unfeature) = Some ProductExamples.lamp /\
  is_featured ProductExamples.lamp = VBool true.
Proof.
  destruct (is_featured_assigned_only_when_truthy ProductExamples.env
              ProductExamples.unfeature ProductExamples.world
              ProductExamples.lamp) as [_ Hsaved].
  - vm_compute. reflexivity.
  - destruct (Hsaved ProductExamples.lamp
                (snd (updateProduct ProductExamples.env ProductExamples.unfeature
                        ProductExamples.world)))
      as (Hfind & _ & _ & Hkeep).
    + vm_compute. reflexivity.
    + split; [exact Hfind |]. apply Hkeep; reflexivity.
Defined.

End Featured.

(** ** Settings update (C7) *)

Section SettingsUpdate.
Import SettingsCtl.

Lemma assign_get (engine : Engine) (f : field) (body : Payload) (s : Settings) :
  get f (assign engine body s) =
    if applies f body then setter engine f (get f body) else get f s.
Proof. destruct f; reflexivity. Qed.

(** C7.  An update is accepted when the document it produces passes the
    validation of the schema, and then the saved document is the answer.
    Field by field it holds the supplied value (cast and set as the schema
    says: a text trimmed, the e-mail in lower case as well) exactly for the
    fields that are truthy in the body, and for [maintenanceMode] whenever
    its key is present, a supplied [false] included; every other field keeps
    the value of the document stored before, or the default of the schema
    when none was stored.  A body with [siteName] alone changes [siteName]
    alone. *)
Theorem updateSettings_assigns_present_truthy_fields
    (engine : Engine) (body : Payload) (st : Store) :
  (valid (assign engine body (previous st)) = true ->
     exists s', updateSettings engine body st = (Json 200 s', Some s')) /\
  (forall s' st', updateSettings engine body st = (Json 200 s', st') ->
     st' = Some s' /\
     (forall f, get f s' =
        if applies f body then setter engine f (get f body)
        else get f (previous st)) /\
     (forall f x, get f body = VStr x -> x <> "" ->
        get f s' =
          match f with
          | SiteName | SiteDescription | ContactPhone =>
              VStr (String_trim engine x)
          | ContactEmail =>
              VStr (String_trim engine (String_toLowerCase engine x))
          | Currency | Timezone => VStr x
          | MaintenanceMode => default_to (VStr x) (cast_boolean (VStr x))
          end) /\
     (forall f, f <> MaintenanceMode -> truthy (get f body) = false ->
        get f s' = get f (previous st)) /\
     (maintenanceMode body = VUndefined ->
        maintenanceMode s' = maintenanceMode (previous st)) /\
     (forall b, maintenanceMode body = VBool b -> maintenanceMode s' = VBool b) /\
     (forall x, body = only_siteName x ->
        forall f, f <> SiteName -> get f s' = get f (previous st))).
Proof.
  assert (Hget : getSettings st = (previous st, Some (previous st)))
    by (destruct st; reflexivity).
  unfold updateSettings. rewrite Hget. split.
  - intros ->. eexists. reflexivity.
  - intros s' st'.
    destruct (valid (assign engine body (previous st))) eqn:Hvalid;
      [| discriminate].
    intros H. inversion H; subst. clear H.
    split; [reflexivity |]. split; [intros f; apply assign_get |].
    split; [| split; [| split; [| split]]].
    + intros f x Hx Hne. rewrite assign_get.
      assert (Ht : truthy (VStr x) = true).
      { cbn [truthy]. apply negb_true_iff, String.eqb_neq, Hne. }
      destruct f; cbn [applies]; rewrite Hx; cbn [defined]; rewrite ?Ht;
        reflexivity.
    + intros f Hf Hfalse. rewrite assign_get.
      destruct f; cbn [applies]; try rewrite Hfalse; try reflexivity.
      contradiction.
    + intros Hm. rewrite (assign_get engine MaintenanceMode).
      cbn [applies get]. rewrite Hm. reflexivity.
    + intros b Hb. rewrite (assign_get engine MaintenanceMode).
      cbn [applies get]. rewrite Hb. reflexivity.
    + intros x -> f Hf. rewrite assign_get. destruct f; try reflexivity.
      contradiction.
Qed.

(** An accepted update of a store in maintenance mode: a new site name, an
    empty contact e-mail (ignored), a contact phone sent as a number (stored
    as its digits) and [maintenanceMode: false] (applied); the currency stays
    as it was stored. *)
Lemma updateSettings_assigns_present_truthy_fields_witness :
  let body := {| siteName := VStr " Shop "; siteDescription := VUndefined;
                 contactEmail := VStr ""; contactPhone := VNum (of_Z 5550100);
                 currency := VUndefined; timezone := VUndefined;
                 maintenanceMode := VBool false |} in
  exists s',
    updateSettings ascii_engine body (Some in_maintenance)
      = (Json 200 s', Some s') /\
    siteName s' = VStr "Shop" /\
    contactEmail s' = contactEmail in_maintenance /\
    contactPhone s' = VStr "5550100" /\
    currency s' = currency in_maintenance /\
    maintenanceMode s' = VBool false.
Proof.
  intros body.
  destruct (updateSettings_assigns_present_truthy_fields ascii_engine body
              (Some in_maintenance)) as [Haccepted Hsaved].
  destruct (Haccepted eq_refl) as [s' Hs']. exists s'.
  destruct (Hsaved s' (Some s') Hs')
    as (_ & Hfields & Htext & Hfalsy & _ & Hflag & _).
  split; [exact Hs' |].
  split; [apply (Htext SiteName " Shop "); [reflexivity | discriminate] |].
  split; [apply (Hfalsy ContactEmail); [discriminate | reflexivity] |].
  split; [change (get ContactPhone s' = VStr "5550100");
          rewrite (Hfields ContactPhone); vm_compute; reflexivity |].
  split; [apply (Hfalsy Currency); [discriminate | reflexivity] |].
  apply (Hflag false). reflexivity.
Defined.

End SettingsUpdate.

(** ** Pagination arithmetic *)

Lemma of_Z_lt (p q : Z) : lt (of_Z p) (of_Z q) = (p <? q).
Proof.
  unfold lt, of_Z, Qc_ltb. simpl.
  rewrite !Qred_correct.
  destruct (Z.ltb_spec p q) as [H | H].
  - apply negb_true_iff. destruct (Qle_bool (inject_Z q) (inject_Z p)) eqn:E; [| reflexivity].
    apply Qle_bool_iff in E. rewrite <- Zle_Qle in E. lia.
  - apply negb_false_iff. apply Qle_bool_iff. rewrite <- Zle_Qle. exact H.
Qed.

Lemma Qc_is_zero_of_Z (l : Z) : Qc_is_zero (Q2Qc (inject_Z l)) = (l =? 0).
Proof.
  unfold Qc_is_zero. simpl. rewrite Qred_correct.
  destruct (Z.eqb_spec l 0) as [-> | H]; [reflexivity |].
  destruct (Qeq_bool (inject_Z l) 0) eqn:E; [| reflexivity].
  apply Qeq_bool_eq in E. unfold Qeq in E. simpl in E. lia.
Qed.

Lemma ceil_div_pages (n l : Z) :
  0 < l ->
  exists tp, Math_ceil (div (of_Z n) (of_Z l)) = of_Z tp /\
             (tp - 1) * l < n <= tp * l.
Proof.
  intros Hl. unfold div, of_Z. rewrite Qc_is_zero_of_Z.
  destruct (Z.eqb_spec l 0) as [-> | _]; [lia |].
  set (x := Q2Qc (inject_Z n)). set (y := Q2Qc (inject_Z l)).
  exists (Qceiling (x / y)%Qc). split; [reflexivity |].
  assert (Hy : y <> Q2Qc 0).
  { intros E. apply (f_equal this) in E. simpl in E.
    apply Qred_eq_iff in E. unfold Qeq in E. simpl in E. lia. }
  pose proof (Qcmult_div_r x y Hy) as Hm.
  apply (f_equal this) in Hm.
  assert (Hq : (inject_Z l * (x / y)%Qc == inject_Z n)%Q).
  { transitivity (this x); [| apply Qred_correct]. rewrite <- Hm.
    change (this (y * (x / y))%Qc) with (Qred (this y * this (x / y)%Qc)).
    rewrite Qred_correct.
    change (this y) with (Qred (inject_Z l)). rewrite Qred_correct.
    reflexivity. }
  pose proof (Qle_ceiling (x / y)%Qc) as Hle.
  pose proof (Qceiling_lt (x / y)%Qc) as Hlt.
  assert (Hpos : (0 < inject_Z l)%Q).
  { change 0%Q with (inject_Z 0). rewrite <- Zlt_Qlt. exact Hl. }
  apply (Qmult_le_l _ _ _ Hpos) in Hle.
  apply (Qmult_lt_l _ _ _ Hpos) in Hlt.
  rewrite Hq in Hle, Hlt.
  rewrite <- inject_Z_mult in Hle, Hlt.
  rewrite <- Zle_Qle in Hle. rewrite <- Zlt_Qlt in Hlt. lia.
Qed.

Lemma Qred_inject_Z (d : Z) : Qred (inject_Z d) = inject_Z d.
Proof. apply Qred_identity. cbn. apply Z.gcd_1_r. Qed.

(** [parseInt] of a number that is an integer, such as a default. *)
Lemma parseInt_of_Z (d : Z) : parseInt (VNum (of_Z d)) = of_Z d.
Proof.
  unfold parseInt, of_Z.
  change (this (Q2Qc (inject_Z d))) with (Qred (inject_Z d)).
  rewrite Qred_inject_Z. cbn [Qnum Qden inject_Z].
  rewrite Z.quot_1_r. reflexivity.
Qed.

Lemma as_integer_of_Z (n : Z) : as_integer (of_Z n) = Some n.
Proof.
  unfold as_integer, of_Z.
  change (this (Q2Qc (inject_Z n))) with (Qred (inject_Z n)).
  rewrite Qred_inject_Z. reflexivity.
Qed.

Lemma of_Z_sub (a b : Z) : sub (of_Z a) (of_Z b) = of_Z (a - b).
Proof.
  unfold sub, of_Z. f_equal. apply Qc_is_canon.
  change (this (Q2Qc (inject_Z a) - Q2Qc (inject_Z b))%Qc)
    with (Qred (Qred (inject_Z a) + Qred (- Qred (inject_Z b)))).
  change (this (Q2Qc (inject_Z (a - b)))) with (Qred (inject_Z (a - b))).
  rewrite !Qred_correct. unfold Z.sub.
  rewrite inject_Z_plus, inject_Z_opp. reflexivity.
Qed.

Lemma of_Z_mul (a b : Z) : mul (of_Z a) (of_Z b) = of_Z (a * b).
Proof.
  unfold mul, of_Z. f_equal. apply Qc_is_canon.
  change (this (Q2Qc (inject_Z a) * Q2Qc (inject_Z b))%Qc)
    with (Qred (Qred (inject_Z a) * Qred (inject_Z b))).
  change (this (Q2Qc (inject_Z (a * b)))) with (Qred (inject_Z (a * b))).
  rewrite !Qred_correct, inject_Z_mult. reflexivity.
Qed.

Lemma skip_and_limit_accepted {A} (p n : Z) (docs : list A) :
  1 <= p -> 0 < n ->
  exists page_docs,
    cursor_skip (skip_of (of_Z p) (of_Z n)) docs ≫= cursor_limit (of_Z n)
    = Some page_docs.
Proof.
  intros Hp Hn. unfold skip_of. rewrite of_Z_sub, of_Z_mul.
  unfold cursor_skip, cursor_limit. rewrite !as_integer_of_Z.
  destruct (Z.ltb_spec ((p - 1) * n) 0) as [H | _]; [nia |].
  cbn [mbind option_bind].
  destruct (n =? 0); eexists; reflexivity.
Qed.

(** ** What a listing answer contains *)

Lemma getAllProducts_answer (q : Products.ListQuery) (w : Products.World)
    (st : Z) (l : Listing Products.Product) :
  Products.getAllProducts q w = Json st l ->
  st = 200 /\
  pagination_of l =
    pagination (page_number (Products.q_page q))
      (page_size 20 (Products.q_limit q))
      (length (filter (fun p => Products.matches (Products.build_filter q) p = true)
                      (snd <$> map_to_list (Products.products w)))).
Proof.
  unfold Products.getAllProducts.
  destruct (negb (Products.castable (Products.build_filter q))); [discriminate |].
  destruct (cursor_skip _ _ ≫= cursor_limit _); [| discriminate].
  intros H. inversion H. split; reflexivity.
Qed.

Lemma getAllPayments_answer (env : Payments.Env) (q : Payments.Query)
    (payments : list Payments.Payment) (st : Z) (l : Listing Payments.Payment) :
  Payments.getAllPayments env q payments = Json st l ->
  st = 200 /\
  pagination_of l =
    pagination (page_number (Payments.q_page q))
      (page_size 10 (Payments.q_limit q))
      (Payments.countDocuments (Payments.build_filter env q) payments) /\
  exists fetched,
    Payments.find_page (Payments.build_filter env q)
      (default_to "createdAt" (Payments.q_sortBy q))
      (String.eqb (default_to "desc" (Payments.q_sortOrder q)) "desc")
      (skip_of (page_number (Payments.q_page q))
               (page_size 10 (Payments.q_limit q)))
      (page_size 10 (Payments.q_limit q)) payments = Some fetched /\
    data l =
      if Payments.some_text (default_to "" (Payments.q_search q))
      then filter (fun p => Payments.search_hit (Payments.engine env)
                              (default_to "" (Payments.q_search q)) p = true)
                  fetched
      else fetched.
Proof.
  unfold Payments.getAllPayments.
  destruct (negb (Payments.castable (Payments.build_filter env q)));
    [discriminate |].
  destruct (Payments.find_page _ _ _ _ _ _) as [fetched |]; [| discriminate].
  intros H. inversion H. split; [reflexivity |]. split; [reflexivity |].
  exists fetched. split; reflexivity.
Qed.

(** A request with a page from 1 and a positive page size, whose filter
    the store accepts, is answered. *)
Lemma getAllProducts_answers (q : Products.ListQuery) (w : Products.World)
    (p n : Z) :
  page_number (Products.q_page q) = of_Z p ->
  page_size 20 (Products.q_limit q) = of_Z n ->
  1 <= p -> 0 < n ->
  Products.castable (Products.build_filter q) = true ->
  exists l, Products.getAllProducts q w = Json 200 l.
Proof.
  intros Hpage Hlimit Hp Hn Hcast. unfold Products.getAllProducts.
  rewrite Hcast, Hpage, Hlimit. cbn [negb].
  match goal with
  | |- context [cursor_skip _ ?docs ≫= _] =>
      destruct (skip_and_limit_accepted p n docs Hp Hn) as (page_docs & ->)
  end.
  eexists. reflexivity.
Qed.

Lemma getAllPayments_answers (env : Payments.Env) (q : Payments.Query)
    (payments : list Payments.Payment) (p n : Z) :
  page_number (Payments.q_page q) = of_Z p ->
  page_size 10 (Payments.q_limit q) = of_Z n ->
  1 <= p -> 0 < n ->
  Payments.castable (Payments.build_filter env q) = true ->
  exists l, Payments.getAllPayments env q payments = Json 200 l.
Proof.
  intros Hpage Hlimit Hp Hn Hcast. unfold Payments.getAllPayments.
  rewrite Hcast, Hpage, Hlimit. cbn [negb]. unfold Payments.find_page.
  match goal with
  | |- context [cursor_skip _ ?docs ≫= _] =>
      destruct (skip_and_limit_accepted p n docs Hp Hn) as (page_docs & ->)
  end.
  eexists. reflexivity.
Qed.

(** ** Defaults of page and limit (C3) *)

Lemma parseInt_string_without_digit (s : string) :
  starts_with_digit s = false -> parseInt_string s = NaN.
Proof.
  unfold starts_with_digit, parseInt_string.
  destruct (take_sign (skip_ws s)) as [neg s1]. cbn [snd].
  destruct s1 as [| c r]; [reflexivity |].
  destruct (dec_digit c) eqn:Hd; [discriminate |]. intros _.
  assert (Hp : take_hex_prefix (String c r) = None).
  { unfold take_hex_prefix. destruct r as [| c1 r']; [reflexivity |].
    destruct (Ascii.eqb_spec c "0") as [-> | _]; [discriminate Hd | reflexivity]. }
  rewrite Hp. cbn [read_digits]. rewrite Hd. reflexivity.
Qed.

(** C3, counterexample.  [page=abc] and [limit=ten] are parsed to NaN and
    used as they are: no default takes their place, and the query that
    carries them is refused by the store. *)
Lemma non_numeric_page_or_limit_is_not_defaulted :
  page_number (Some "abc") = NaN /\
  page_size 20 (Some "abc") = NaN /\
  page_size 10 (Some "ten") = NaN /\
  Products.getAllProducts ListingExamples.page_abc ListingExamples.catalog
    = Thrown "MongoServerError" /\
  Payments.getAllPayments ListingExamples.utc ListingExamples.limit_ten
    ListingExamples.ledger = Thrown "MongoServerError" /\
  ~ invalid_falls_back_to_default.
Proof.
  repeat split; try (vm_compute; reflexivity).
  intros claim. destruct (claim "abc" eq_refl) as [H _]. discriminate H.
Qed.

(** C3, as amended.  [page] defaults to 1 and [limit] to 20 (products) or
    10 (payments) when the parameter is absent.  A parameter that is present
    is used as [parseInt] reads it, with no fall-back: a value without a
    leading integer is NaN.  The page and the page size so obtained are the
    ones the pagination of an answer is computed from. *)
Theorem page_and_limit_default_only_when_absent :
  (page_number None = of_Z 1 /\
   page_size 20 None = of_Z 20 /\
   page_size 10 None = of_Z 10) /\
  (forall d s, page_number (Some s) = parseInt_string s /\
               page_size d (Some s) = parseInt_string s) /\
  (forall s, starts_with_digit s = false ->
             page_number (Some s) = NaN /\ forall d, page_size d (Some s) = NaN) /\
  (forall q w l, Products.getAllProducts q w = Json 200 l ->
     currentPage (pagination_of l) =
       match Products.q_page q with
       | None => of_Z 1 | Some s => parseInt_string s end /\
     totalPages (pagination_of l) =
       Math_ceil (div (total (pagination_of l))
                      match Products.q_limit q with
                      | None => of_Z 20 | Some s => parseInt_string s end)) /\
  (forall env q payments l, Payments.getAllPayments env q payments = Json 200 l ->
     currentPage (pagination_of l) =
       match Payments.q_page q with
       | None => of_Z 1 | Some s => parseInt_string s end /\
     totalPages (pagination_of l) =
       Math_ceil (div (total (pagination_of l))
                      match Payments.q_limit q with
                      | None => of_Z 10 | Some s => parseInt_string s end)).
Proof.
  assert (Hdef : forall d, parseInt (VNum (of_Z d)) = of_Z d)
    by exact parseInt_of_Z.
  split; [| split; [| split; [| split]]].
  - unfold page_number, page_size. cbn [default_to fmap option_fmap option_map].
    rewrite !Hdef. repeat split; reflexivity.
  - intros d s. split; reflexivity.
  - intros s Hs. split; [| intros d]; apply parseInt_string_without_digit, Hs.
  - intros q w l H. apply getAllProducts_answer in H as [_ ->].
    unfold page_number, page_size.
    destruct (Products.q_page q), (Products.q_limit q);
      cbn [default_to fmap option_fmap option_map pagination currentPage
           totalPages total]; rewrite ?Hdef; split; reflexivity.
  - intros env q payments l H. apply getAllPayments_answer in H as (_ & -> & _).
    unfold page_number, page_size.
    destruct (Payments.q_page q), (Payments.q_limit q);
      cbn [default_to fmap option_fmap option_map pagination currentPage
           totalPages total]; rewrite ?Hdef; split; reflexivity.
Qed.

(** The theorem at [page=abc], and at the answer to a query without
    parameters. *)
Lemma page_and_limit_default_only_when_absent_witness :
  page_number (Some "abc") = NaN /\
  currentPage (pagination_of ListingExamples.no_params_answer) = of_Z 1.
Proof.
  destruct page_and_limit_default_only_when_absent
    as (_ & _ & Hnan & Hproducts & _).
  split.
  - apply (Hnan "abc"). reflexivity.
  - apply (Hproducts ListingExamples.no_params ListingExamples.catalog
             ListingExamples.no_params_answer).
    vm_compute. reflexivity.
Defined.

(** ** The pagination envelope (C4) *)

Lemma pagination_envelope (page limit : number) (count : nat) :
  envelope_ok page limit count (pagination page limit count).
Proof.
  unfold envelope_ok, pagination. cbn [currentPage total totalPages hasNext hasPrev].
  repeat (split; [reflexivity |]).
  intros p size -> -> Hsize.
  destruct (ceil_div_pages (Z.of_nat count) size Hsize) as (pages & Hceil & Hb).
  exists pages. rewrite Hceil. split; [reflexivity |]. split; [exact Hb |].
  unfold gt. rewrite !of_Z_lt. split; apply Z.ltb_lt.
Qed.

(** C4.  In every answer of the two listing handlers the pagination object
    satisfies [totalPages == ceil(total/limit)],
    [hasNext == (page < totalPages)] and [hasPrev == (page > 1)], where
    [total] is the number of documents that match the filter; and a request
    with a page from 1 and a positive limit, whose filter the store accepts,
    is answered. *)
Theorem listing_pagination_envelope :
  (forall q w l, Products.getAllProducts q w = Json 200 l ->
     envelope_ok (page_number (Products.q_page q))
       (page_size 20 (Products.q_limit q))
       (length (filter (fun p => Products.matches (Products.build_filter q) p = true)
                       (snd <$> map_to_list (Products.products w))))
       (pagination_of l)) /\
  (forall env q payments l, Payments.getAllPayments env q payments = Json 200 l ->
     envelope_ok (page_number (Payments.q_page q))
       (page_size 10 (Payments.q_limit q))
       (Payments.countDocuments (Payments.build_filter env q) payments)
       (pagination_of l)) /\
  (forall q w p n,
     page_number (Products.q_page q) = of_Z p ->
     page_size 20 (Products.q_limit q) = of_Z n -> 1 <= p -> 0 < n ->
     Products.castable (Products.build_filter q) = true ->
     exists l, Products.getAllProducts q w = Json 200 l) /\
  (forall env q payments p n,
     page_number (Payments.q_page q) = of_Z p ->
     page_size 10 (Payments.q_limit q) = of_Z n -> 1 <= p -> 0 < n ->
     Payments.castable (Payments.build_filter env q) = true ->
     exists l, Payments.getAllPayments env q payments = Json 200 l).
Proof.
  split; [| split; [| split]].
  - intros q w l H. apply getAllProducts_answer in H as [_ ->].
    apply pagination_envelope.
  - intros env q payments l H. apply getAllPayments_answer in H as (_ & -> & _).
    apply pagination_envelope.
  - intros q w p n. apply getAllProducts_answers.
  - intros env q payments p n. apply getAllPayments_answers.
Qed.

(** Page 2 of the three products, two to a page: two pages in all, no next
    page, a previous one. *)
Lemma listing_pagination_envelope_witness :
  exists pages,
    totalPages (pagination_of ListingExamples.second_page_answer) = of_Z pages /\
    (pages - 1) * 2 < 3 <= pages * 2 /\
    (hasNext (pagination_of ListingExamples.second_page_answer) = true
       <-> 2 < pages) /\
    (hasPrev (pagination_of ListingExamples.second_page_answer) = true
       <-> 1 < 2).
Proof.
  destruct listing_pagination_envelope as (Hproducts & _ & _ & _).
  destruct (Hproducts ListingExamples.second_page ListingExamples.catalog
              ListingExamples.second_page_answer)
    as (_ & _ & _ & _ & _ & Hint).
  - vm_compute. reflexivity.
  - destruct (Hint 2 2) as (pages & Hp & Hb & Hn & Hv).
    + vm_compute. reflexivity.
    + vm_compute. reflexivity.
    + lia.
    + exists pages. split; [exact Hp |]. split; [exact Hb |].
      split; [exact Hn | exact Hv].
Defined.

(** ** Payments: search applies to the fetched page (C2) *)

Section PaymentSearch.
Import Payments.

Lemma lower_hex_char (d : N) : (d < 16)%N -> lower_char (hex_char d) = hex_char d.
Proof.
  intros H.
  destruct d as [| [[[[p|p|]|[p|p|]|]|[[p|p|]|[p|p|]|]|]
                   |[[[p|p|]|[p|p|]|]|[[p|p|]|[p|p|]|]|]|]];
    try reflexivity; lia.
Qed.

Lemma lower_hex_digits (k : nat) (n : N) (acc : string) :
  toLowerCase acc = acc -> toLowerCase (hex_digits k n acc) = hex_digits k n acc.
Proof.
  revert n acc. induction k as [| k IH]; intros n acc Hacc; [exact Hacc |].
  cbn [hex_digits]. apply IH. cbn [toLowerCase].
  rewrite lower_hex_char, Hacc; [reflexivity |].
  apply N.mod_lt. discriminate.
Qed.

(** An ObjectId prints in lower case. *)
Lemma toString_lower (o : ObjectId) : toLowerCase (toString o) = toString o.
Proof. apply lower_hex_digits. reflexivity. Qed.

Lemma is_ascii_hex_char (d : N) : (d < 16)%N -> (code (hex_char d) <? 128) = true.
Proof.
  intros H.
  destruct d as [| [[[[p|p|]|[p|p|]|]|[[p|p|]|[p|p|]|]|]
                   |[[[p|p|]|[p|p|]|]|[[p|p|]|[p|p|]|]|]|]];
    try reflexivity; lia.
Qed.

Lemma is_ascii_hex_digits (k : nat) (n : N) (acc : string) :
  is_ascii acc = true -> is_ascii (hex_digits k n acc) = true.
Proof.
  revert n acc. induction k as [| k IH]; intros n acc Hacc; [exact Hacc |].
  cbn [hex_digits]. apply IH. cbn [is_ascii].
  rewrite is_ascii_hex_char, Hacc; [reflexivity |].
  apply N.mod_lt. discriminate.
Qed.

(** An ObjectId prints in ASCII. *)
Lemma is_ascii_toString (o : ObjectId) : is_ascii (toString o) = true.
Proof. apply is_ascii_hex_digits. reflexivity. Qed.

Lemma lower_or_empty_lower (engine : Engine) (o : option string) :
  lowers_ascii engine ->
  lower_or_empty engine o = String_toLowerCase engine (default_to "" o).
Proof.
  intros Hlow. unfold lower_or_empty.
  destruct o as [x |]; cbn [option_map default_to].
  - cbn [truthy]. destruct (String.eqb_spec (String_toLowerCase engine x) "")
      as [E | _]; cbn [negb]; [symmetry; exact E | reflexivity].
  - symmetry. apply (Hlow ""). reflexivity.
Qed.

(** The predicate of the handler is the case-insensitive match of the
    specification on the four texts. *)
Lemma search_hit_matches (engine : Engine) (search : string) (p : Payment) :
  lowers_ascii engine ->
  search_hit engine search p = search_matches engine search p.
Proof.
  intros Hlow. unfold search_hit, search_matches, ci_includes.
  rewrite !lower_or_empty_lower by exact Hlow. do 3 f_equal.
  destruct (order p) as [o |]; cbn [option_map default_to].
  - rewrite (Hlow (toString (o_id o))) by apply is_ascii_toString.
    rewrite toString_lower. reflexivity.
  - rewrite (Hlow "") by reflexivity. reflexivity.
Qed.

(** What the store returns for page [p] with limit [n]: the page, or every
    document when the limit is 0. *)
Lemma fetched_of_cursor {A} (p n : Z) (docs : list A) :
  1 <= p -> 0 <= n ->
  cursor_skip (skip_of (of_Z p) (of_Z n)) docs ≫= cursor_limit (of_Z n)
    = Some (if n =? 0 then docs else page_of p n docs).
Proof.
  intros Hp Hn. unfold skip_of, page_of. rewrite of_Z_sub, of_Z_mul.
  unfold cursor_skip, cursor_limit. rewrite !as_integer_of_Z.
  destruct (Z.ltb_spec ((p - 1) * n) 0) as [H | _]; [nia |].
  cbn [mbind option_bind].
  destruct (Z.eqb_spec n 0) as [-> | _].
  - rewrite Z.mul_0_r. reflexivity.
  - rewrite Z.abs_eq by lia. reflexivity.
Qed.

Lemma length_page_of {A} (p n : Z) (docs : list A) :
  0 < n -> Z.of_nat (length (page_of p n docs)) <= n.
Proof. intros Hn. unfold page_of. rewrite length_take. lia. Qed.




End PaymentSearch.

(** ** The [$group] stage *)

Section GroupStage.
Context {A K : Type} (eqb : K -> K -> bool) (key : A -> K) (amount : A -> Qc).
Hypothesis eqb_eq : forall a b, eqb a b = true <-> a = b.

Lemma eqb_refl' (k : K) : eqb k k = true.
Proof. apply eqb_eq. reflexivity. Qed.

Lemma eqb_false_iff (a b : K) : eqb a b = false <-> a <> b.
Proof.
  destruct (eqb a b) eqn:E.
  - apply eqb_eq in E. split; [discriminate | contradiction].
  - split; [| reflexivity]. intros _ Hab. apply eqb_eq in Hab. congruence.
Qed.

Lemma sum_of_snoc (ds : list A) (d : A) :
  sum_of amount (ds ++ [d]) = (sum_of amount ds + amount d)%Qc.
Proof.
  induction ds as [| x ds IH]; cbn.
  - ring.
  - unfold sum_of in IH. rewrite IH. ring.
Qed.

Lemma group_stage_snoc (docs : list A) (d : A) :
  group_stage eqb key amount (docs ++ [d]) =
  accumulate eqb (key d) (amount d) (group_stage eqb key amount docs).
Proof. unfold group_stage. rewrite fold_left_app. reflexivity. Qed.

Lemma find_accumulate (k : K) (a : Qc) (gs : list (group K)) (k' : K) :
  find_group eqb k' (accumulate eqb k a gs) =
    if eqb k k'
    then Some match find_group eqb k gs with
              | Some g => Group (g_id g) (g_count g + 1) (g_amount g + a)%Qc
              | None => Group k 1 a
              end
    else find_group eqb k' gs.
Proof.
  unfold find_group. induction gs as [| g r IH]; cbn [accumulate List.find].
  - cbn [g_id]. destruct (eqb k k'); reflexivity.
  - destruct (eqb (g_id g) k) eqn:Egk; cbn [List.find g_id].
    + apply eqb_eq in Egk. rewrite Egk.
      destruct (eqb k k') eqn:Ekk'; reflexivity.
    + destruct (eqb (g_id g) k') eqn:Egk'.
      * destruct (eqb k k') eqn:Ekk'; [| reflexivity].
        apply eqb_eq in Egk', Ekk'. apply eqb_false_iff in Egk. congruence.
      * exact IH.
Qed.

Lemma members_snoc (k : K) (docs : list A) (d : A) :
  members eqb key k (docs ++ [d]) =
    members eqb key k docs ++ (if eqb (key d) k then [d] else []).
Proof.
  unfold members. rewrite filter_app. f_equal.
  cbn [filter list_filter]. destruct (eqb (key d) k) eqn:E.
  - rewrite decide_True by reflexivity. reflexivity.
  - rewrite decide_False by discriminate. reflexivity.
Qed.

(** The group found for a key is the one its documents make up. *)
Lemma find_group_stage (k : K) (docs : list A) :
  find_group eqb k (group_stage eqb key amount docs) = group_of eqb key amount k docs.
Proof.
  induction docs as [| d docs IH] using rev_ind; [reflexivity |].
  rewrite group_stage_snoc, find_accumulate. unfold group_of at 1.
  cbv zeta. rewrite members_snoc.
  destruct (eqb (key d) k) eqn:E.
  - apply eqb_eq in E. subst k. rewrite IH. unfold group_of. cbv zeta.
    rewrite length_app, sum_of_snoc. cbn [length].
    replace (length (members eqb key (key d) docs) + 1 =? 0)%nat with false
      by (symmetry; apply Nat.eqb_neq; lia).
    destruct (Nat.eqb_spec (length (members eqb key (key d) docs)) 0) as [E0 | E0].
    + apply nil_length_inv in E0. rewrite E0. cbn. f_equal. f_equal. ring.
    + cbn [g_id g_count g_amount]. f_equal. f_equal. lia.
  - rewrite app_nil_r. exact IH.
Qed.

Lemma keys_accumulate (k : K) (a : Qc) (gs : list (group K)) :
  map g_id (accumulate eqb k a gs) =
    if existsb (fun g => eqb (g_id g) k) gs then map g_id gs
    else map g_id gs ++ [k].
Proof.
  induction gs as [| g r IH]; [reflexivity |].
  cbn [accumulate existsb]. destruct (eqb (g_id g) k); cbn [orb map g_id].
  - reflexivity.
  - rewrite IH. destruct (existsb _ r); reflexivity.
Qed.

(** No two groups have the same key. *)
Lemma group_stage_keys_distinct (docs : list A) :
  NoDup (map g_id (group_stage eqb key amount docs)).
Proof.
  induction docs as [| d docs IH] using rev_ind; [constructor |].
  rewrite group_stage_snoc, keys_accumulate.
  destruct (existsb _ _) eqn:E; [exact IH |].
  apply NoDup_app. split; [exact IH |]. split; [| apply NoDup_singleton].
  intros k Hk Hin. apply list_elem_of_singleton in Hin. subst k.
  apply list_elem_of_fmap in Hk as (g & Hg & Hin).
  assert (existsb (fun g => eqb (g_id g) (key d))
            (group_stage eqb key amount docs) = true).
  { apply existsb_exists. exists g. split; [apply list_elem_of_In, Hin |].
    rewrite <- Hg. apply eqb_refl'. }
  congruence.
Qed.

Lemma find_group_elem (gs : list (group K)) (g : group K) :
  NoDup (map g_id gs) -> g ∈ gs -> find_group eqb (g_id g) gs = Some g.
Proof.
  unfold find_group. induction gs as [| x r IH]; intros Hnd Hin.
  - apply elem_of_nil in Hin. contradiction.
  - cbn [map] in Hnd. apply NoDup_cons in Hnd as [Hx Hr].
    apply elem_of_cons in Hin as [-> | Hin]; cbn [List.find].
    + rewrite eqb_refl'. reflexivity.
    + destruct (eqb (g_id x) (g_id g)) eqn:E.
      * apply eqb_eq in E. exfalso. apply Hx. rewrite E.
        apply list_elem_of_fmap. exists g. split; [reflexivity | exact Hin].
      * apply IH; assumption.
Qed.

(** Every group is the group of its key, and it is not empty. *)
Lemma group_stage_elem (docs : list A) (g : group K) :
  g ∈ group_stage eqb key amount docs ->
  members eqb key (g_id g) docs <> [] /\
  g = Group (g_id g) (Z.of_nat (length (members eqb key (g_id g) docs)))
            (sum_of amount (members eqb key (g_id g) docs)).
Proof.
  intros Hin.
  pose proof (find_group_elem _ g (group_stage_keys_distinct docs) Hin) as Hf.
  rewrite find_group_stage in Hf. unfold group_of in Hf. cbv zeta in Hf.
  destruct (Nat.eqb_spec (length (members eqb key (g_id g) docs)) 0) as [E0 | E0];
    [discriminate |].
  split; [| congruence].
  intros E. rewrite E in E0. apply E0. reflexivity.
Qed.

(** Every document is counted in a group. *)
Lemma group_stage_covers (docs : list A) (d : A) :
  d ∈ docs ->
  exists g, g ∈ group_stage eqb key amount docs /\ g_id g = key d.
Proof.
  intros Hin.
  destruct (find_group eqb (key d) (group_stage eqb key amount docs)) as [g |] eqn:Hf.
  - exists g. unfold find_group in Hf. pose proof Hf as Hin'.
    apply find_some in Hf as [Hg Hk]. split; [apply list_elem_of_In, Hg |].
    apply eqb_eq, Hk.
  - rewrite find_group_stage in Hf. unfold group_of in Hf. cbv zeta in Hf.
    destruct (Nat.eqb_spec (length (members eqb key (key d) docs)) 0) as [E0 | E0];
      [| discriminate].
    assert (Hd : d ∈ members eqb key (key d) docs).
    { unfold members. apply list_elem_of_filter.
      split; [apply eqb_refl' | exact Hin]. }
    apply nil_length_inv in E0. rewrite E0 in Hd.
    apply elem_of_nil in Hd. contradiction.
Qed.

End GroupStage.

(** ** Analytics: revenue and the four statuses (C5) *)

Section AnalyticsTotals.
Import Payments.

Lemma members_with_status (s : string) (payments : list Payment) :
  members String.eqb status s payments = with_status s payments.
Proof.
  unfold members, with_status. apply list_filter_iff. intros p.
  apply String.eqb_eq.
Qed.

Lemma paid_with_status (payments : list Payment) :
  filter (fun p => is_paid p = true) payments = with_status "paid" payments.
Proof.
  unfold with_status. apply list_filter_iff. intros p. apply String.eqb_eq.
Qed.

Lemma count_or_0_group {K} (k : K) (eqb : K -> K -> bool) (key : Payment -> K)
    (docs : list Payment) :
  count_or_0 (g_count <$> group_of eqb key totalAmount k docs) =
  Z.of_nat (length (members eqb key k docs)).
Proof.
  unfold group_of. cbv zeta.
  destruct (Nat.eqb_spec (length (members eqb key k docs)) 0) as [E | E];
    cbn [fmap option_fmap option_map count_or_0 g_count].
  - rewrite E. reflexivity.
  - destruct (Z.eqb_spec (Z.of_nat (length (members eqb key k docs))) 0);
      [lia | reflexivity].
Qed.

Lemma amount_or_0_group {K} (k : K) (eqb : K -> K -> bool) (key : Payment -> K)
    (docs : list Payment) :
  amount_or_0 (g_amount <$> group_of eqb key totalAmount k docs) =
  sum_of totalAmount (members eqb key k docs).
Proof.
  unfold group_of. cbv zeta.
  destruct (Nat.eqb_spec (length (members eqb key k docs)) 0) as [E | E];
    cbn [fmap option_fmap option_map amount_or_0 g_amount].
  - apply nil_length_inv in E. rewrite E. reflexivity.
  - destruct (Qc_is_zero _) eqn:Ez; [| reflexivity].
    symmetry. apply Qc_is_zero_eq, Ez.
Qed.

Lemma filter_all {B} (P : B -> Prop) `{forall x, Decision (P x)} (l : list B) :
  (forall x, P x) -> filter P l = l.
Proof.
  intros HP. induction l as [| x l IH]; [reflexivity |].
  rewrite filter_cons_True by apply HP. rewrite IH. reflexivity.
Qed.

Lemma filter_none {B} (P : B -> Prop) `{forall x, Decision (P x)} (l : list B) :
  (forall x, x ∈ l -> ~ P x) -> filter P l = [].
Proof.
  induction l as [| x l IH]; intros HP; [reflexivity |].
  rewrite filter_cons_False by (apply HP; left).
  apply IH. intros y Hy. apply HP. right. exact Hy.
Qed.

Lemma head_find {B} (l : list B) : head l = List.find (fun _ => true) l.
Proof. destruct l; reflexivity. Qed.

Lemma string_eqb_eq (a b : string) : String.eqb a b = true <-> a = b.
Proof. apply String.eqb_eq. Qed.

(** C5.  The analytics handler always answers, and in its answer
    [totalRevenue] is the sum of [totalAmount] over all records whose status
    is ['paid'], whatever their date; for each of the four statuses the
    answer holds the number of records with that status and the sum of their
    amounts, and these are present and equal to 0 when no record has the
    status. *)
Theorem analytics_totals_by_status
    (env : Env) (period : option string) (payments : list Payment) :
  exists a,
    getPaymentAnalytics env period payments = Json 200 a /\
    totalRevenue a = sum_of totalAmount (with_status "paid" payments) /\
    forall s, s ∈ statuses ->
      reported s a =
        Some (Z.of_nat (length (with_status s payments)),
              sum_of totalAmount (with_status s payments)) /\
      ((forall p, p ∈ payments -> status p <> s) ->
       reported s a = Some (0, Q2Qc 0)).
Proof.
  eexists. split; [reflexivity |].
  cbn [totalRevenue pendingPayments pendingAmount completedPayments
       completedAmount failedPayments failedAmount refundedPayments
       refundedAmount].
  assert (Hstatus : forall s,
            count_or_0 (g_count <$> find_status s
                          (group_stage String.eqb status totalAmount payments))
            = Z.of_nat (length (with_status s payments)) /\
            amount_or_0 (g_amount <$> find_status s
                           (group_stage String.eqb status totalAmount payments))
            = sum_of totalAmount (with_status s payments)).
  { intros s. unfold find_status.
    change (List.find (fun g => String.eqb (g_id g) s) ?gs)
      with (find_group String.eqb s gs).
    rewrite (find_group_stage String.eqb status totalAmount string_eqb_eq).
    rewrite count_or_0_group, amount_or_0_group, members_with_status.
    split; reflexivity. }
  split.
  - rewrite head_find.
    change (List.find (fun _ => true) ?gs)
      with (find_group (fun _ _ : unit => true) tt gs).
    rewrite (find_group_stage (fun _ _ : unit => true) (fun _ => tt) totalAmount)
      by (intros [] []; split; reflexivity).
    rewrite amount_or_0_group. unfold members.
    rewrite <- paid_with_status. f_equal.
    apply filter_all. reflexivity.
  - intros s Hs.
    match goal with |- context [reported s ?r] => set (a := r) end.
    assert (Hrep : reported s a =
            Some (Z.of_nat (length (with_status s payments)),
                  sum_of totalAmount (with_status s payments))).
    { unfold statuses in Hs.
      repeat (apply elem_of_cons in Hs as [-> | Hs]);
        [| | | | apply elem_of_nil in Hs; contradiction].
      - change (reported "pending" a)
          with (Some (pendingPayments a, pendingAmount a)).
        subst a. cbn [pendingPayments pendingAmount].
        destruct (Hstatus "pending") as [-> ->]. reflexivity.
      - change (reported "paid" a)
          with (Some (completedPayments a, completedAmount a)).
        subst a. cbn [completedPayments completedAmount].
        destruct (Hstatus "paid") as [-> ->]. reflexivity.
      - change (reported "failed" a)
          with (Some (failedPayments a, failedAmount a)).
        subst a. cbn [failedPayments failedAmount].
        destruct (Hstatus "failed") as [-> ->]. reflexivity.
      - change (reported "refunded" a)
          with (Some (refundedPayments a, refundedAmount a)).
        subst a. cbn [refundedPayments refundedAmount].
        destruct (Hstatus "refunded") as [-> ->]. reflexivity. }
    split; [exact Hrep |].
    intros Hnone. rewrite Hrep.
    assert (E : with_status s payments = []).
    { unfold with_status. apply filter_none. exact Hnone. }
    rewrite E. reflexivity.
Qed.

End AnalyticsTotals.

(** ** Sorting *)

Section SortBy.
Context {A : Type} (leb : A -> A -> bool).

Lemma insert_by_perm (x : A) (l : list A) : insert_by leb x l ≡ₚ x :: l.
Proof.
  induction l as [| y r IH]; cbn [insert_by]; [reflexivity |].
  destruct (leb x y); [reflexivity |].
  rewrite IH. apply Permutation_swap.
Qed.

Lemma sort_by_perm (l : list A) : sort_by leb l ≡ₚ l.
Proof.
  unfold sort_by. induction l as [| x l IH]; cbn [foldr]; [reflexivity |].
  rewrite insert_by_perm, IH. reflexivity.
Qed.

Hypothesis leb_total : forall a b, leb a b = true \/ leb b a = true.
Hypothesis leb_trans :
  forall a b c, leb a b = true -> leb b c = true -> leb a c = true.

Lemma insert_by_sorted (x : A) (l : list A) :
  StronglySorted (fun a b => leb a b = true) l ->
  StronglySorted (fun a b => leb a b = true) (insert_by leb x l).
Proof.
  induction l as [| y r IH]; intros Hs; cbn [insert_by].
  - constructor; constructor.
  - apply StronglySorted_cons in Hs as [Hy Hr].
    destruct (leb x y) eqn:E.
    + apply StronglySorted_cons. split.
      * constructor; [exact E |].
        eapply Forall_impl; [exact Hy |]. intros z Hz. eapply leb_trans; eassumption.
      * apply StronglySorted_cons. split; assumption.
    + apply StronglySorted_cons. split; [| apply IH, Hr].
      assert (Hyx : leb y x = true) by (destruct (leb_total x y); congruence).
      apply Forall_forall. intros z Hz.
      rewrite insert_by_perm in Hz.
      apply elem_of_cons in Hz as [-> | Hz]; [exact Hyx |].
      rewrite Forall_forall in Hy. apply Hy, Hz.
Qed.

Lemma sort_by_sorted (l : list A) :
  StronglySorted (fun a b => leb a b = true) (sort_by leb l).
Proof.
  unfold sort_by. induction l as [| x l IH]; cbn [foldr]; [constructor |].
  apply insert_by_sorted, IH.
Qed.

End SortBy.

Lemma string_leb_trans (s1 s2 s3 : string) :
  String.leb s1 s2 = true -> String.leb s2 s3 = true -> String.leb s1 s3 = true.
Proof.
  unfold String.leb. revert s2 s3.
  induction s1 as [| a s1 IH]; intros [| b s2] [| c s3]; cbn [String.compare];
    try reflexivity; try discriminate.
  unfold Ascii.compare.
  destruct (N.compare_spec (N_of_ascii a) (N_of_ascii b)) as [Eab | Lab | Gab];
    destruct (N.compare_spec (N_of_ascii b) (N_of_ascii c)) as [Ebc | Lbc | Gbc];
    destruct (N.compare_spec (N_of_ascii a) (N_of_ascii c)) as [Eac | Lac | Gac];
    try discriminate; try reflexivity; try lia.
  apply IH.
Qed.

(** Ascending without ties is strictly ascending. *)
Lemma sorted_distinct_strict {A} (key : A -> string) (l : list A) :
  StronglySorted (fun a b => String.leb (key a) (key b) = true) l ->
  NoDup (map key l) ->
  StronglySorted (fun a b => String.ltb (key a) (key b) = true) l.
Proof.
  induction l as [| x l IH]; intros Hs Hnd; [constructor |].
  apply StronglySorted_cons in Hs as [Hx Hl].
  cbn [map] in Hnd. apply NoDup_cons in Hnd as [Hnx Hnl].
  apply StronglySorted_cons. split; [| apply IH; assumption].
  apply Forall_forall. intros y Hy.
  rewrite Forall_forall in Hx. specialize (Hx y Hy).
  unfold String.leb in Hx. unfold String.ltb.
  destruct (String.compare (key x) (key y)) eqn:E;
    [| reflexivity | discriminate].
  apply String.compare_eq_iff in E. exfalso. apply Hnx. rewrite E.
  apply list_elem_of_fmap. exists y. split; [reflexivity | exact Hy].
Qed.

Lemma StronglySorted_map {A B} (f : A -> B) (R : B -> B -> Prop) (l : list A) :
  StronglySorted (fun a b => R (f a) (f b)) l -> StronglySorted R (map f l).
Proof.
  induction l as [| x l IH]; intros Hs; [constructor |].
  apply StronglySorted_cons in Hs as [Hx Hl]. cbn [map].
  apply StronglySorted_cons. split; [| apply IH, Hl].
  apply Forall_forall. intros y Hy.
  apply list_elem_of_fmap in Hy as (z & -> & Hz).
  rewrite Forall_forall in Hx. apply Hx, Hz.
Qed.

(** ** The calendar *)

Section CalendarFacts.

(** A day number has a month from 1 to 12 and a day from 1 to 31, and is
    the day number of its date. *)
Lemma civil_round_trip (days : Z) :
  let '(y, m, d) := civil_of_days days in
  1 <= m <= 12 /\ 1 <= d <= 31 /\ days_of_civil y m d = days.
Proof.
  unfold civil_of_days, days_of_civil. cbv zeta.
  set (z := days + 719468).
  set (era := z / 146097).
  set (doe := z - era * 146097).
  assert (Hdoe : 0 <= doe < 146097).
  { subst doe era. Z.div_mod_to_equations. lia. }
  set (yoe := (doe - doe / 1460 + doe / 36524 - doe / 146096) / 365).
  set (doy := doe - (365 * yoe + yoe / 4 - yoe / 100)).
  assert (Hy : 0 <= yoe <= 399 /\ 0 <= doy <= 365).
  { subst doy yoe. clearbody doe. clear - Hdoe. Z.div_mod_to_equations. lia. }
  destruct Hy as [Hyoe Hdoy].
  set (mp := (5 * doy + 2) / 153).
  assert (Hmp : 0 <= mp <= 11).
  { subst mp. clearbody doy. clear - Hdoy. Z.div_mod_to_equations. lia. }
  assert (Hd : 1 <= doy - (153 * mp + 2) / 5 + 1 <= 31).
  { subst mp. clearbody doy. clear - Hdoy. Z.div_mod_to_equations. lia. }
  assert (Era : forall k, 0 <= k <= 399 -> (k + era * 400) / 400 = era).
  { intros k Hk. rewrite Z.div_add by lia. rewrite Z.div_small by lia. lia. }
  destruct (Z.ltb_spec mp 10) as [Hlt | Hge].
  - destruct (Z.leb_spec (mp + 3) 2) as [? | _]; [lia |].
    destruct (Z.ltb_spec 2 (mp + 3)) as [_ | ?]; [| lia].
    split; [lia |]. split; [lia |].
    rewrite (Era yoe) by lia.
    replace (yoe + era * 400 - era * 400) with yoe by ring.
    replace (mp + 3 - 3) with mp by ring.
    subst doy z doe. lia.
  - destruct (Z.leb_spec (mp - 9) 2) as [_ | ?]; [| lia].
    destruct (Z.ltb_spec 2 (mp - 9)) as [? | _]; [lia |].
    split; [lia |]. split; [lia |].
    replace (yoe + era * 400 + 1 - 1) with (yoe + era * 400) by ring.
    rewrite (Era yoe) by lia.
    replace (yoe + era * 400 - era * 400) with yoe by ring.
    replace (mp - 9 + 9) with mp by ring.
    subst doy z doe. lia.
Qed.

(** The days from the first of January to a date of the same year: at most
    365, the day of the month less one in January and at least 31 after
    it; the next first of January comes later. *)
Lemma days_in_year (y m d : Z) :
  1 <= m <= 12 -> 1 <= d <= 31 ->
  0 <= days_of_civil y m d - days_of_civil y 1 1 <= 365 /\
  days_of_civil y m d < days_of_civil (y + 1) 1 1 /\
  (m = 1 -> days_of_civil y m d - days_of_civil y 1 1 = d - 1) /\
  (m <> 1 -> 31 <= days_of_civil y m d - days_of_civil y 1 1).
Proof.
  intros Hm Hd. unfold days_of_civil. cbv zeta.
  change (1 <=? 2) with true. change (2 <? 1) with false. cbv iota.
  destruct (Z.leb_spec m 2) as [H2 | H2];
    destruct (Z.ltb_spec 2 m) as [H3 | H3]; try lia;
    Z.div_mod_to_equations; lia.
Qed.

(** The first of January of year [y] lies 365.2425 days a year from the
    origin, to within three days. *)
Lemma new_year_bounds (y : Z) :
  146097 * (y - 1) - 800 < 400 * (days_of_civil y 1 1 + 719162)
    < 146097 * (y - 1) + 400.
Proof.
  unfold days_of_civil. cbv zeta.
  change (1 <=? 2) with true. change (2 <? 1) with false. cbv iota.
  Z.div_mod_to_equations. lia.
Qed.

Lemma year_length (y : Z) :
  365 <= days_of_civil (y + 1) 1 1 - days_of_civil y 1 1 <= 366.
Proof.
  unfold days_of_civil. cbv zeta.
  change (1 <=? 2) with true. change (2 <? 1) with false. cbv iota.
  Z.div_mod_to_equations. lia.
Qed.

(** Two days at most a week apart are of the same year or of consecutive
    years. *)
Lemma year_of_interval (y y2 a b : Z) :
  days_of_civil y 1 1 <= a < days_of_civil (y + 1) 1 1 ->
  days_of_civil y2 1 1 <= b < days_of_civil (y2 + 1) 1 1 ->
  a <= b <= a + 7 -> y2 = y \/ y2 = y + 1.
Proof.
  intros Ha Hb Hab.
  pose proof (new_year_bounds y) as By.
  pose proof (new_year_bounds (y + 1)) as By1.
  pose proof (new_year_bounds y2) as By2.
  pose proof (new_year_bounds (y2 + 1)) as By21.
  assert (Hlow : y <= y2).
  { destruct (Z.le_gt_cases y y2) as [H | H]; [exact H |].
    destruct (Z.eq_dec y (y2 + 1)) as [E | E]; [rewrite E in Ha; lia | lia]. }
  assert (Hhigh : y2 <= y + 1).
  { destruct (Z.le_gt_cases y2 (y + 1)) as [H | H]; [exact H |].
    destruct (Z.eq_dec y2 (y + 2)) as [E | E]; [| lia].
    pose proof (year_length (y + 1)) as L.
    replace (y + 1 + 1) with (y + 2) in L by ring.
    rewrite E in Hb. lia. }
  lia.
Qed.

(** The year of a day, and its first of January. *)
Lemma year_of_day (days : Z) :
  let '(y, m, d) := civil_of_days days in
  let j := days_of_civil y 1 1 in
  j <= days <= j + 365 /\ days < days_of_civil (y + 1) 1 1 /\
  (m = 1 -> days - j = d - 1) /\ (m <> 1 -> 31 <= days - j).
Proof.
  pose proof (civil_round_trip days) as H.
  destruct (civil_of_days days) as [[y m] d].
  destruct H as (Hm & Hd & Hdays).
  pose proof (days_in_year y m d Hm Hd) as Hyear.
  rewrite Hdays in Hyear. cbv zeta. lia.
Qed.

Lemma thursday_of_week (d : Z) : d - (d + 3) mod 7 + 3 = 7 * week_of d.
Proof. unfold week_of. rewrite (Z.mod_eq (d + 3) 7) by lia. ring. Qed.

(** The week number of a day is the week number of the Thursday of its
    week. *)
Lemma iso_week_thursday (d : Z) : iso_week d = iso_week (7 * week_of d).
Proof.
  unfold iso_week. cbv zeta. rewrite !thursday_of_week.
  replace (week_of (7 * week_of d)) with (week_of d); [reflexivity |].
  unfold week_of. replace (7 * ((d + 3) / 7) + 3) with (3 + (d + 3) / 7 * 7)
    by ring.
  rewrite Z.div_add by lia. reflexivity.
Qed.

(** The week number of a Thursday counts the Thursdays of its year. *)
Lemma iso_week_of_thursday (w : Z) :
  iso_week (7 * w) =
    let '(y, _, _) := civil_of_days (7 * w) in
    (7 * w - days_of_civil y 1 1) / 7 + 1.
Proof.
  unfold iso_week. cbv zeta. rewrite thursday_of_week.
  replace (week_of (7 * w)) with w; [reflexivity |].
  unfold week_of. replace (7 * w + 3) with (3 + w * 7) by ring.
  rewrite Z.div_add by lia. reflexivity.
Qed.

(** [iso_week] is the ISO week number. *)
Lemma iso_week_is_iso_week_number : is_iso_week_number iso_week.
Proof.
  intros d.
  assert (Hweek : forall d', week_of d' = week_of d -> iso_week d' = iso_week d).
  { intros d' Hd'. rewrite (iso_week_thursday d'), Hd'.
    symmetry. apply iso_week_thursday. }
  assert (Hnext : week_of (d + 7) = week_of d + 1).
  { unfold week_of. replace (d + 7 + 3) with (d + 3 + 1 * 7) by ring.
    rewrite Z.div_add by lia. reflexivity. }
  assert (Hmain :
            1 <= iso_week d <= 53 /\
            (iso_week d = 1 <-> has_first_thursday (week_of d) = true) /\
            (iso_week (d + 7) = 1 \/ iso_week (d + 7) = iso_week d + 1));
    [| tauto].
  clear Hweek.
  rewrite (iso_week_thursday (d + 7)), Hnext, (iso_week_thursday d).
  set (w := week_of d).
  rewrite !iso_week_of_thursday. unfold has_first_thursday.
  pose proof (year_of_day (7 * w)) as H1.
  pose proof (year_of_day (7 * (w + 1))) as H2.
  destruct (civil_of_days (7 * w)) as [[y m] dd].
  destruct (civil_of_days (7 * (w + 1))) as [[y2 m2] dd2].
  cbv zeta in H1, H2.
  destruct H1 as (Hj & Hnew & Hjan & Hlater).
  destruct H2 as (Hj2 & Hnew2 & _ & _).
  set (j := days_of_civil y 1 1) in *.
  split; [| split].
  - clearbody j. clear - Hj. Z.div_mod_to_equations. lia.
  - destruct (Z.eqb_spec m 1) as [Hm | Hm]; cbn [andb].
    + specialize (Hjan Hm). rewrite Z.leb_le.
      clearbody j. clear - Hj Hjan. Z.div_mod_to_equations. lia.
    + specialize (Hlater Hm). split; [| discriminate].
      clearbody j. clear - Hj Hlater. Z.div_mod_to_equations. lia.
  - destruct (year_of_interval y y2 (7 * w) (7 * (w + 1))) as [-> | ->];
      [fold j; lia | lia | lia | |].
    + right. fold j. replace (7 * (w + 1) - j) with (7 * w - j + 1 * 7) by ring.
      rewrite Z.div_add by lia. ring.
    + left. set (j2 := days_of_civil (y + 1) 1 1) in *.
      clearbody j j2. clear - Hj Hnew Hj2. Z.div_mod_to_equations. lia.
Qed.

End CalendarFacts.

(** ** Keys of [$dateToString] *)

Lemma digit_char_inj (a b : Z) : digit_char a = digit_char b -> a mod 10 = b mod 10.
Proof.
  unfold digit_char. intros H.
  apply (f_equal N_of_ascii) in H.
  pose proof (Z.mod_pos_bound a 10 ltac:(lia)) as Ha.
  pose proof (Z.mod_pos_bound b 10 ltac:(lia)) as Hb.
  rewrite !N_ascii_embedding in H by lia. lia.
Qed.

Lemma length_pad (w : nat) (n : Z) (acc : string) :
  String.length (pad w n acc) = (w + String.length acc)%nat.
Proof.
  revert n acc. induction w as [| w IH]; intros n acc; [reflexivity |].
  cbn [pad]. rewrite IH. cbn [String.length]. lia.
Qed.

(** Zero-padded numbers of the same width are equal only when the numbers
    are. *)
Lemma pad_inj (w : nat) (n n' : Z) (acc acc' : string) :
  0 <= n < 10 ^ Z.of_nat w -> 0 <= n' < 10 ^ Z.of_nat w ->
  String.length acc = String.length acc' ->
  pad w n acc = pad w n' acc' -> n = n' /\ acc = acc'.
Proof.
  revert n n' acc acc'. induction w as [| w IH]; intros n n' acc acc' Hn Hn' Hlen H.
  - cbn in Hn, Hn'. cbn [pad] in H. split; [lia | exact H].
  - cbn [pad] in H.
    rewrite Nat2Z.inj_succ, Z.pow_succ_r in Hn, Hn' by lia.
    apply IH in H.
    + destruct H as [Hq Hs]. injection Hs as Hd Hacc.
      apply digit_char_inj in Hd. split; [| exact Hacc].
      rewrite (Z.div_mod n 10), (Z.div_mod n' 10) by lia. congruence.
    + split; [apply Z.div_pos; lia | apply Z.div_lt_upper_bound; lia].
    + split; [apply Z.div_pos; lia | apply Z.div_lt_upper_bound; lia].
    + cbn [String.length]. congruence.
Qed.

Lemma append_cons (c : ascii) (s x : string) :
  String.append (String c s) x = String c (String.append s x).
Proof. reflexivity. Qed.

Lemma append_nil (x : string) : String.append "" x = x.
Proof. reflexivity. Qed.

Lemma string_tail_eq (c : ascii) (s s' : string) :
  String c s = String c s' -> s = s'.
Proof. intros H. injection H as H. exact H. Qed.

Ltac pad_range :=
  first [ change (10 ^ Z.of_nat 4) with 10000
        | change (10 ^ Z.of_nat 2) with 100 ];
  lia.

(** What two times must share to get the same key, for each of the three
    formats. *)
Lemma dateToString_eq (f : format) (t1 t2 : Z) :
  four_digit_year t1 -> four_digit_year t2 ->
  (dateToString f t1 = dateToString f t2 <->
   match f with
   | FmtDay => calendar_date t1 = calendar_date t2
   | FmtWeek => calendar_year t1 = calendar_year t2 /\
                iso_week (utc_day t1) = iso_week (utc_day t2)
   | FmtMonth => calendar_month t1 = calendar_month t2
   end).
Proof.
  unfold four_digit_year, calendar_year, calendar_month, calendar_date,
    dateToString.
  change (t1 / ms_per_day) with (utc_day t1).
  change (t2 / ms_per_day) with (utc_day t2).
  pose proof (civil_round_trip (utc_day t1)) as R1.
  pose proof (civil_round_trip (utc_day t2)) as R2.
  destruct (iso_week_is_iso_week_number (utc_day t1)) as [W1 _].
  destruct (iso_week_is_iso_week_number (utc_day t2)) as [W2 _].
  destruct (civil_of_days (utc_day t1)) as [[y1 m1] d1].
  destruct (civil_of_days (utc_day t2)) as [[y2 m2] d2].
  cbn [fst]. intros Hy1 Hy2.
  destruct R1 as (Rm1 & Rd1 & _). destruct R2 as (Rm2 & Rd2 & _).
  destruct f; rewrite ?append_cons, ?append_nil; split.
  - intros K. apply pad_inj in K as [-> K1];
      [| pad_range | pad_range
       | cbn [String.length]; rewrite !length_pad; cbn [String.length];
         rewrite !length_pad; reflexivity].
    pose proof K1 as K2. repeat apply string_tail_eq in K2. apply pad_inj in K2 as [-> K3];
      [| pad_range | pad_range
       | cbn [String.length]; rewrite !length_pad; reflexivity].
    pose proof K3 as K4. apply string_tail_eq in K4. apply pad_inj in K4 as [-> _];
      [reflexivity | pad_range | pad_range | reflexivity].
  - intros K. injection K as -> -> ->. reflexivity.
  - intros K. apply pad_inj in K as [-> K1];
      [| pad_range | pad_range
       | cbn [String.length]; rewrite !length_pad; reflexivity].
    pose proof K1 as K2. repeat apply string_tail_eq in K2. apply pad_inj in K2 as [E _];
      [| pad_range | pad_range | reflexivity].
    split; [reflexivity | exact E].
  - intros [-> ->]. reflexivity.
  - intros K. apply pad_inj in K as [-> K1];
      [| pad_range | pad_range
       | cbn [String.length]; rewrite !length_pad; reflexivity].
    pose proof K1 as K2. repeat apply string_tail_eq in K2. apply pad_inj in K2 as [-> _];
      [reflexivity | pad_range | pad_range | reflexivity].
  - intros K. injection K as -> ->. reflexivity.
Qed.

(** ** Analytics: the revenue trend (C6) *)

Section RevenueTrend.
Import Payments.

Lemma in_trend_records (env : Env) (sel : string) (payments : list Payment) :
  filter (fun p => in_trend env sel p = true) payments
  = trend_records env sel payments.
Proof.
  unfold trend_records, in_trend, is_paid. apply list_filter_iff. intros p.
  rewrite andb_true_iff, String.eqb_eq, Z.leb_le. reflexivity.
Qed.

Lemma members_bucket (env : Env) (sel : string) (payments : list Payment)
    (k : string) :
  members String.eqb (bucket_key sel) k (trend_records env sel payments)
  = bucket env sel payments k.
Proof.
  unfold members, bucket. apply list_filter_iff. intros p. apply String.eqb_eq.
Qed.



End RevenueTrend.

(** ** The theorems on analytics at the example ledger *)

Section AnalyticsExamples.
Import Payments.

(** Four paid payments of 10, 7, 20 and 1; none refunded. *)
Lemma analytics_totals_by_status_witness :
  exists a,
    getPaymentAnalytics ListingExamples.utc None ListingExamples.ledger
      = Json 200 a /\
    totalRevenue a = Q2Qc 38 /\
    reported "refunded" a = Some (0, Q2Qc 0).
Proof.
  destruct (analytics_totals_by_status ListingExamples.utc None
              ListingExamples.ledger) as (a & Ha & Hrev & Hst).
  exists a. split; [exact Ha |]. split.
  - rewrite Hrev. apply Qc_is_canon. vm_compute. reflexivity.
  - apply (Hst "refunded").
    + unfold statuses. do 3 right. left.
    + intros p Hp. unfold ListingExamples.ledger in Hp.
      repeat (apply elem_of_cons in Hp as [-> | Hp]); try discriminate.
      apply elem_of_nil in Hp. contradiction.
Defined.


End AnalyticsExamples.

(** ** The date range of the payments filter (C9) *)

Section DateRange.
Import Payments.

(** The bounds are built only for the dates supplied. *)
Lemma date_bounds_only_when_supplied (env : Env) (q : Query) :
  (f_createdAt_gte (build_filter env q) = None <->
     q_startDate q = None \/ q_startDate q = Some "") /\
  (f_createdAt_lte (build_filter env q) = None <->
     q_endDate q = None \/ q_endDate q = Some "").
Proof.
  unfold build_filter, some_text. cbn [f_createdAt_gte f_createdAt_lte].
  split.
  - destruct (q_startDate q) as [s |]; cbn [default_to]; [| tauto].
    destruct (String.eqb_spec s ""); cbn [negb].
    + subst. tauto.
    + split; [discriminate |]. intros [H | H]; congruence.
  - destruct (q_endDate q) as [s |]; cbn [default_to]; [| tauto].
    destruct (String.eqb_spec s ""); cbn [negb].
    + subst. tauto.
    + split; [discriminate |]. intros [H | H]; congruence.
Qed.

(** The upper bound built from an [endDate] given as a calendar day, for a
    server whose local time is [tz] minutes ahead of UTC: the end of the
    LOCAL day on which that day's UTC midnight falls, which is the day
    itself east of UTC and the day before west of it. *)
Lemma end_date_bound (env : Env) (q : Query) (endDate : string) (d : Z) :
  q_endDate q = Some endDate ->
  Date_parse (tz env) endDate = Some (d * ms_per_day) ->
  -1440 < tz env < 1440 ->
  f_createdAt_lte (build_filter env q) =
    Some (Some (if tz env <? 0
                then (d - 1) * ms_per_day + 86399999 - tz env * 60000
                else d * ms_per_day + 86399999 - tz env * 60000)).
Proof.
  intros Hq Hparse Htz. unfold build_filter. cbn [f_createdAt_lte].
  rewrite Hq. cbn [default_to]. rewrite Hparse.
  assert (Hne : some_text endDate = true).
  { destruct endDate; [discriminate Hparse | reflexivity]. }
  rewrite Hne. cbn [fmap option_fmap option_map]. unfold setHours.
  do 2 f_equal.
  assert (Hms : ms_per_day = 86400000) by reflexivity.
  destruct (Z.ltb_spec (tz env) 0) as [Hneg | Hpos].
  - replace ((d * ms_per_day + tz env * 60000) / ms_per_day) with (d - 1).
    + lia.
    + apply Z.div_unique with (r := ms_per_day + tz env * 60000); lia.
  - replace ((d * ms_per_day + tz env * 60000) / ms_per_day) with d.
    + lia.
    + apply Z.div_unique with (r := tz env * 60000); lia.
Qed.

(** On a server whose local time is UTC, an [endDate] given as a calendar
    day bounds [createdAt] by 23:59:59.999 of that day, so a payment created
    at 23:59:59 of the day passes the upper bound. *)
Lemma end_date_covers_the_day_in_utc (env : Env) (q : Query) (endDate : string)
    (d : Z) (p : Payment) :
  tz env = 0 ->
  q_endDate q = Some endDate ->
  Date_parse 0 endDate = Some (d * ms_per_day) ->
  createdAt p = d * ms_per_day + ((23 * 60 + 59) * 60 + 59) * 1000 ->
  f_createdAt_lte (build_filter env q) = Some (Some (d * ms_per_day + 86399999))
  /\ createdAt p <= d * ms_per_day + 86399999.
Proof.
  intros Htz Hq Hparse Hp. unfold build_filter. cbn [f_createdAt_lte].
  rewrite Hq, Htz. cbn [default_to]. rewrite Hparse.
  assert (Hne : some_text endDate = true).
  { destruct endDate; [discriminate Hparse | reflexivity]. }
  rewrite Hne. cbn [fmap option_fmap option_map]. unfold setHours.
  rewrite Z.mul_0_l, Z.add_0_r, Z.sub_0_r, Z.div_mul by discriminate.
  split; [do 2 f_equal; lia | lia].
Qed.

(** C9, the code at a failing input.  The server's local time is five hours
    west of UTC and the request is [GET /payments?endDate=2024-01-15].
    [new Date("2024-01-15")] is midnight UTC, which is 19:00 of
    January 14 in local time, and [setHours(23, 59, 59, 999)] moves it to
    the end of that LOCAL day: the bound is 2024-01-15T04:59:59.999Z.  The
    payment created at 2024-01-15T23:59:59Z is after the bound and is
    missing from the answer, and so is any payment created at 23:59:59 of
    January 15 in local time. *)
Theorem end_date_bound_west_of_utc :
  let q := ListingExamples.until_jan_15 in
  let env := ListingExamples.west in
  let last_second_utc := ListingExamples.day 2024 1 15 + 86399000 in
  let last_second_local := last_second_utc + 300 * 60000 in
  f_createdAt_lte (build_filter env q)
    = Some (Some (ListingExamples.day 2024 1 15 + 5 * 3600000 - 1)) /\
  dateToString FmtDay last_second_utc = "2024-01-15" /\
  (forall p, createdAt p = last_second_utc \/ createdAt p = last_second_local ->
             matches (build_filter env q) p = false) /\
  (exists p, p ∈ ListingExamples.ledger /\ createdAt p = last_second_utc /\
     (p ∉ data (ListingExamples.listing_of
                  (getAllPayments env q ListingExamples.ledger))) /\
     (p ∈ data (ListingExamples.listing_of
                  (getAllPayments ListingExamples.utc q ListingExamples.ledger)))).
Proof.
  intros q env last_second_utc last_second_local.
  split; [vm_compute; reflexivity |].
  split; [vm_compute; reflexivity |].
  split.
  - intros p Hp. unfold matches.
    replace (f_createdAt_lte (build_filter env q))
      with (Some (Some (ListingExamples.day 2024 1 15 + 5 * 3600000 - 1)))
      by (vm_compute; reflexivity).
    replace (f_status (build_filter env q)) with (@None string) by reflexivity.
    replace (f_createdAt_gte (build_filter env q)) with (@None (option Z))
      by reflexivity.
    cbn [andb]. apply Z.leb_gt.
    destruct Hp as [-> | ->]; vm_compute; reflexivity.
  - exists (ListingExamples.payment 6 "Dave" "failed" 9
              (ListingExamples.day 2024 1 15 + 86399000)).
    split; [unfold ListingExamples.ledger; do 5 right; left |].
    split; [reflexivity |]. split.
    + intros Hin. apply list_elem_of_fmap_2 with (f := p_id) in Hin.
      vm_compute in Hin.
      repeat (apply elem_of_cons in Hin as [Hin | Hin]; [discriminate Hin |]).
      apply elem_of_nil in Hin. exact Hin.
    + replace (data _) with
        (filter (fun _ : Payment => True)
           (data (ListingExamples.listing_of
                    (getAllPayments ListingExamples.utc q ListingExamples.ledger))))
        by (apply filter_all; intros; exact I).
      vm_compute. left.
Qed.

End DateRange.

(* ================================================================== *)
(** * Further properties of the handlers *)
(* ================================================================== *)

(** ** Identifiers *)

Lemma hex_digit_hex_char (d : N) :
  (d < 16)%N -> hex_digit (hex_char d) = Some (Z.of_N d).
Proof.
  intros H.
  destruct d as [| [[[[p|p|]|[p|p|]|]|[[p|p|]|[p|p|]|]|]
                   |[[[p|p|]|[p|p|]|]|[[p|p|]|[p|p|]|]|]|]];
    try reflexivity; lia.
Qed.

Lemma read_hex_digits (k : nat) (n : N) (acc : string) (a : Z) (c : nat) :
  read_digits hex_digit 16 (hex_digits k n acc) a c =
  read_digits hex_digit 16 acc
    (a * 16 ^ Z.of_nat k + Z.of_N (n mod 16 ^ N.of_nat k)) (c + k).
Proof.
  revert n acc a c. induction k as [| k IH]; intros n acc a c.
  - cbn [hex_digits]. rewrite N.mod_1_r, Z.mul_1_r, Z.add_0_r, Nat.add_0_r.
    reflexivity.
  - cbn [hex_digits]. rewrite IH. cbn [read_digits].
    rewrite hex_digit_hex_char by (apply N.mod_lt; discriminate).
    rewrite Nat.add_succ_r. f_equal.
    rewrite Nat2N.inj_succ, N.pow_succ_r', Nat2Z.inj_succ, Z.pow_succ_r by lia.
    rewrite (N.Div0.mod_mul_r n 16 (16 ^ N.of_nat k)).
    rewrite N2Z.inj_add, N2Z.inj_mul. change (Z.of_N 16) with 16. ring.
Qed.

Lemma length_hex_digits (k : nat) (n : N) (acc : string) :
  String.length (hex_digits k n acc) = (k + String.length acc)%nat.
Proof.
  revert n acc. induction k as [| k IH]; intros n acc; [reflexivity |].
  cbn [hex_digits]. rewrite IH. cbn [String.length]. lia.
Qed.

Lemma all_hex_hex_digits (k : nat) (n : N) (acc : string) :
  all_hex acc = true -> all_hex (hex_digits k n acc) = true.
Proof.
  revert n acc. induction k as [| k IH]; intros n acc Hacc; [exact Hacc |].
  cbn [hex_digits]. apply IH. cbn [all_hex].
  rewrite hex_digit_hex_char by (apply N.mod_lt; discriminate). exact Hacc.
Qed.

(** An identifier printed by [toString] is a valid identifier string and is
    cast back to the identifier. *)
Lemma toString_round_trip (o : ObjectId) :
  (o < 2 ^ 96)%N ->
  isValidObjectId (toString o) = true /\ castObjectId (toString o) = o.
Proof.
  intros Ho. unfold isValidObjectId, castObjectId, toString.
  rewrite length_hex_digits, all_hex_hex_digits by reflexivity.
  cbn [String.length Nat.add Nat.eqb andb orb].
  split; [reflexivity |].
  rewrite read_hex_digits. cbn [read_digits fst].
  rewrite Z.mul_0_l, Z.add_0_l, N2Z.id.
  change (16 ^ N.of_nat 24)%N with (2 ^ 96)%N.
  apply N.mod_small, Ho.
Qed.

(** ** Creating a product *)

Section ProductCreate.
Import Products.

(** What a 201 answer of [createProduct] tells about the request and the
    stored document. *)
Lemma createProduct_created (env : Env) (req : Request) (w : World)
    (st : Z) (p : Product) (w' : World) :
  createProduct env req w = (Json st p, w') ->
  exists ownerId fs ups,
    user req = Some ownerId /\ files req = Some fs /\
    uploadMultipleOnCloudinary env fs = Some ups /\ ups <> [] /\
    flash_sale_rejected (body req) = false /\
    st = 201 /\
    owner p = ownerId /\ images p = map to_image ups /\
    price p = parseFloat (b_price (body req)) /\
    is_flash_sale p =
      (if is_str_true (b_is_flash_sale (body req)) then Some true else None) /\
    flash_sale_price p =
      (if is_str_true (b_is_flash_sale (body req))
       then Some (parseFloat (b_flash_sale_price (body req))) else None) /\
    flash_sale_start p =
      (if is_str_true (b_is_flash_sale (body req)) then Some (now env) else None) /\
    flash_sale_end p =
      (if is_str_true (b_is_flash_sale (body req))
       then Some (now env + week_ms) else None) /\
    w' = with_products (with_effect w (Uploaded fs))
           (<[new_id env := p]> (products w)).
Proof.
  unfold createProduct.
  destruct (user req) as [ownerId |]; [| discriminate].
  destruct (negb (truthy (b_name (body req))) || _ || _ || _ || _);
    [discriminate |].
  destruct (flash_sale_rejected (body req)) eqn:Hflash; [discriminate |].
  destruct (files req) as [[| f fs] |]; try discriminate.
  destruct (uploadMultipleOnCloudinary env (f :: fs)) as [[| u us] |] eqn:Hup;
    try discriminate.
  intros H. inversion H; subst. clear H.
  exists ownerId, (f :: fs), (u :: us).
  repeat (split; [first [reflexivity | assumption | discriminate] |]).
  reflexivity.
Qed.

(** X1.  A product that [createProduct] answers with 201 is stored under
    the identifier the store gave it, is owned by the requester and carries
    the uploaded images, of which there is at least one; every product stored
    before is still there; and [getOneProduct] with the printed identifier
    answers with the created product. *)
Theorem created_product_is_stored_and_found
    (env : Env) (req : Request) (w : World) (p : Product) (w' : World) :
  createProduct env req w = (Json 201 p, w') ->
  user req = Some (owner p) /\
  images p <> [] /\
  products w' !! new_id env = Some p /\
  (forall k, k <> new_id env -> products w' !! k = products w !! k) /\
  ((new_id env < 2 ^ 96)%N ->
     getOneProduct (toString (new_id env)) w' = Json 200 p).
Proof.
  intros H.
  apply createProduct_created in H
    as (ownerId & fs & ups & Huser & _ & _ & Hups & _ & _ & Hown & Himg & _
        & _ & _ & _ & _ & ->).
  cbn [products with_products].
  split; [congruence |]. split.
  { rewrite Himg. destruct ups; [contradiction | discriminate]. }
  split; [apply lookup_insert_eq |]. split.
  { intros k Hk. apply lookup_insert_ne. congruence. }
  intros Hid. destruct (toString_round_trip _ Hid) as [Hvalid Hcast].
  unfold getOneProduct, findById. rewrite Hvalid, Hcast.
  cbn [negb products with_products].
  rewrite lookup_insert_eq. reflexivity.
Qed.


(** X3.  A request that [createProduct] refuses stores nothing; unless the
    refusal is the failed upload (500), the image host was not called
    either. *)
Theorem refused_create_stores_nothing
    (env : Env) (req : Request) (w : World) (st : Z) (msg : string) (w' : World) :
  createProduct env req w = (Fail st msg, w') ->
  products w' = products w /\
  (st = 400 \/ st = 401 \/ st = 500) /\
  (st <> 500 -> w' = w) /\
  (user req = None -> st = 401).
Proof.
  unfold createProduct.
  destruct (user req) as [ownerId |].
  - destruct (negb (truthy (b_name (body req))) || _ || _ || _ || _).
    { intros H; inversion H; subst. repeat split; auto; discriminate. }
    destruct (flash_sale_rejected (body req)).
    { intros H; inversion H; subst. repeat split; auto; discriminate. }
    destruct (files req) as [[| f fs] |];
      try (intros H; inversion H; subst; repeat split; auto; discriminate).
    destruct (uploadMultipleOnCloudinary env (f :: fs)) as [[| u us] |];
      intros H; inversion H; subst;
      repeat split; auto; try discriminate; intros; contradiction.
  - intros H; inversion H; subst. repeat split; auto; discriminate.
Qed.

End ProductCreate.

Section ProductCreateExamples.
Import Products.

(** Alice's chair is created and found again under its identifier. *)
Lemma created_product_is_stored_and_found_witness :
  getOneProduct (toString (new_id ProductExamples.env)) MoreExamples.with_chair
    = Json 200 MoreExamples.chair /\
  products MoreExamples.with_chair !! ProductExamples.lamp_id
    = Some ProductExamples.lamp.
Proof.
  destruct (created_product_is_stored_and_found ProductExamples.env
              MoreExamples.create_chair ProductExamples.world
              MoreExamples.chair MoreExamples.with_chair)
    as (_ & _ & _ & Hothers & Hget).
  - vm_compute. reflexivity.
  - split.
    + apply Hget. vm_compute. reflexivity.
    + rewrite Hothers by (vm_compute; discriminate). vm_compute. reflexivity.
Defined.


(** The overpriced flash sale is refused and the world is as it was. *)
Lemma refused_create_stores_nothing_witness :
  snd (createProduct ProductExamples.env ProductExamples.create_overpriced
         ProductExamples.world) = ProductExamples.world.
Proof.
  destruct (refused_create_stores_nothing ProductExamples.env
              ProductExamples.create_overpriced ProductExamples.world 400
              "Flash sale price must be less than regular price"
              (snd (createProduct ProductExamples.env
                      ProductExamples.create_overpriced ProductExamples.world)))
    as (_ & _ & Hsame & _).
  - vm_compute. reflexivity.
  - apply Hsame. discriminate.
Defined.

End ProductCreateExamples.

(** ** Deleting and updating a product *)

Section ProductDeleteUpdate.
Import Products.

(** X4.  When the owner deletes a product, the answer is 200, the product is
    gone while every other product stays as it was, the image host is asked
    to remove exactly the product's images (and is not called for a product
    without images), and asking for the product again, or deleting it again,
    answers 404. *)
Theorem owner_delete_removes_the_product
    (req : Request) (w : World) (product : Product) :
  reaches_assignments req w product ->
  exists w',
    deleteProduct req w = (Json 200 tt, w') /\
    findById w' (params_id req) = None /\
    (forall k, k <> castObjectId (params_id req) ->
               products w' !! k = products w !! k) /\
    cloud w' = cloud w ++
      match images product with
      | [] => []
      | imgs => [Removed (map public_id imgs)]
      end /\
    getOneProduct (params_id req) w' = Fail 404 "Product not found" /\
    deleteProduct req w' = (Fail 404 "Product not found", w').
Proof.
  intros (Hid & Hfind & ownerId & Huser & Hown).
  unfold deleteProduct at 1.
  rewrite Hid, Huser, Hfind, Hown, String.eqb_refl. cbn [negb].
  eexists. split; [reflexivity |].
  assert (Hgone : forall w1, findById
            (with_products w1 (delete (castObjectId (params_id req)) (products w1)))
            (params_id req) = None).
  { intros w1. unfold findById. cbn [products with_products].
    apply lookup_delete_eq. }
  split; [apply Hgone |]. split.
  { intros k Hk. cbn [products with_products].
    rewrite lookup_delete_ne by congruence.
    destruct (images product); reflexivity. }
  split.
  { cbn [cloud with_products].
    destruct (images product); cbn [cloud with_effect];
      [rewrite app_nil_r |]; reflexivity. }
  split.
  - unfold getOneProduct. rewrite Hid, Hgone. reflexivity.
  - unfold deleteProduct. rewrite Hid, Huser, Hgone. reflexivity.
Qed.

(** X5.  A saved update never changes the owner or the creation time of the
    product, and it leaves every other product as it was. *)
Theorem saved_update_keeps_owner_and_other_products
    (env : Env) (req : Request) (w : World) (product p' : Product) (w' : World) :
  reaches_assignments req w product ->
  updateProduct env req w = (Json 200 p', w') ->
  owner p' = owner product /\
  createdAt p' = createdAt product /\
  (forall k, k <> castObjectId (params_id req) ->
             products w' !! k = products w !! k).
Proof.
  intros Hr H.
  destruct (updateProduct_by_owner env req w product Hr)
    as [(w1 & E & _) | (q & w2 & E & Hq & Hw2)];
    rewrite E in H; inversion H; subst.
  split; [rewrite Hq; reflexivity |]. split; [rewrite Hq; reflexivity |].
  intros k Hk. rewrite Hw2. apply lookup_insert_ne. congruence.
Qed.

(** X6.  The images of a saved update: without uploaded files they are the
    images kept by [existingImages], or the stored images when none is kept
    (an empty or unreadable list never clears them); with uploaded files
    they are the kept images followed by the uploaded ones. *)
Theorem update_image_policy
    (env : Env) (req : Request) (w : World) (product p' : Product) (w' : World) :
  reaches_assignments req w product ->
  updateProduct env req w = (Json 200 p', w') ->
  let kept := kept_images env (b_existingImages (body req)) in
  match files req with
  | Some (f :: fs) =>
      exists ups, uploadMultipleOnCloudinary env (f :: fs) = Some ups /\
        ups <> [] /\
        images p' = kept ++ map to_image ups /\
        cloud w' = cloud w ++ [Uploaded (f :: fs)]
  | _ =>
      images p' = match kept with [] => images product | _ => kept end /\
      cloud w' = cloud w
  end.
Proof.
  intros (Hid & Hfind & ownerId & Huser & Hown) H kept.
  unfold updateProduct in H.
  rewrite Hid, Huser, Hfind, Hown, String.eqb_refl in H. cbn [negb] in H.
  fold kept in H.
  destruct (files req) as [[| f fs] |].
  - inversion H; subst. destruct kept; split; reflexivity.
  - destruct (uploadMultipleOnCloudinary env (f :: fs)) as [[| u us] |];
      try discriminate.
    exists (u :: us). split; [reflexivity |]. split; [discriminate |].
    remember (kept ++ map to_image (u :: us)) as imgs eqn:E.
    destruct imgs as [| i l].
    + symmetry in E. apply app_eq_nil in E as [_ E]. discriminate.
    + inversion H; subst p' w'. split; reflexivity.
  - inversion H; subst. destruct kept; split; reflexivity.
Qed.

(** X7.  When the upload of new images fails, the update answers 500 and
    saves nothing: the assignments already made to the document are lost and
    the stored product is the one found. *)
Theorem failed_upload_saves_nothing
    (env : Env) (req : Request) (w : World) (product : Product)
    (f : File) (fs : list File) :
  reaches_assignments req w product ->
  files req = Some (f :: fs) ->
  uploadMultipleOnCloudinary env (f :: fs) = None \/
  uploadMultipleOnCloudinary env (f :: fs) = Some [] ->
  exists w1,
    updateProduct env req w = (Fail 500 "Failed to upload new images", w1) /\
    products w1 = products w /\
    findById w1 (params_id req) = Some product /\
    cloud w1 = cloud w ++ [Uploaded (f :: fs)].
Proof.
  intros (Hid & Hfind & ownerId & Huser & Hown) Hfiles Hup.
  unfold updateProduct.
  rewrite Hid, Huser, Hfind, Hown, String.eqb_refl, Hfiles. cbn [negb].
  destruct Hup as [-> | ->]; eexists; (split; [reflexivity |]);
    repeat split; exact Hfind.
Qed.

(** X8.  The flash-sale switch of a saved update.  Without [is_flash_sale]
    in the body the four flash-sale fields stay as stored, whatever the new
    price.  With a value other than the string ['true'] (the Boolean [true]
    included) the flash sale is switched off and its price and dates are
    cleared.  With ['true'] and a flash-sale price below the resulting price
    the price is stored and the sale runs for seven days from now; with
    ['true'] and a flash-sale price that is missing or not below the
    resulting price, the sale is on and its price and dates stay as
    stored. *)
Theorem update_flash_sale_switch
    (env : Env) (req : Request) (w : World) (product p' : Product) (w' : World) :
  reaches_assignments req w product ->
  updateProduct env req w = (Json 200 p', w') ->
  let b := body req in
  (b_is_flash_sale b = VUndefined ->
     is_flash_sale p' = is_flash_sale product /\
     flash_sale_price p' = flash_sale_price product /\
     flash_sale_start p' = flash_sale_start product /\
     flash_sale_end p' = flash_sale_end product) /\
  (b_is_flash_sale b <> VUndefined -> b_is_flash_sale b <> VStr "true" ->
     is_flash_sale p' = Some false /\
     flash_sale_price p' = None /\
     flash_sale_start p' = None /\
     flash_sale_end p' = None) /\
  (b_is_flash_sale b = VStr "true" ->
     truthy (b_flash_sale_price b) = true ->
     lt (parseFloat (b_flash_sale_price b)) (price p') = true ->
     is_flash_sale p' = Some true /\
     flash_sale_price p' = Some (parseFloat (b_flash_sale_price b)) /\
     flash_sale_start p' = Some (now env) /\
     flash_sale_end p' = Some (now env + 7 * 24 * 60 * 60 * 1000)) /\
  (b_is_flash_sale b = VStr "true" ->
     truthy (b_flash_sale_price b) &&
       lt (parseFloat (b_flash_sale_price b)) (price p') = false ->
     is_flash_sale p' = Some true /\
     flash_sale_price p' = flash_sale_price product /\
     flash_sale_start p' = flash_sale_start product /\
     flash_sale_end p' = flash_sale_end product).
Proof.
  intros Hr H b.
  destruct (updateProduct_saved env req w 200 p' w' H)
    as (product0 & (_ & Hfind0 & _) & _ & Hp' & _).
  destruct Hr as (_ & Hfind & _).
  assert (product0 = product) by congruence. subst product0.
  set (a := assign_fields env (body req) product) in Hp'.
  assert (Hf1 : is_flash_sale p' = is_flash_sale a) by (rewrite Hp'; reflexivity).
  assert (Hf2 : flash_sale_price p' = flash_sale_price a)
    by (rewrite Hp'; reflexivity).
  assert (Hf3 : flash_sale_start p' = flash_sale_start a)
    by (rewrite Hp'; reflexivity).
  assert (Hf4 : flash_sale_end p' = flash_sale_end a)
    by (rewrite Hp'; reflexivity).
  assert (Hf5 : price p' = price a) by (rewrite Hp'; reflexivity).
  rewrite Hf1, Hf2, Hf3, Hf4, Hf5. subst a b.
  unfold assign_fields.
  cbn [is_flash_sale flash_sale_price flash_sale_start flash_sale_end price].
  split; [| split; [| split]].
  - intros ->. cbn [defined]. repeat split; reflexivity.
  - intros Hdef Hnot.
    assert (Hd : defined (b_is_flash_sale (body req)) = true)
      by (destruct (b_is_flash_sale (body req)); try reflexivity; contradiction).
    assert (Ht : is_str_true (b_is_flash_sale (body req)) = false).
    { destruct (b_is_flash_sale (body req)) as [| | | | s]; try reflexivity.
      cbn [is_str_true]. apply String.eqb_neq. congruence. }
    rewrite Hd, Ht. repeat split; reflexivity.
  - intros -> Htruthy Hlt. cbn [defined is_str_true].
    rewrite Htruthy, Hlt. cbn [andb String.eqb Ascii.eqb Bool.eqb].
    repeat split; reflexivity.
  - intros -> Hnot. cbn [defined is_str_true].
    rewrite Hnot. cbn [String.eqb Ascii.eqb Bool.eqb].
    repeat split; reflexivity.
Qed.

End ProductDeleteUpdate.

Section ProductDeleteUpdateExamples.
Import Products.

Lemma lamp_reached_by_alice (req : Request) :
  params_id req = "64a1f0c2b7e4d3a19f0000aa" ->
  user req = Some ProductExamples.alice ->
  reaches_assignments req ProductExamples.world ProductExamples.lamp.
Proof.
  intros Hid Huser. unfold reaches_assignments. rewrite Hid, Huser.
  split; [reflexivity |]. split; [vm_compute; reflexivity |].
  exists ProductExamples.alice. split; reflexivity.
Qed.

(** Alice deletes her lamp: it is gone and its one image is removed. *)
Lemma owner_delete_removes_the_product_witness :
  exists w',
    deleteProduct ProductExamples.raise_flash_price ProductExamples.world
      = (Json 200 tt, w') /\
    findById w' "64a1f0c2b7e4d3a19f0000aa" = None /\
    cloud w' = [Removed ["products/lamp"%string]].
Proof.
  destruct (owner_delete_removes_the_product ProductExamples.raise_flash_price
              ProductExamples.world ProductExamples.lamp)
    as (w' & Hdel & Hgone & _ & Hcloud & _).
  - apply lamp_reached_by_alice; reflexivity.
  - exists w'. split; [exact Hdel |]. split; [exact Hgone | exact Hcloud].
Defined.

(** The repriced lamp is still alice's. *)
Lemma saved_update_keeps_owner_and_other_products_witness :
  owner (MoreExamples.saved_of
           (updateProduct ProductExamples.env ProductExamples.reprice
              ProductExamples.world)) = ProductExamples.alice /\
  price (MoreExamples.saved_of
           (updateProduct ProductExamples.env ProductExamples.reprice
              ProductExamples.world)) = of_Z 90.
Proof.
  destruct (saved_update_keeps_owner_and_other_products ProductExamples.env
              ProductExamples.reprice ProductExamples.world ProductExamples.lamp
              (MoreExamples.saved_of
                 (updateProduct ProductExamples.env ProductExamples.reprice
                    ProductExamples.world))
              (snd (updateProduct ProductExamples.env ProductExamples.reprice
                      ProductExamples.world)))
    as (Hown & _ & _).
  - apply lamp_reached_by_alice; reflexivity.
  - vm_compute. reflexivity.
  - split; [exact Hown | vm_compute; reflexivity].
Defined.

(** One new photo and no kept image: the lamp has the new photo only. *)
Lemma update_image_policy_witness :
  images (MoreExamples.saved_of
            (updateProduct ProductExamples.env MoreExamples.add_photo
               ProductExamples.world))
  = [{| public_id := "side.png"; url := "https://img/side.png" |}].
Proof.
  pose proof (update_image_policy ProductExamples.env MoreExamples.add_photo
                ProductExamples.world ProductExamples.lamp
                (MoreExamples.saved_of
                   (updateProduct ProductExamples.env MoreExamples.add_photo
                      ProductExamples.world))
                (snd (updateProduct ProductExamples.env MoreExamples.add_photo
                        ProductExamples.world))
                (lamp_reached_by_alice MoreExamples.add_photo eq_refl eq_refl)) as H.
  destruct H as (ups & Hups & _ & Himg & _).
  - vm_compute. reflexivity.
  - rewrite Himg. inversion Hups. reflexivity.
Defined.

(** With the image host out of reach the lamp stays as stored. *)
Lemma failed_upload_saves_nothing_witness :
  exists w1,
    updateProduct MoreExamples.offline MoreExamples.add_photo ProductExamples.world
      = (Fail 500 "Failed to upload new images", w1) /\
    findById w1 "64a1f0c2b7e4d3a19f0000aa" = Some ProductExamples.lamp.
Proof.
  destruct (failed_upload_saves_nothing MoreExamples.offline MoreExamples.add_photo
              ProductExamples.world ProductExamples.lamp "side.png" [])
    as (w1 & H500 & _ & Hfind & _).
  - apply lamp_reached_by_alice; reflexivity.
  - reflexivity.
  - left. reflexivity.
  - exists w1. split; [exact H500 | exact Hfind].
Defined.

(** [is_flash_sale: true] sent as a Boolean switches the lamp's sale off.
    A flash-sale price of [99.99999999999999999] is read as 100, which is
    not below the lamp's price of 100: the sale keeps its price of 80. *)
Lemma update_flash_sale_switch_witness :
  (is_flash_sale (MoreExamples.saved_of
                    (updateProduct ProductExamples.env
                       MoreExamples.flash_true_as_boolean ProductExamples.world))
     = Some false /\
   flash_sale_price (MoreExamples.saved_of
                       (updateProduct ProductExamples.env
                          MoreExamples.flash_true_as_boolean ProductExamples.world))
     = None) /\
  parseFloat (VStr "99.99999999999999999") = of_Z 100 /\
  flash_sale_price (MoreExamples.saved_of
                      (updateProduct ProductExamples.env
                         MoreExamples.flash_just_below ProductExamples.world))
    = Some (of_Z 80).
Proof.
  split; [| split; [vm_compute; reflexivity |]].
  - destruct (update_flash_sale_switch ProductExamples.env
                MoreExamples.flash_true_as_boolean ProductExamples.world
                ProductExamples.lamp
                (MoreExamples.saved_of
                   (updateProduct ProductExamples.env
                      MoreExamples.flash_true_as_boolean ProductExamples.world))
                (snd (updateProduct ProductExamples.env
                        MoreExamples.flash_true_as_boolean
                        ProductExamples.world)))
      as (_ & Hoff & _).
    + apply lamp_reached_by_alice; reflexivity.
    + vm_compute. reflexivity.
    + destruct Hoff as (H1 & H2 & _); [discriminate | discriminate |].
      split; [exact H1 | exact H2].
  - destruct (update_flash_sale_switch ProductExamples.env
                MoreExamples.flash_just_below ProductExamples.world
                ProductExamples.lamp
                (MoreExamples.saved_of
                   (updateProduct ProductExamples.env
                      MoreExamples.flash_just_below ProductExamples.world))
                (snd (updateProduct ProductExamples.env
                        MoreExamples.flash_just_below ProductExamples.world)))
      as (_ & _ & _ & Hkept).
    + apply lamp_reached_by_alice; reflexivity.
    + vm_compute. reflexivity.
    + destruct Hkept as (_ & H2 & _);
        [reflexivity | vm_compute; reflexivity | exact H2].
Defined.

End ProductDeleteUpdateExamples.

(** ** Reading products *)

Section ProductReaders.
Import Products.

(** X9.  [getOneProduct] with the printed form of an identifier answers with
    the product stored under that identifier, and with 404 when there is
    none; a string that is not an identifier is answered with 400. *)
Theorem getOneProduct_by_printed_id (w : World) :
  (forall o : ObjectId, (o < 2 ^ 96)%N ->
     getOneProduct (toString o) w =
       match products w !! o with
       | Some p => Json 200 p
       | None => Fail 404 "Product not found"
       end) /\
  (forall id, isValidObjectId id = false ->
     getOneProduct id w = Fail 400 "Invalid product ID").
Proof.
  split.
  - intros o Ho. destruct (toString_round_trip o Ho) as [Hvalid Hcast].
    unfold getOneProduct, findById. rewrite Hvalid, Hcast. reflexivity.
  - intros id Hid. unfold getOneProduct. rewrite Hid. reflexivity.
Qed.

(** X10.  [getMyProducts] answers an unauthenticated request with 401, and
    an authenticated one with exactly the stored products whose owner is the
    requester. *)
Theorem getMyProducts_lists_own_products (req : Request) (w : World) :
  (user req = None -> getMyProducts req w = Fail 401 "Unauthorized") /\
  (forall ownerId, user req = Some ownerId ->
     exists l, getMyProducts req w = Json 200 l /\
       forall p, p ∈ l <->
         owner p = ownerId /\ exists k, products w !! k = Some p).
Proof.
  unfold getMyProducts. split.
  - intros ->. reflexivity.
  - intros ownerId ->. eexists. split; [reflexivity |].
    intros p. rewrite list_elem_of_filter, list_elem_of_fmap.
    split.
    + intros (Hown & [k x] & -> & Hin). split; [exact Hown |].
      exists k. apply elem_of_map_to_list. exact Hin.
    + intros (Hown & k & Hk). split; [exact Hown |].
      exists (k, p). split; [reflexivity |]. apply elem_of_map_to_list. exact Hk.
Qed.

(** X11.  [getProductsByCategory] refuses a missing or empty category name
    with 400; for a category name it answers what [getAllProducts] answers
    to the same page, limit, price bounds and sort with that category and no
    search term, labelled with the category. *)
Theorem getProductsByCategory_is_the_filtered_listing
    (q : ListQuery) (w : World) :
  getProductsByCategory None q w = Fail 400 "Category name is required" /\
  getProductsByCategory (Some "") q w = Fail 400 "Category name is required" /\
  (forall c, c <> "" ->
     getProductsByCategory (Some c) q w =
       labelled c (getAllProducts (in_category c q) w)).
Proof.
  split; [reflexivity |]. split; [reflexivity |].
  intros c Hc. unfold getProductsByCategory, getAllProducts, build_filter.
  assert (Hne : nonempty (Some c) = true).
  { cbn [nonempty]. apply negb_true_iff, String.eqb_neq, Hc. }
  cbn [in_category q_page q_limit q_category q_minPrice q_maxPrice q_search
       q_sortBy q_sortOrder].
  rewrite Hne. cbn [negb nonempty].
  match goal with
  | |- context [castable ?f] => destruct (castable f); [| reflexivity]
  end.
  cbn [negb].
  match goal with
  | |- context [cursor_skip ?k ?docs ≫= ?lim] =>
      destruct (cursor_skip k docs ≫= lim); reflexivity
  end.
Qed.

End ProductReaders.

Section ProductReaderExamples.
Import Products.

(** The lamp is found under its printed identifier. *)
Lemma getOneProduct_by_printed_id_witness :
  getOneProduct (toString ProductExamples.lamp_id) ProductExamples.world
    = Json 200 ProductExamples.lamp /\
  getOneProduct "lamp" ProductExamples.world = Fail 400 "Invalid product ID".
Proof.
  destruct (getOneProduct_by_printed_id ProductExamples.world) as [Hfound Hbad].
  split.
  - rewrite (Hfound ProductExamples.lamp_id) by (vm_compute; reflexivity).
    vm_compute. reflexivity.
  - apply Hbad. reflexivity.
Defined.

(** Alice's products include her lamp. *)
Lemma getMyProducts_lists_own_products_witness :
  exists l,
    getMyProducts ProductExamples.raise_flash_price ProductExamples.world
      = Json 200 l /\
    ProductExamples.lamp ∈ l.
Proof.
  destruct (getMyProducts_lists_own_products ProductExamples.raise_flash_price
              ProductExamples.world) as [_ Hmine].
  destruct (Hmine ProductExamples.alice eq_refl) as (l & Hl & Hin).
  exists l. split; [exact Hl |]. apply Hin. split; [reflexivity |].
  exists ProductExamples.lamp_id. vm_compute. reflexivity.
Defined.

(** The category route for ["misc"] on the catalog of three products. *)
Lemma getProductsByCategory_is_the_filtered_listing_witness :
  getProductsByCategory (Some "misc") ListingExamples.no_params
    ListingExamples.catalog =
  labelled "misc"
    (getAllProducts (in_category "misc" ListingExamples.no_params)
       ListingExamples.catalog).
Proof.
  destruct (getProductsByCategory_is_the_filtered_listing
              ListingExamples.no_params ListingExamples.catalog)
    as (_ & _ & Hsame).
  apply Hsame. discriminate.
Defined.

End ProductReaderExamples.

(** ** Pages of a listing *)

Lemma StronglySorted_sublist {A} (R : A -> A -> Prop) (k l : list A) :
  k `sublist_of` l -> StronglySorted R l -> StronglySorted R k.
Proof.
  induction 1 as [| x k l Hsub IH | x k l Hsub IH]; intros Hs.
  - constructor.
  - apply StronglySorted_cons in Hs as [Hx Hl].
    apply StronglySorted_cons. split; [| apply IH, Hl].
    apply Forall_forall. intros y Hy. rewrite Forall_forall in Hx.
    apply Hx. eapply elem_of_sublist; eassumption.
  - apply StronglySorted_cons in Hs as [_ Hl]. apply IH, Hl.
Qed.

(** The page the store returns for a page number from 1 and a positive
    limit. *)
Lemma page_of_cursor {A} (p n : Z) (docs page : list A) :
  1 <= p -> 0 < n ->
  cursor_skip (skip_of (of_Z p) (of_Z n)) docs ≫= cursor_limit (of_Z n)
    = Some page ->
  page = take (Z.to_nat n) (drop (Z.to_nat ((p - 1) * n)) docs).
Proof.
  intros Hp Hn. unfold skip_of. rewrite of_Z_sub, of_Z_mul.
  unfold cursor_skip, cursor_limit. rewrite !as_integer_of_Z.
  destruct (Z.ltb_spec ((p - 1) * n) 0) as [H | _]; [nia |].
  cbn [mbind option_bind].
  destruct (Z.eqb_spec n 0) as [-> | _]; [lia |].
  rewrite Z.abs_eq by lia. intros H. inversion H. reflexivity.
Qed.

(** Whatever the page and the limit, a page is a sublist of the documents. *)
Lemma cursor_sublist {A} (skip limit : number) (docs page : list A) :
  cursor_skip skip docs ≫= cursor_limit limit = Some page ->
  page `sublist_of` docs.
Proof.
  unfold cursor_skip, cursor_limit.
  destruct (as_integer skip) as [k |]; [| discriminate].
  destruct (k <? 0); [discriminate |]. cbn [mbind option_bind].
  destruct (as_integer limit) as [n |]; [| discriminate].
  destruct (n =? 0); intros H; inversion H; subst.
  - apply sublist_drop.
  - etransitivity; [apply sublist_take | apply sublist_drop].
Qed.

Lemma length_sort_docs {A} (key : A -> sort_key) (desc : bool) (l : list A) :
  length (sort_docs key desc l) = length l.
Proof. unfold sort_docs. apply Permutation_length, sort_by_perm. Qed.

Lemma length_page {A} (p n : Z) (docs : list A) :
  1 <= p -> 0 < n ->
  Z.of_nat (length (take (Z.to_nat n) (drop (Z.to_nat ((p - 1) * n)) docs)))
  = on_page p n (length docs).
Proof.
  intros Hp Hn. rewrite length_take, length_drop. unfold on_page.
  assert (Hk : 0 <= (p - 1) * n) by (apply Z.mul_nonneg_nonneg; lia).
  generalize dependent ((p - 1) * n). intros k Hk. lia.
Qed.

Section ListingPages.

(** X12.  For a page number [p] from 1 and a positive limit [n], an answer
    of [getAllProducts], [getProductsByCategory] or (without a search term)
    [getAllPayments] holds [min(n, total - (p-1)*n)] documents, none when
    the page lies beyond the last document; with a search term
    [getAllPayments] holds at most that many. *)
Theorem listing_page_sizes (p n : Z) :
  1 <= p -> 0 < n ->
  (forall q w l,
     Products.getAllProducts q w = Json 200 l ->
     page_number (Products.q_page q) = of_Z p ->
     page_size 20 (Products.q_limit q) = of_Z n ->
     exists count, total (pagination_of l) = of_Z (Z.of_nat count) /\
       Z.of_nat (length (data l)) = on_page p n count) /\
  (forall c q w cl,
     Products.getProductsByCategory c q w = Json 200 cl ->
     page_number (Products.q_page q) = of_Z p ->
     page_size 20 (Products.q_limit q) = of_Z n ->
     exists count,
       total (pagination_of (Products.cl_listing cl)) = of_Z (Z.of_nat count) /\
       Z.of_nat (length (data (Products.cl_listing cl))) = on_page p n count) /\
  (forall env q payments l,
     Payments.getAllPayments env q payments = Json 200 l ->
     page_number (Payments.q_page q) = of_Z p ->
     page_size 10 (Payments.q_limit q) = of_Z n ->
     exists count, total (pagination_of l) = of_Z (Z.of_nat count) /\
       Z.of_nat (length (data l)) <= on_page p n count /\
       (Payments.q_search q = None \/ Payments.q_search q = Some "" ->
        Z.of_nat (length (data l)) = on_page p n count)).
Proof.
  intros Hp Hn. split; [| split].
  - intros q w l H Hpage Hlimit. unfold Products.getAllProducts in H.
    rewrite Hpage, Hlimit in H.
    destruct (negb (Products.castable (Products.build_filter q)));
      [discriminate |].
    match type of H with
    | context [cursor_skip _ ?docs ≫= _] =>
        destruct (cursor_skip (skip_of (of_Z p) (of_Z n)) docs
                  ≫= cursor_limit (of_Z n)) as [page |] eqn:E;
          [| discriminate];
        apply page_of_cursor in E; [| assumption | assumption]
    end.
    inversion H; subst. eexists. cbn [data pagination_of pagination total].
    split; [reflexivity |].
    rewrite length_page, length_sort_docs by assumption. reflexivity.
  - intros c q w cl H Hpage Hlimit. unfold Products.getProductsByCategory in H.
    rewrite Hpage, Hlimit in H.
    destruct (negb (Products.nonempty c)); [discriminate |].
    match type of H with
    | context [Products.castable ?f] =>
        destruct (negb (Products.castable f)); [discriminate |]
    end.
    match type of H with
    | context [cursor_skip _ ?docs ≫= _] =>
        destruct (cursor_skip (skip_of (of_Z p) (of_Z n)) docs
                  ≫= cursor_limit (of_Z n)) as [page |] eqn:E;
          [| discriminate];
        apply page_of_cursor in E; [| assumption | assumption]
    end.
    inversion H; subst. eexists.
    cbn [Products.cl_listing data pagination_of pagination total].
    split; [reflexivity |].
    rewrite length_page, length_sort_docs by assumption. reflexivity.
  - intros env q payments l H Hpage Hlimit.
    apply getAllPayments_answer in H as (_ & Hpg & fetched & Hfetch & Hdata).
    rewrite Hpage, Hlimit in Hfetch. unfold Payments.find_page in Hfetch.
    apply page_of_cursor in Hfetch; [| assumption | assumption].
    exists (Payments.countDocuments (Payments.build_filter env q) payments).
    rewrite Hpg. cbn [pagination total]. split; [reflexivity |].
    assert (Hlen : Z.of_nat (length fetched) =
              on_page p n (Payments.countDocuments
                             (Payments.build_filter env q) payments)).
    { rewrite Hfetch, length_page, length_sort_docs by assumption. reflexivity. }
    split.
    + rewrite <- Hlen, Hdata.
      destruct (Payments.some_text _); [| lia].
      pose proof (length_filter
                    (fun p0 => Payments.search_hit (Payments.engine env)
                                 (default_to "" (Payments.q_search q)) p0 = true)
                    fetched). lia.
    + intros Hs. rewrite <- Hlen, Hdata.
      destruct Hs as [-> | ->]; reflexivity.
Qed.

(** Page 2 of the three products, two to a page, holds one product; page 3
    would hold none. *)
Lemma listing_page_sizes_witness :
  length (data ListingExamples.second_page_answer) = 1%nat /\
  on_page 3 2 3 = 0.
Proof.
  destruct (listing_page_sizes 2 2) as (Hproducts & _ & _); [lia | lia |].
  destruct (Hproducts ListingExamples.second_page ListingExamples.catalog
              ListingExamples.second_page_answer)
    as (count & Htotal & Hlen).
  - vm_compute. reflexivity.
  - vm_compute. reflexivity.
  - vm_compute. reflexivity.
  - split; [| reflexivity].
    assert (Hc : count = 3%nat).
    { assert (E : as_integer (total (pagination_of
                      ListingExamples.second_page_answer)) = Some 3)
        by (vm_compute; reflexivity).
      rewrite Htotal, as_integer_of_Z in E. inversion E. lia. }
    subst count. change (on_page 2 2 3) with 1 in Hlen. lia.
Defined.

End ListingPages.

(** ** Order and content of a listing *)

Lemma StronglySorted_impl {A} (R S : A -> A -> Prop) (l : list A) :
  (forall a b, R a b -> S a b) -> StronglySorted R l -> StronglySorted S l.
Proof.
  intros HRS. induction l as [| x l IH]; intros Hs; [constructor |].
  apply StronglySorted_cons in Hs as [Hx Hl].
  apply StronglySorted_cons. split; [| apply IH, Hl].
  eapply Forall_impl; [exact Hx |]. intros y. apply HRS.
Qed.

(** Sorting on a date field, newest first when [desc]. *)
Lemma sort_docs_by_date {A} (t : A -> Z) (desc : bool) (l : list A) :
  StronglySorted (fun a b => if desc then t b <= t a else t a <= t b)
                 (sort_docs (fun x => KDate (t x)) desc l).
Proof.
  unfold sort_docs.
  eapply StronglySorted_impl; [| apply sort_by_sorted].
  - intros a b. cbn [key_leb]. destruct desc; apply Z.leb_le.
  - intros a b. cbn [key_leb]. destruct desc; rewrite !Z.leb_le; lia.
  - intros a b c. cbn [key_leb]. destruct desc; rewrite !Z.leb_le; lia.
Qed.

Lemma getAllProducts_data (q : Products.ListQuery) (w : Products.World)
    (st : Z) (l : Listing Products.Product) :
  Products.getAllProducts q w = Json st l ->
  data l `sublist_of`
    sort_docs (Products.field_key (default_to "createdAt" (Products.q_sortBy q)))
      (String.eqb (default_to "desc" (Products.q_sortOrder q)) "desc")
      (filter (fun p => Products.matches (Products.build_filter q) p = true)
              (snd <$> map_to_list (Products.products w))).
Proof.
  unfold Products.getAllProducts.
  destruct (negb (Products.castable (Products.build_filter q))); [discriminate |].
  destruct (cursor_skip _ _ ≫= cursor_limit _) as [page |] eqn:E;
    [| discriminate].
  intros H. inversion H; subst. cbn [data].
  eapply cursor_sublist. exact E.
Qed.

Lemma getAllPayments_data (env : Payments.Env) (q : Payments.Query)
    (payments : list Payments.Payment) (st : Z) (l : Listing Payments.Payment) :
  Payments.getAllPayments env q payments = Json st l ->
  data l `sublist_of`
    sort_docs (Payments.field_key (default_to "createdAt" (Payments.q_sortBy q)))
      (String.eqb (default_to "desc" (Payments.q_sortOrder q)) "desc")
      (filter (fun p => Payments.matches (Payments.build_filter env q) p = true)
              payments) /\
  (Payments.some_text (default_to "" (Payments.q_search q)) = true ->
   forall p, p ∈ data l ->
     Payments.search_hit (Payments.engine env)
       (default_to "" (Payments.q_search q)) p = true).
Proof.
  intros H.
  apply getAllPayments_answer in H as (_ & _ & fetched & Hfetch & Hdata).
  unfold Payments.find_page in Hfetch. apply cursor_sublist in Hfetch.
  rewrite Hdata. destruct (Payments.some_text _).
  - split.
    + etransitivity; [apply sublist_filter | exact Hfetch].
    + intros _ p Hp. apply list_elem_of_filter in Hp as [Hp _]. exact Hp.
  - split; [exact Hfetch | discriminate].
Qed.

Section ListingOrder.



Import Payments.

(** X14.  Every payment in an answer of [getAllPayments] is a stored payment
    that passes each filter of the request: it has the requested status
    (unless that is empty or ["all"]), it was created at or after the start
    date and at or before the end bound, and the search term occurs,
    whatever the case, in the customer's name, the customer's e-mail, the
    intent id or the order id. *)
Theorem listed_payments_pass_the_filters
    (env : Env) (q : Query) (payments : list Payment) (l : Listing Payment)
    (p : Payment) :
  getAllPayments env q payments = Json 200 l ->
  p ∈ data l ->
  p ∈ payments /\
  (forall s, q_status q = Some s -> s <> "" -> s <> "all" -> status p = s) /\
  (forall s t, q_startDate q = Some s -> Date_parse (tz env) s = Some t ->
               t <= createdAt p) /\
  (forall s t, q_endDate q = Some s -> Date_parse (tz env) s = Some t ->
               createdAt p <= setHours (tz env) 23 59 59 999 t) /\
  (lowers_ascii (engine env) ->
   forall s, q_search q = Some s -> s <> "" ->
             search_matches (engine env) s p = true).
Proof.
  intros H Hp.
  apply getAllPayments_data in H as [Hsub Hsearch].
  assert (Hin : p ∈ filter (fun p => matches (build_filter env q) p = true)
                      payments).
  { eapply elem_of_sublist in Hsub; [| exact Hp].
    unfold sort_docs in Hsub. rewrite sort_by_perm in Hsub. exact Hsub. }
  apply list_elem_of_filter in Hin as [Hm Hin].
  split; [exact Hin |].
  unfold matches, build_filter in Hm.
  cbn [f_status f_createdAt_gte f_createdAt_lte] in Hm.
  apply andb_true_iff in Hm as [Hm Hhi]. apply andb_true_iff in Hm as [Hst Hlo].
  assert (Hne : forall s, s <> "" -> some_text s = true).
  { intros s Hs. unfold some_text. apply negb_true_iff, String.eqb_neq, Hs. }
  split; [| split; [| split]].
  - intros s Hs Hs1 Hs2. rewrite Hs in Hst. cbn [default_to] in Hst.
    rewrite (Hne s Hs1) in Hst.
    assert (E : String.eqb s "all" = false) by (apply String.eqb_neq, Hs2).
    rewrite E in Hst. cbn [negb andb] in Hst. apply String.eqb_eq, Hst.
  - intros s t Hs Ht. rewrite Hs in Hlo. cbn [default_to] in Hlo.
    assert (Hs1 : s <> "") by (intros ->; discriminate Ht).
    rewrite (Hne s Hs1), Ht in Hlo. apply Z.leb_le, Hlo.
  - intros s t Hs Ht. rewrite Hs in Hhi. cbn [default_to] in Hhi.
    assert (Hs1 : s <> "") by (intros ->; discriminate Ht).
    rewrite (Hne s Hs1), Ht in Hhi. cbn [fmap option_fmap option_map] in Hhi.
    apply Z.leb_le, Hhi.
  - intros Hlow s Hs Hs1. rewrite Hs in Hsearch. cbn [default_to] in Hsearch.
    rewrite <- search_hit_matches by exact Hlow.
    apply Hsearch; [apply Hne, Hs1 | exact Hp].
Qed.

End ListingOrder.

(** ** Updating the status of a payment *)

Section StatusUpdate.
Import Payments.

Lemma findById_id (id : ObjectId) (payments : list Payment) (p : Payment) :
  findById id payments = Some p -> p_id p = id.
Proof.
  unfold findById. intros H. apply find_some in H as [_ H].
  apply N.eqb_eq, H.
Qed.

(** [findById] returns the first document with the id. *)
Lemma findById_split (id : ObjectId) (payments : list Payment) (p : Payment) :
  findById id payments = Some p ->
  exists before after,
    payments = before ++ p :: after /\
    forall x, x ∈ before -> p_id x <> id.
Proof.
  unfold findById.
  induction payments as [| x r IH]; cbn [List.find]; [discriminate |].
  destruct (N.eqb_spec (p_id x) id) as [E | E].
  - intros H. inversion H; subst. exists [], r. split; [reflexivity |].
    intros y Hy. apply elem_of_nil in Hy. contradiction.
  - intros H. destruct (IH H) as (before & after & -> & Hb).
    exists (x :: before), after. split; [reflexivity |].
    intros y Hy. apply elem_of_cons in Hy as [-> | Hy]; [exact E | apply Hb, Hy].
Qed.

Lemma save_split (p p' : Payment) (before after : list Payment) :
  p_id p = p_id p' ->
  (forall x, x ∈ before -> p_id x <> p_id p') ->
  save p' (before ++ p :: after) = before ++ p' :: after.
Proof.
  intros Hid. induction before as [| x r IH]; intros Hb; cbn [save app].
  - rewrite Hid, N.eqb_refl. reflexivity.
  - destruct (N.eqb_spec (p_id x) (p_id p')) as [E | E].
    + exfalso. apply (Hb x); [left | exact E].
    + rewrite IH; [reflexivity |]. intros y Hy. apply Hb. right. exact Hy.
Qed.

Lemma findById_app (id : ObjectId) (before after : list Payment) (p : Payment) :
  (forall x, x ∈ before -> p_id x <> id) ->
  findById id (before ++ p :: after) =
  if N.eqb (p_id p) id then Some p else findById id after.
Proof.
  unfold findById. induction before as [| x r IH]; intros Hb; cbn [List.find app].
  - reflexivity.
  - destruct (N.eqb_spec (p_id x) id) as [E | E].
    + exfalso. apply (Hb x); [left | exact E].
    + apply IH. intros y Hy. apply Hb. right. exact Hy.
Qed.

Lemma findById_app_other (j : ObjectId) (before after : list Payment)
    (p p' : Payment) :
  p_id p = p_id p' -> j <> p_id p' ->
  findById j (before ++ p' :: after) = findById j (before ++ p :: after).
Proof.
  intros Hid Hj. unfold findById.
  induction before as [| x r IH]; cbn [List.find app].
  - rewrite Hid.
    destruct (N.eqb_spec (p_id p') j) as [E | _]; [| reflexivity].
    exfalso. apply Hj. symmetry. exact E.
  - rewrite IH. reflexivity.
Qed.

Lemma valid_status_truthy (s : string) :
  s ∈ validStatuses ->
  negb (truthy (VStr s)) || negb (existsb (String.eqb s) validStatuses) = false.
Proof.
  unfold validStatuses. intros Hs.
  repeat (apply elem_of_cons in Hs as [-> | Hs]); try reflexivity.
  apply elem_of_nil in Hs. contradiction.
Qed.

Lemma existsb_elem (s : string) (l : list string) :
  existsb (String.eqb s) l = true <-> s ∈ l.
Proof.
  rewrite existsb_exists. split.
  - intros (x & Hx & E). apply String.eqb_eq in E. subst.
    apply list_elem_of_In, Hx.
  - intros H. exists s. split; [apply list_elem_of_In, H | apply String.eqb_refl].
Qed.

(** An accepted update replaces the first payment with the id, in place. *)
Lemma updatePaymentStatus_replaces (id s : string) (payments : list Payment)
    (old : Payment) :
  isValidObjectId id = true ->
  s ∈ validStatuses ->
  findById (castObjectId id) payments = Some old ->
  exists before after,
    payments = before ++ old :: after /\
    (forall x, x ∈ before -> p_id x <> castObjectId id) /\
    updatePaymentStatus id (VStr s) payments =
      (Json 200 (set_status s old), before ++ set_status s old :: after).
Proof.
  intros Hid Hs Hfind.
  pose proof (findById_id _ _ _ Hfind) as Hpid.
  destruct (findById_split _ _ _ Hfind) as (before & after & Hsplit & Hb).
  exists before, after. split; [exact Hsplit |]. split; [exact Hb |].
  unfold updatePaymentStatus. rewrite Hid. cbn [negb].
  rewrite (valid_status_truthy s Hs), Hfind. f_equal.
  rewrite Hsplit. apply save_split; [reflexivity |].
  cbn [set_status p_id]. rewrite Hpid. exact Hb.
Qed.

(** X15.  [updatePaymentStatus] never throws.  It refuses with 400
    "Invalid payment ID" exactly when the id is malformed, whatever the
    status; with 400 "Invalid status" when the id is well formed and the
    status is not one of the four status strings; with 404 when both are
    fine and no payment has the id.  Every refusal leaves the payments as
    they were, and a 200 carries the found payment with the new status. *)
Theorem status_update_refusals
    (id : string) (status : value) (payments : list Payment) :
  match updatePaymentStatus id status payments with
  | (Fail st msg, payments') =>
      payments' = payments /\
      (st = 400 /\ msg = "Invalid payment ID" /\ isValidObjectId id = false \/
       st = 400 /\ msg = "Invalid status" /\ isValidObjectId id = true /\
         (forall s, status = VStr s -> s ∉ validStatuses) \/
       st = 404 /\ msg = "Payment not found" /\ isValidObjectId id = true /\
         (exists s, status = VStr s /\ s ∈ validStatuses) /\
         findById (castObjectId id) payments = None)
  | (Json st p, _) =>
      st = 200 /\ isValidObjectId id = true /\
      exists s old, status = VStr s /\ s ∈ validStatuses /\
        findById (castObjectId id) payments = Some old /\
        p = set_status s old
  | (Thrown _, _) => False
  end.
Proof.
  unfold updatePaymentStatus.
  destruct (isValidObjectId id) eqn:Hid; cbn [negb].
  2: { split; [reflexivity |]. left. auto. }
  assert (Hother : (forall s, status <> VStr s) ->
            forall s, status = VStr s -> s ∉ validStatuses).
  { intros Hn s Hs. exfalso. apply (Hn s), Hs. }
  destruct status as [| | b | n | s];
    try (split; [reflexivity |]; right; left;
         repeat split; try reflexivity; apply Hother; intros s; discriminate).
  destruct (existsb (String.eqb s) validStatuses) eqn:Hs.
  - assert (Hin : s ∈ validStatuses) by (apply existsb_elem, Hs).
    pose proof (valid_status_truthy s Hin) as Ht. rewrite Hs in Ht.
    rewrite Ht.
    destruct (findById (castObjectId id) payments) as [old |] eqn:Hfind.
    + split; [reflexivity |]. split; [reflexivity |].
      exists s, old. auto.
    + split; [reflexivity |]. right. right.
      repeat split; try reflexivity. exists s. auto.
  - rewrite orb_true_r. split; [reflexivity |]. right. left.
    repeat split; try reflexivity.
    intros s' E. inversion E; subst s'. intros Hin.
    apply existsb_elem in Hin. congruence.
Qed.

(** X16.  An accepted status update replaces exactly one stored payment, in
    place: the first one with the id.  It gets the new status and keeps its
    amount, order, intent id and creation time; looking it up afterwards
    gives the updated payment, and every other lookup is as before. *)
Theorem status_update_changes_one_payment
    (id s : string) (payments : list Payment) (old : Payment) :
  isValidObjectId id = true ->
  s ∈ validStatuses ->
  findById (castObjectId id) payments = Some old ->
  exists before after updated,
    payments = before ++ old :: after /\
    updatePaymentStatus id (VStr s) payments =
      (Json 200 updated, before ++ updated :: after) /\
    status updated = s /\
    p_id updated = p_id old /\ totalAmount updated = totalAmount old /\
    order updated = order old /\ intentId updated = intentId old /\
    createdAt updated = createdAt old /\
    findById (castObjectId id) (before ++ updated :: after) = Some updated /\
    forall j, j <> castObjectId id ->
      findById j (before ++ updated :: after) = findById j payments.
Proof.
  intros Hid Hs Hfind.
  destruct (updatePaymentStatus_replaces id s payments old Hid Hs Hfind)
    as (before & after & Hsplit & Hb & Hupd).
  pose proof (findById_id _ _ _ Hfind) as Hpid.
  exists before, after, (set_status s old).
  repeat (split; [first [exact Hsplit | exact Hupd | reflexivity] |]).
  split.
  - rewrite findById_app by exact Hb. cbn [set_status p_id].
    rewrite Hpid, N.eqb_refl. reflexivity.
  - intros j Hj. rewrite Hsplit. apply findById_app_other; [reflexivity |].
    cbn [set_status p_id]. rewrite Hpid. exact Hj.
Qed.

Lemma save_save (a b : Payment) (payments : list Payment) :
  p_id a = p_id b -> save b (save a payments) = save b payments.
Proof.
  intros Hid. induction payments as [| p r IH]; cbn [save]; [reflexivity |].
  rewrite Hid.
  destruct (N.eqb_spec (p_id p) (p_id b)) as [E | E]; cbn [save].
  - rewrite Hid, N.eqb_refl. reflexivity.
  - destruct (N.eqb_spec (p_id p) (p_id b)) as [E' | _]; [contradiction |].
    rewrite IH. reflexivity.
Qed.

Lemma findById_save (p' : Payment) (payments : list Payment) (p : Payment) :
  findById (p_id p') payments = Some p ->
  findById (p_id p') (save p' payments) = Some p'.
Proof.
  unfold findById.
  induction payments as [| x r IH]; cbn [List.find save]; [discriminate |].
  destruct (N.eqb_spec (p_id x) (p_id p')) as [E | E]; cbn [List.find].
  - intros _. rewrite N.eqb_refl. reflexivity.
  - destruct (N.eqb_spec (p_id x) (p_id p')) as [E' | _]; [contradiction |].
    exact IH.
Qed.

(** X17.  Status updates of one payment compose as "the last one wins": after
    an accepted update, a second update of the same payment answers and
    stores exactly what it would have without the first.  In particular,
    repeating an update changes nothing more. *)
Theorem last_status_update_wins
    (id s1 s2 : string) (payments payments1 : list Payment) (p1 : Payment) :
  updatePaymentStatus id (VStr s1) payments = (Json 200 p1, payments1) ->
  s2 ∈ validStatuses ->
  updatePaymentStatus id (VStr s2) payments1 =
    updatePaymentStatus id (VStr s2) payments /\
  updatePaymentStatus id (VStr s1) payments1 = (Json 200 p1, payments1).
Proof.
  intros H1 Hs2.
  unfold updatePaymentStatus in H1.
  destruct (isValidObjectId id) eqn:Hid; cbn [negb] in H1; [| discriminate].
  destruct (negb (truthy (VStr s1)) ||
            negb (existsb (String.eqb s1) validStatuses)) eqn:Hs1;
    [discriminate |].
  destruct (findById (castObjectId id) payments) as [old |] eqn:Hfind;
    [| discriminate].
  inversion H1 as [[Hp1 Hpay1]]. clear H1.
  pose proof (findById_id _ _ _ Hfind) as Hpid.
  assert (Hfind1 : findById (castObjectId id) (save (set_status s1 old) payments)
                   = Some (set_status s1 old)).
  { rewrite <- Hpid in Hfind |- *.
    exact (findById_save (set_status s1 old) payments old Hfind). }
  unfold updatePaymentStatus. rewrite Hid. cbn [negb].
  rewrite (valid_status_truthy s2 Hs2), Hs1, Hfind1, Hfind.
  split; f_equal.
  - apply (save_save (set_status s1 old) (set_status s2 old)). reflexivity.
  - apply (save_save (set_status s1 old) (set_status s1 old)). reflexivity.
Qed.

End StatusUpdate.

(** ** Analytics: totals over all payments *)

Section AnalyticsSums.
Import Payments.

Lemma sum_of_cons {A} (amount : A -> Qc) (x : A) (l : list A) :
  sum_of amount (x :: l) = (amount x + sum_of amount l)%Qc.
Proof. reflexivity. Qed.

Lemma sum_of_nil {A} (amount : A -> Qc) : sum_of amount [] = Q2Qc 0.
Proof. reflexivity. Qed.

Lemma sum_of_app {A} (amount : A -> Qc) (a b : list A) :
  sum_of amount (a ++ b) = (sum_of amount a + sum_of amount b)%Qc.
Proof.
  induction a as [| x a IH]; cbn [app].
  - rewrite sum_of_nil. ring.
  - rewrite !sum_of_cons, IH. ring.
Qed.

Lemma number_of_cons {A} (count : A -> Z) (x : A) (l : list A) :
  number_of count (x :: l) = count x + number_of count l.
Proof. reflexivity. Qed.

Lemma number_of_app {A} (count : A -> Z) (a b : list A) :
  number_of count (a ++ b) = number_of count a + number_of count b.
Proof.
  induction a as [| x a IH]; cbn [app]; [reflexivity |].
  rewrite !number_of_cons, IH. lia.
Qed.

Lemma sum_of_perm {A} (amount : A -> Qc) (a b : list A) :
  a ≡ₚ b -> sum_of amount a = sum_of amount b.
Proof.
  induction 1 as [| x a b _ IH | x y a | a b c _ IH1 _ IH2].
  - reflexivity.
  - rewrite !sum_of_cons, IH. reflexivity.
  - rewrite !sum_of_cons. ring.
  - congruence.
Qed.

Lemma number_of_perm {A} (count : A -> Z) (a b : list A) :
  a ≡ₚ b -> number_of count a = number_of count b.
Proof.
  induction 1 as [| x a b _ IH | x y a | a b c _ IH1 _ IH2].
  - reflexivity.
  - rewrite !number_of_cons, IH. reflexivity.
  - rewrite !number_of_cons. lia.
  - congruence.
Qed.

Lemma sum_of_map {A B} (f : A -> B) (amount : B -> Qc) (l : list A) :
  sum_of amount (map f l) = sum_of (fun x => amount (f x)) l.
Proof.
  induction l as [| x l IH]; [reflexivity |].
  cbn [map]. rewrite !sum_of_cons, IH. reflexivity.
Qed.

Lemma number_of_map {A B} (f : A -> B) (count : B -> Z) (l : list A) :
  number_of count (map f l) = number_of (fun x => count (f x)) l.
Proof.
  induction l as [| x l IH]; [reflexivity |].
  cbn [map]. rewrite !number_of_cons, IH. reflexivity.
Qed.

(** The payments of a status, counted and summed one payment at a time. *)
Lemma length_with_status (s : string) (payments : list Payment) :
  Z.of_nat (length (with_status s payments)) = number_of (counts_as s) payments.
Proof.
  unfold with_status, counts_as.
  induction payments as [| p r IH]; [reflexivity |].
  rewrite number_of_cons, <- IH.
  destruct (String.eqb_spec (status p) s) as [E | E].
  - rewrite filter_cons_True by exact E. cbn [length]. lia.
  - rewrite filter_cons_False by exact E. lia.
Qed.

Lemma sum_with_status (s : string) (payments : list Payment) :
  sum_of totalAmount (with_status s payments) =
  sum_of (fun p => if String.eqb (status p) s then totalAmount p else Q2Qc 0)
         payments.
Proof.
  unfold with_status.
  induction payments as [| p r IH]; [reflexivity |].
  rewrite (sum_of_cons _ p r), <- IH.
  destruct (String.eqb_spec (status p) s) as [E | E].
  - rewrite filter_cons_True by exact E. reflexivity.
  - rewrite filter_cons_False by exact E. ring.
Qed.

(** What the status aggregation gives for one status. *)
Lemma status_totals (s : string) (payments : list Payment) :
  count_or_0 (g_count <$> find_status s
                (group_stage String.eqb status totalAmount payments))
  = Z.of_nat (length (with_status s payments)) /\
  amount_or_0 (g_amount <$> find_status s
                 (group_stage String.eqb status totalAmount payments))
  = sum_of totalAmount (with_status s payments).
Proof.
  unfold find_status.
  change (List.find (fun g => String.eqb (g_id g) s) ?gs)
    with (find_group String.eqb s gs).
  rewrite (find_group_stage String.eqb status totalAmount string_eqb_eq).
  rewrite count_or_0_group, amount_or_0_group, members_with_status.
  split; reflexivity.
Qed.

Lemma total_revenue_paid (payments : list Payment) :
  amount_or_0 (g_amount <$> head
     (group_stage (fun _ _ : unit => true) (fun _ => tt) totalAmount
        (filter (fun p => is_paid p = true) payments)))
  = sum_of totalAmount (with_status "paid" payments).
Proof.
  rewrite head_find.
  change (List.find (fun _ => true) ?gs)
    with (find_group (fun _ _ : unit => true) tt gs).
  rewrite (find_group_stage (fun _ _ : unit => true) (fun _ => tt) totalAmount)
    by (intros [] []; split; reflexivity).
  rewrite amount_or_0_group. unfold members.
  rewrite <- paid_with_status. f_equal.
  apply filter_all. reflexivity.
Qed.

(** The nine totals of an analytics answer. *)
Lemma getPaymentAnalytics_totals (env : Env) (period : option string)
    (payments : list Payment) :
  exists a,
    getPaymentAnalytics env period payments = Json 200 a /\
    totalRevenue a = sum_of totalAmount (with_status "paid" payments) /\
    (pendingPayments a = number_of (counts_as "pending") payments /\
     completedPayments a = number_of (counts_as "paid") payments /\
     failedPayments a = number_of (counts_as "failed") payments /\
     refundedPayments a = number_of (counts_as "refunded") payments) /\
    (pendingAmount a = sum_of totalAmount (with_status "pending" payments) /\
     completedAmount a = sum_of totalAmount (with_status "paid" payments) /\
     failedAmount a = sum_of totalAmount (with_status "failed" payments) /\
     refundedAmount a = sum_of totalAmount (with_status "refunded" payments)).
Proof.
  eexists. split; [reflexivity |].
  cbn [totalRevenue pendingPayments pendingAmount completedPayments
       completedAmount failedPayments failedAmount refundedPayments
       refundedAmount].
  split; [apply total_revenue_paid |].
  rewrite <- !length_with_status.
  destruct (status_totals "pending" payments) as [-> ->].
  destruct (status_totals "paid" payments) as [-> ->].
  destruct (status_totals "failed" payments) as [-> ->].
  destruct (status_totals "refunded" payments) as [-> ->].
  repeat split; reflexivity.
Qed.

Lemma counts_of_a_payment (p : Payment) :
  0 <= counts_as "pending" p + counts_as "paid" p + counts_as "failed" p +
       counts_as "refunded" p <= 1 /\
  (status p ∈ validStatuses ->
   counts_as "pending" p + counts_as "paid" p + counts_as "failed" p +
   counts_as "refunded" p = 1).
Proof.
  unfold counts_as, validStatuses.
  destruct (String.eqb_spec (status p) "pending") as [E1 | E1];
    [rewrite E1; cbn; split; [lia | reflexivity] |].
  destruct (String.eqb_spec (status p) "paid") as [E2 | E2];
    [rewrite E2; cbn; split; [lia | reflexivity] |].
  destruct (String.eqb_spec (status p) "failed") as [E3 | E3];
    [rewrite E3; cbn; split; [lia | reflexivity] |].
  destruct (String.eqb_spec (status p) "refunded") as [E4 | E4];
    [rewrite E4; cbn; split; [lia | reflexivity] |].
  split; [lia |]. intros Hs.
  repeat (apply elem_of_cons in Hs as [Hs | Hs]; [contradiction |]).
  apply elem_of_nil in Hs. contradiction.
Qed.

(** X18.  The analytics handler always answers; [completedAmount] is the
    same number as [totalRevenue]; the four status counts never add up to
    more than the number of payments; and when every payment has one of the
    four statuses that [updatePaymentStatus] accepts, the four counts add up
    to the number of payments and the four amounts to the sum of all
    amounts. *)
Theorem analytics_counts_cover_the_payments
    (env : Env) (period : option string) (payments : list Payment) :
  exists a,
    getPaymentAnalytics env period payments = Json 200 a /\
    completedAmount a = totalRevenue a /\
    0 <= pendingPayments a + completedPayments a + failedPayments a +
         refundedPayments a <= Z.of_nat (length payments) /\
    ((forall p, p ∈ payments -> status p ∈ validStatuses) ->
     pendingPayments a + completedPayments a + failedPayments a +
       refundedPayments a = Z.of_nat (length payments) /\
     (pendingAmount a + completedAmount a + failedAmount a +
        refundedAmount a)%Qc = sum_of totalAmount payments).
Proof.
  destruct (getPaymentAnalytics_totals env period payments)
    as (a & Ha & Hrev & (Hc1 & Hc2 & Hc3 & Hc4) & (Ha1 & Ha2 & Ha3 & Ha4)).
  exists a. split; [exact Ha |]. split; [congruence |].
  rewrite Hc1, Hc2, Hc3, Hc4, Ha1, Ha2, Ha3, Ha4. clear.
  split.
  - induction payments as [| p r IH]; [cbn; lia |].
    rewrite !number_of_cons. cbn [length].
    pose proof (counts_of_a_payment p) as [Hp _]. lia.
  - intros Hall. split.
    + induction payments as [| p r IH]; [reflexivity |].
      rewrite !number_of_cons. cbn [length].
      pose proof (counts_of_a_payment p) as [_ Hp].
      rewrite Nat2Z.inj_succ.
      specialize (Hp (Hall p ltac:(left))).
      specialize (IH ltac:(intros q Hq; apply Hall; right; exact Hq)).
      lia.
    + rewrite !sum_with_status.
      induction payments as [| p r IH]; [cbn; ring |].
      rewrite !sum_of_cons.
      specialize (IH ltac:(intros q Hq; apply Hall; right; exact Hq)).
      rewrite <- IH.
      pose proof (Hall p ltac:(left)) as Hs. unfold validStatuses in Hs.
      repeat (apply elem_of_cons in Hs as [-> | Hs]);
        [cbn [String.eqb Ascii.eqb Bool.eqb]; ring .. |].
      apply elem_of_nil in Hs. contradiction.
Qed.

(** With the example ledger, whose six payments are pending, paid or
    failed. *)
Lemma analytics_counts_cover_the_payments_witness :
  exists a,
    getPaymentAnalytics ListingExamples.utc None ListingExamples.ledger
      = Json 200 a /\
    pendingPayments a + completedPayments a + failedPayments a +
      refundedPayments a = 6.
Proof.
  destruct (analytics_counts_cover_the_payments ListingExamples.utc None
              ListingExamples.ledger) as (a & Ha & _ & _ & Hall).
  exists a. split; [exact Ha |].
  apply Hall. intros p Hp. unfold ListingExamples.ledger in Hp.
  repeat (apply elem_of_cons in Hp as [-> | Hp]);
    [vm_compute; repeat constructor .. |].
  apply elem_of_nil in Hp. contradiction.
Defined.

(** ** Analytics after a status update *)

Lemma number_of_replace {A} (count : A -> Z) (before after : list A) (x y : A) :
  number_of count (before ++ y :: after) =
  number_of count (before ++ x :: after) - count x + count y.
Proof. rewrite !number_of_app, !number_of_cons. lia. Qed.

Lemma paid_sum (payments : list Payment) :
  sum_of totalAmount (with_status "paid" payments) = sum_of paid_amount payments.
Proof. apply sum_with_status. Qed.

(** X19.  What a status update does to the analytics: the revenue loses the
    amount of the payment if it was paid and gains it if it is paid now, and
    each status count loses the payment if it had that status and gains it
    if it has it now.  So marking an unpaid payment as paid adds its amount
    to [totalRevenue] and one to [completedPayments]. *)
Theorem status_update_moves_the_totals
    (env : Env) (period : option string) (id s : string)
    (payments : list Payment) (old : Payment) :
  isValidObjectId id = true ->
  s ∈ validStatuses ->
  findById (castObjectId id) payments = Some old ->
  exists payments' a a',
    updatePaymentStatus id (VStr s) payments
      = (Json 200 (set_status s old), payments') /\
    getPaymentAnalytics env period payments = Json 200 a /\
    getPaymentAnalytics env period payments' = Json 200 a' /\
    totalRevenue a' =
      (totalRevenue a - paid_amount old + paid_amount (set_status s old))%Qc /\
    pendingPayments a' = pendingPayments a - counts_as "pending" old
                         + counts_as "pending" (set_status s old) /\
    completedPayments a' = completedPayments a - counts_as "paid" old
                           + counts_as "paid" (set_status s old) /\
    failedPayments a' = failedPayments a - counts_as "failed" old
                        + counts_as "failed" (set_status s old) /\
    refundedPayments a' = refundedPayments a - counts_as "refunded" old
                          + counts_as "refunded" (set_status s old) /\
    (status old <> "paid" -> s = "paid" ->
     totalRevenue a' = (totalRevenue a + totalAmount old)%Qc /\
     completedPayments a' = completedPayments a + 1).
Proof.
  intros Hid Hs Hfind.
  destruct (updatePaymentStatus_replaces id s payments old Hid Hs Hfind)
    as (before & after & Hsplit & _ & Hupd).
  destruct (getPaymentAnalytics_totals env period payments)
    as (a & Ha & Hrev & (Hc1 & Hc2 & Hc3 & Hc4) & _).
  destruct (getPaymentAnalytics_totals env period
              (before ++ set_status s old :: after))
    as (a' & Ha' & Hrev' & (Hc1' & Hc2' & Hc3' & Hc4') & _).
  exists (before ++ set_status s old :: after), a, a'.
  split; [exact Hupd |]. split; [exact Ha |]. split; [exact Ha' |].
  rewrite paid_sum in Hrev, Hrev'.
  assert (Erev : totalRevenue a' =
            (totalRevenue a - paid_amount old
             + paid_amount (set_status s old))%Qc).
  { rewrite Hrev, Hrev', Hsplit, !sum_of_app, !sum_of_cons. ring. }
  assert (Ec : forall t,
            number_of (counts_as t) (before ++ set_status s old :: after) =
            number_of (counts_as t) payments - counts_as t old
            + counts_as t (set_status s old)).
  { intros t. rewrite Hsplit. apply number_of_replace. }
  rewrite Hc1, Hc2, Hc3, Hc4, Hc1', Hc2', Hc3', Hc4'.
  repeat (split; [first [exact Erev | apply Ec] |]).
  intros Hold ->.
  rewrite Erev, Ec. unfold paid_amount, counts_as, is_paid.
  cbn [set_status status totalAmount].
  destruct (String.eqb_spec (status old) "paid") as [E | _]; [contradiction |].
  change (String.eqb "paid" "paid") with true. cbv iota.
  split; [ring | lia].
Qed.

(** Marking the pending payment of Bob in the example ledger as paid adds
    its amount, 5, to the revenue of 38. *)
Lemma status_update_moves_the_totals_witness :
  exists payments' a a',
    updatePaymentStatus "000000000000000000000002" (VStr "paid")
        ListingExamples.ledger
      = (Json 200 (set_status "paid" second_payment), payments') /\
    getPaymentAnalytics ListingExamples.utc None ListingExamples.ledger
      = Json 200 a /\
    getPaymentAnalytics ListingExamples.utc None payments' = Json 200 a' /\
    totalRevenue a' = (totalRevenue a + Q2Qc 5)%Qc /\
    completedPayments a' = completedPayments a + 1.
Proof.
  destruct (status_update_moves_the_totals ListingExamples.utc None
              "000000000000000000000002" "paid" ListingExamples.ledger
              second_payment)
    as (payments' & a & a' & Hupd & Ha & Ha' & _ & _ & _ & _ & _ & Hpaid).
  - vm_compute. reflexivity.
  - vm_compute. repeat constructor.
  - vm_compute. reflexivity.
  - exists payments', a, a'.
    split; [exact Hupd |]. split; [exact Ha |]. split; [exact Ha' |].
    apply Hpaid; [discriminate | reflexivity].
Defined.

(** ** The revenue trend as a whole *)

Lemma accumulate_totals {K} (eqb : K -> K -> bool) (k : K) (a : Qc)
    (gs : list (group K)) :
  number_of g_count (accumulate eqb k a gs) = number_of g_count gs + 1 /\
  sum_of g_amount (accumulate eqb k a gs) = (sum_of g_amount gs + a)%Qc.
Proof.
  induction gs as [| g r [IHc IHa]]; cbn [accumulate].
  - split; [reflexivity | cbn; ring].
  - destruct (eqb (g_id g) k).
    + rewrite !number_of_cons, !sum_of_cons. cbn [g_count g_amount].
      split; [lia | ring].
    + rewrite !number_of_cons, !sum_of_cons, IHc, IHa.
      split; [lia | ring].
Qed.

Lemma group_stage_totals {A K} (eqb : K -> K -> bool) (key : A -> K)
    (amount : A -> Qc) (docs : list A) :
  number_of g_count (group_stage eqb key amount docs) = Z.of_nat (length docs) /\
  sum_of g_amount (group_stage eqb key amount docs) = sum_of amount docs.
Proof.
  induction docs as [| d docs [IHc IHa]] using rev_ind; [split; reflexivity |].
  rewrite group_stage_snoc.
  destruct (accumulate_totals eqb (key d) (amount d)
              (group_stage eqb key amount docs)) as [-> ->].
  rewrite IHc, IHa, length_app, sum_of_snoc. cbn [length].
  split; [lia | reflexivity].
Qed.

(** X20.  The revenue trend accounts for every covered payment exactly
    once: over all its entries, the counts add up to the number of paid
    payments created within the window, and the revenues to the sum of their
    amounts. *)
Theorem revenue_trend_totals
    (env : Env) (period_param : option string) (payments : list Payment) :
  exists a,
    getPaymentAnalytics env period_param payments = Json 200 a /\
    number_of count (revenueTrend a) =
      Z.of_nat (length (trend_records env (default_to "monthly" period_param)
                          payments)) /\
    sum_of revenue (revenueTrend a) =
      sum_of totalAmount (trend_records env (default_to "monthly" period_param)
                            payments).
Proof.
  eexists. split; [reflexivity |].
  cbn [revenueTrend].
  rewrite in_trend_records.
  rewrite number_of_map, sum_of_map. cbn [count revenue].
  unfold sort_docs.
  rewrite (number_of_perm _ _ _ (sort_by_perm _ _)).
  rewrite (sum_of_perm _ _ _ (sort_by_perm _ _)).
  apply group_stage_totals.
Qed.

End AnalyticsSums.

(** ** The theorems on payments at the example ledger *)

Section PaymentUpdateExamples.
Import Payments.

(** The newest payment that [paid_by_alice] lists is the third of the
    ledger: it is paid, it lies between the two dates, and its customer is
    Alice. *)
Lemma listed_payments_pass_the_filters_witness :
  let third := ListingExamples.payment 3 "Alice" "paid" 7
                 (ListingExamples.day 2024 1 12 + 5) in
  third ∈ ListingExamples.ledger /\
  status third = "paid" /\
  ListingExamples.day 2024 1 10 <= createdAt third /\
  createdAt third <= ListingExamples.day 2024 1 12 + 86399999 /\
  search_matches ascii_engine "alice" third = true.
Proof.
  intros third.
  destruct (listed_payments_pass_the_filters ListingExamples.utc paid_by_alice
              ListingExamples.ledger
              (ListingExamples.listing_of
                 (getAllPayments ListingExamples.utc paid_by_alice
                    ListingExamples.ledger))
              third)
    as (Hin & Hstatus & Hstart & Hend & Hsearch).
  - vm_compute. reflexivity.
  - apply list_elem_of_lookup_2 with 0%nat. vm_compute. reflexivity.
  - split; [exact Hin |].
    split; [apply (Hstatus "paid"); [reflexivity | discriminate | discriminate] |].
    split; [apply (Hstart "2024-01-10"); [reflexivity | vm_compute; reflexivity] |].
    split; [| apply (Hsearch ltac:(intros s _; reflexivity) "alice");
              [reflexivity | discriminate]].
    pose proof (Hend "2024-01-12" (ListingExamples.day 2024 1 12) eq_refl) as H.
    replace (setHours (tz ListingExamples.utc) 23 59 59 999
               (ListingExamples.day 2024 1 12))
      with (ListingExamples.day 2024 1 12 + 86399999) in H
      by (vm_compute; reflexivity).
    apply H. vm_compute. reflexivity.
Defined.

(** Refunding the second payment of the ledger. *)
Lemma status_update_changes_one_payment_witness :
  exists before after updated,
    ListingExamples.ledger = before ++ second_payment :: after /\
    updatePaymentStatus "000000000000000000000002" (VStr "refunded")
        ListingExamples.ledger
      = (Json 200 updated, before ++ updated :: after) /\
    status updated = "refunded" /\
    totalAmount updated = totalAmount second_payment.
Proof.
  destruct (status_update_changes_one_payment "000000000000000000000002"
              "refunded" ListingExamples.ledger second_payment)
    as (before & after & updated & Hsplit & Hupd & Hst & _ & Hamount & _).
  - vm_compute. reflexivity.
  - vm_compute. repeat constructor.
  - vm_compute. reflexivity.
  - exists before, after, updated. auto.
Defined.

(** Marking the second payment as paid and then refunding it is the same as
    refunding it at once. *)
Lemma last_status_update_wins_witness :
  updatePaymentStatus "000000000000000000000002" (VStr "refunded")
    (snd (updatePaymentStatus "000000000000000000000002" (VStr "paid")
            ListingExamples.ledger))
  = updatePaymentStatus "000000000000000000000002" (VStr "refunded")
      ListingExamples.ledger.
Proof.
  apply (last_status_update_wins "000000000000000000000002" "paid" "refunded"
           ListingExamples.ledger
           (snd (updatePaymentStatus "000000000000000000000002" (VStr "paid")
                   ListingExamples.ledger))
           (set_status "paid" second_payment)).
  - vm_compute. reflexivity.
  - vm_compute. repeat constructor.
Defined.

End PaymentUpdateExamples.

(** ** Settings: the readers and validation *)

Section SettingsReaders.
Import SettingsCtl.

(** X21.  The settings document is created on the first read, by whichever
    handler reads first, with the schema defaults; after that every read
    returns the stored document and leaves the store alone.  [getSettings]
    sends the whole document and [getPublicConfig] six of its fields. *)
Theorem settings_document_is_created_once (st : Store) :
  exists s,
    getSettingsHandler st = (Json 200 s, Some s) /\
    getPublicConfig st = (Json 200 (public_part s), Some s) /\
    getSettingsHandler (Some s) = (Json 200 s, Some s) /\
    getPublicConfig (Some s) = (Json 200 (public_part s), Some s) /\
    match st with
    | None => s = defaults
    | Some stored => s = stored
    end.
Proof.
  destruct st as [stored |].
  - exists stored. repeat split; reflexivity.
  - exists defaults. repeat split; reflexivity.
Qed.

Lemma updateSettings_accepted (engine : Engine) (body : Payload) (st : Store)
    (s : Settings) (st' : Store) :
  updateSettings engine body st = (Json 200 s, st') ->
  s = assign engine body (current st) /\ st' = Some s /\ valid s = true.
Proof.
  unfold updateSettings, current.
  destruct (getSettings st) as [settings st1]. cbn [fst].
  destruct (valid (assign engine body settings)) eqn:Hv; [| discriminate].
  intros H. inversion H; subst. auto.
Qed.

(** X22.  After an accepted update both readers show the updated document:
    [getSettings] answers with exactly the document the update answered
    with, [getPublicConfig] with its six public fields, and neither changes
    the store.  The stored document passes validation. *)
Theorem settings_readers_show_the_update
    (engine : Engine) (body : Payload) (st : Store) (s : Settings)
    (st' : Store) :
  updateSettings engine body st = (Json 200 s, st') ->
  getSettingsHandler st' = (Json 200 s, st') /\
  getPublicConfig st' = (Json 200 (public_part s), st') /\
  valid s = true.
Proof.
  intros H. apply updateSettings_accepted in H as (_ & -> & Hv).
  split; [reflexivity | split; [reflexivity | exact Hv]].
Qed.

(** Renaming the site of a store in maintenance. *)
Lemma settings_readers_show_the_update_witness :
  let s := assign ascii_engine (only_siteName "  Shop ") in_maintenance in
  getSettingsHandler (Some s) = (Json 200 s, Some s) /\
  pc_siteName (public_part s) = VStr "Shop" /\
  pc_maintenanceMode (public_part s) = VBool true.
Proof.
  intros s.
  destruct (settings_readers_show_the_update ascii_engine
              (only_siteName "  Shop ") (Some in_maintenance) s (Some s))
    as (Hget & _ & _).
  - vm_compute. reflexivity.
  - split; [exact Hget |]. split; vm_compute; reflexivity.
Defined.

(** A printed number is not a currency code: it starts with a digit, a
    minus sign, or the I of Infinity or the N of NaN. *)
Lemma decimal_digit_no_currency (d : Z) (r : string) :
  existsb (String.eqb (String (decimal_digit d) r)) currencies = false.
Proof.
  unfold decimal_digit.
  assert (H : 0 <= d mod 10 < 10) by (apply Z.mod_pos_bound; lia).
  assert (E : d mod 10 = 0 \/ d mod 10 = 1 \/ d mod 10 = 2 \/ d mod 10 = 3 \/
              d mod 10 = 4 \/ d mod 10 = 5 \/ d mod 10 = 6 \/ d mod 10 = 7 \/
              d mod 10 = 8 \/ d mod 10 = 9) by lia.
  repeat (destruct E as [E | E]; [rewrite E; reflexivity |]).
  rewrite E. reflexivity.
Qed.

Lemma decimal_digits_head (w : nat) (n : Z) (acc : string) :
  exists d r, decimal_digits (S w) n acc = String (decimal_digit d) r.
Proof.
  revert n acc. induction w as [| w IH]; intros n acc.
  - exists n, acc. reflexivity.
  - change (decimal_digits (S (S w)) n acc)
      with (decimal_digits (S w) (n / 10) (String (decimal_digit n) acc)).
    apply IH.
Qed.

Lemma print_positive_no_currency (x : Qc) :
  existsb (String.eqb (print_positive x)) currencies = false.
Proof.
  unfold print_positive.
  destruct (shortest 17 x (exponent10 x + 1) 1) as [[s n] k].
  destruct ((k <=? n) && (n <=? 21)).
  { destruct (decimal_digits_head (Z.to_nat (k - 1)) s (zeros (n - k) ""))
      as (d & r & ->). apply decimal_digit_no_currency. }
  destruct ((0 <? n) && (n <=? 21)).
  { match goal with
    | |- context [decimal_digits (S ?w) ?m ?acc] =>
        destruct (decimal_digits_head w m acc) as (d & r & ->)
    end. apply decimal_digit_no_currency. }
  destruct ((-6 <? n) && (n <=? 0)); [reflexivity |].
  cbv zeta.
  match goal with
  | |- context [decimal_digits 1 ?m ?acc] =>
      destruct (decimal_digits_head 0 m acc) as (d & r & ->)
  end. apply decimal_digit_no_currency.
Qed.

Lemma Number_toString_no_currency (n : number) :
  existsb (String.eqb (Number_toString n)) currencies = false.
Proof.
  destruct n as [| [|] | q]; try reflexivity.
  unfold Number_toString.
  destruct (Qc_is_zero q); [reflexivity |].
  destruct (Qc_negative q); [reflexivity |].
  apply print_positive_no_currency.
Qed.

Lemma valid_assign (engine : Engine) (body settings : Settings) :
  valid settings = true -> valid (assign engine body settings) = accepted body.
Proof.
  unfold valid, accepted, assign.
  cbn [currency maintenanceMode].
  intros Hv. apply andb_true_iff in Hv as [Hc Hm].
  f_equal.
  - destruct (truthy (currency body)) eqn:Ht; [| exact Hc].
    destruct (currency body) as [| | b | n | c];
      cbn [setter cast_string]; try discriminate Ht.
    + destruct b; reflexivity.
    + apply Number_toString_no_currency.
    + reflexivity.
  - destruct (maintenanceMode body) as [| | b | n | c];
      cbn [defined setter cast_boolean default_to]; try reflexivity;
      try exact Hm.
    + destruct n as [| neg | q]; cbn [default_to]; try reflexivity.
      destruct (Qeq_bool q 1); [reflexivity |].
      destruct (Qc_is_zero q); reflexivity.
    + destruct (existsb (String.eqb c) ["true"; "1"; "yes"]%string);
        [reflexivity |].
      destruct (existsb (String.eqb c) ["false"; "0"; "no"]%string);
        reflexivity.
Qed.

(** X23.  When the stored settings are valid, an update is accepted exactly
    when its [currency], if truthy, is one of the five codes and its
    [maintenanceMode], if present, can be cast to a Boolean.  An accepted
    update stores a valid document; a refused one raises a validation error
    and the readers still see the settings as they were. *)
Theorem settings_update_validation
    (engine : Engine) (body : Payload) (st : Store) :
  valid (current st) = true ->
  if accepted body
  then exists s,
         updateSettings engine body st = (Json 200 s, Some s) /\ valid s = true
  else exists st',
         updateSettings engine body st = (Thrown "ValidationError", st') /\
         getSettingsHandler st' = (Json 200 (current st), st') /\
         getPublicConfig st' = (Json 200 (public_part (current st)), st').
Proof.
  unfold current, updateSettings. intros Hv.
  pose proof (valid_assign engine body (fst (getSettings st)) Hv) as Hva.
  destruct st as [stored |]; cbn [getSettings fst] in *;
    rewrite Hva; destruct (accepted body);
    first [ eexists; split; [reflexivity | exact Hva]
          | eexists; repeat split; reflexivity ].
Qed.

(** A currency outside the five codes is refused on a fresh store, and the
    defaults stay. *)
Lemma settings_update_validation_witness :
  exists st',
    updateSettings ascii_engine (only_currency "BTC") None
      = (Thrown "ValidationError", st') /\
    getSettingsHandler st' = (Json 200 defaults, st') /\
    getPublicConfig st' = (Json 200 (public_part defaults), st').
Proof.
  exact (settings_update_validation ascii_engine (only_currency "BTC") None
           eq_refl).
Defined.

(** X24.  Updating the settings is idempotent: sending an accepted body a
    second time answers with the same document and leaves the store as the
    first update left it. *)
Theorem settings_update_is_idempotent
    (engine : Engine) (body : Payload) (st : Store) (s : Settings)
    (st' : Store) :
  updateSettings engine body st = (Json 200 s, st') ->
  updateSettings engine body st' = (Json 200 s, st').
Proof.
  intros H. apply updateSettings_accepted in H as (Hs & -> & Hv).
  unfold updateSettings. cbn [getSettings].
  assert (E : assign engine body s = s).
  { rewrite Hs. unfold assign.
    cbn [siteName siteDescription contactEmail contactPhone currency timezone
         maintenanceMode].
    f_equal;
      match goal with |- (if ?b then _ else _) = _ => destruct b; reflexivity end. }
  rewrite E, Hv. reflexivity.
Qed.

Lemma settings_update_is_idempotent_witness :
  let s := assign ascii_engine (only_currency "PKR") in_maintenance in
  updateSettings ascii_engine (only_currency "PKR") (Some s)
    = (Json 200 s, Some s).
Proof.
  intros s.
  apply (settings_update_is_idempotent ascii_engine (only_currency "PKR")
           (Some in_maintenance) s (Some s)).
  vm_compute. reflexivity.
Defined.

End SettingsReaders.

(** ** The mail helper *)

Section MailGuard.
Import Mail.

(** X25.  [sendMail] hands a message to the transport only when the
    recipient, the subject and the text are all truthy; otherwise it answers
    [false] and sends nothing.  It hands over at most one message, which
    carries the text either as plain text or as HTML, never both, and it
    answers [true] exactly when that message was delivered. *)
Theorem sendMail_guard
    (env : Env) (to subject text : value) (html : option value) :
  match sendMail env to subject text html with
  | (ok, []) =>
      ok = false /\ truthy to && truthy subject && truthy text = false
  | (ok, [m]) =>
      truthy to && truthy subject && truthy text = true /\
      ok = delivers env m /\
      m_from m = NODEMAILER_FROM env /\ m_to m = to /\ m_subject m = subject /\
      (if truthy (default_to (VBool false) html)
       then m_html m = text /\ m_text m = VUndefined
       else m_text m = text /\ m_html m = VUndefined)
  | (_, _ :: _ :: _) => False
  end.
Proof.
  unfold sendMail.
  destruct (truthy to), (truthy subject), (truthy text); cbn [negb orb andb];
    try (split; reflexivity).
  repeat (split; [reflexivity |]). cbn [m_html m_text].
  destruct (truthy (default_to (VBool false) html)); split; reflexivity.
Qed.

End MailGuard.
